(** * matlabpy: a MATLAB-flavoured wrapper class [M] over NumPy arrays

    Shallow embedding of [src/src/matlabpy/matlabpy.py].

    - Python strings are [string]s, one [ascii] per code point (the code
      points below 256); [str.strip], [str.replace], [str.split] are written
      out as CPython defines them on such strings.
    - A NumPy array is a shape together with its elements in row-major
      order.  NumPy is not code of this repository: module [Np] and module
      [NpF] write out the documented behaviour of the routines that [M]
      calls (array construction with [dtype=float], basic indexing and
      item assignment with integers and slices, broadcasting, [@],
      [hstack], [vstack], [zeros], [ones], [eye], [diag]) on arrays of any
      number of dimensions.  Python integers are unbounded; where NumPy
      converts one to a machine integer, an index or a dimension, the
      64-bit limits are written out.  Memory is taken to suffice.
    - The arrays held by [M] objects live in a store indexed by locations,
      so that copying and in-place assignment can be told apart.  A method
      of [M] is a function on the store; Python exceptions are values of
      [exn], and the store survives an exception.
    - The float64 scalars with their arithmetic, [float()], and the
      LAPACK-backed routines of [numpy.linalg] are the fields of a [NumLib]
      record over which everything is parameterised.
    - Not modelled: views (the result of [A[...]] is a value), NumPy's
      warnings, indexing with booleans, [None], [Ellipsis] or arrays, and
      the constructors [rand] and [linspace], which no statement below is
      about. *)

From Stdlib Require Import ZArith String Ascii List Lia Bool.
From stdpp Require Import base option list.

Local Open Scope Z_scope.
Local Open Scope nat_scope.

(** ** Exceptions and results *)

Inductive exn :=
| ValueError
| TypeError
| IndexError
| OverflowError
| LinAlgError
| SystemError.

Inductive result (A : Type) :=
| Ok (a : A)
| Raise (e : exn).
Arguments Ok {A} a.
Arguments Raise {A} e.

#[global] Instance result_ret : MRet result := fun _ a => Ok a.
#[global] Instance result_bind : MBind result := fun _ _ f r =>
  match r with
  | Ok a => f a
  | Raise e => Raise e
  end.
#[global] Instance result_fmap : FMap result := fun _ _ f r =>
  match r with
  | Ok a => Ok (f a)
  | Raise e => Raise e
  end.

Definition raises {A} (r : result A) : Prop := exists e, r = Raise e.

(** [for x in l: f(x)], collecting the results, stopping at the first
    exception. *)
Fixpoint mapR {A B} (f : A -> result B) (l : list A) : result (list B) :=
  match l with
  | [] => Ok []
  | x :: l' =>
      match f x with
      | Ok y =>
          match mapR f l' with
          | Ok ys => Ok (y :: ys)
          | Raise e => Raise e
          end
      | Raise e => Raise e
      end
  end.

(** ** Python string methods used by [mat] *)

Module PyStr.

Local Open Scope string_scope.

Definition newline : ascii := ascii_of_nat 10.
Definition semicolon : ascii := ";"%char.
Definition comma : ascii := ","%char.
Definition space : ascii := " "%char.

(** [str.isspace] on one character: TAB..CR, FS..US, space, NEL, NBSP. *)
Definition isspace (c : ascii) : bool :=
  let n := nat_of_ascii c in
  (((9 <=? n) && (n <=? 13)) || ((28 <=? n) && (n <=? 32))
   || (n =? 133) || (n =? 160))%nat.

Fixpoint lstrip (s : string) : string :=
  match s with
  | EmptyString => EmptyString
  | String c s' => if isspace c then lstrip s' else s
  end.

(** [rstrip] keeps a character when it is not a space or when something
    is kept after it. *)
Fixpoint rstrip (s : string) : string :=
  match s with
  | EmptyString => EmptyString
  | String c s' =>
      match rstrip s' with
      | EmptyString => if isspace c then EmptyString else String c EmptyString
      | r => String c r
      end
  end.

(** [s.strip()] *)
Definition strip (s : string) : string := rstrip (lstrip s).

(** [s.replace(old, new)] for one-character [old] and [new]. *)
Fixpoint replace (old new : ascii) (s : string) : string :=
  match s with
  | EmptyString => EmptyString
  | String c s' =>
      String (if Ascii.eqb c old then new else c) (replace old new s')
  end.

(** [s.split(sep)] for a one-character [sep]: the pieces between the
    separators, empty pieces included; never the empty list. *)
Fixpoint split (sep : ascii) (s : string) : list string :=
  match s with
  | EmptyString => [EmptyString]
  | String c s' =>
      if Ascii.eqb c sep then EmptyString :: split sep s'
      else match split sep s' with
           | w :: ws => String c w :: ws
           | [] => [String c EmptyString]
           end
  end.

(** [s.split()]: the maximal runs of non-space characters. *)
Fixpoint split_ws (s : string) : list string :=
  match s with
  | EmptyString => []
  | String c s' =>
      if isspace c then split_ws s'
      else match s' with
           | EmptyString => [String c EmptyString]
           | String c' _ =>
               if isspace c' then String c EmptyString :: split_ws s'
               else match split_ws s' with
                    | w :: ws => String c w :: ws
                    | [] => [String c EmptyString]
                    end
           end
  end.

(** [not r] for a string. *)
Definition is_empty (s : string) : bool :=
  match s with
  | EmptyString => true
  | _ => false
  end.

End PyStr.

(** ** NumPy arrays: shapes, basic indexing, stacking *)

Module Np.

(** An [ndarray]: its shape and its elements in row-major (C) order. *)
Record ndarray (T : Type) := mk_nd { shape : list nat; data : list T }.
Arguments mk_nd {T} shape data.
Arguments shape {T} _.
Arguments data {T} _.

Definition size_of (s : list nat) : nat := fold_right Nat.mul 1 s.

Definition ndim {T} (a : ndarray T) : nat := length (shape a).

(** The invariant of every array NumPy builds. *)
Definition wf {T} (a : ndarray T) : Prop :=
  length (data a) = size_of (shape a).

(** Position of the element with multi-index [m] in an array of shape [s]. *)
Fixpoint flat_index (s m : list nat) : nat :=
  match s, m with
  | _ :: s', i :: m' => i * size_of s' + flat_index s' m'
  | _, _ => 0
  end.

(** All multi-indices of a shape, in row-major order. *)
Fixpoint indices (s : list nat) : list (list nat) :=
  match s with
  | [] => [[]]
  | n :: s' => flat_map (fun i => map (cons i) (indices s')) (seq 0 n)
  end.

Definition get {T} (a : ndarray T) (m : list nat) : option T :=
  data a !! flat_index (shape a) m.

Definition tabulate {T} (s : list nat) (f : list nat -> option T)
  : ndarray T :=
  mk_nd s (omap f (indices s)).

(** The element of a two-dimensional array stored at zero-based
    position [(i, j)]. *)
Definition elem2 {T} (a : ndarray T) (i j : nat) : option T :=
  match shape a with
  | [r; c] => if (i <? r) && (j <? c) then data a !! (i * c + j) else None
  | _ => None
  end.

(** The rows of a two-dimensional array. *)
Definition row {T} (a : ndarray T) (i : nat) : list T :=
  match shape a with
  | [_; c] => take c (drop (i * c) (data a))
  | _ => []
  end.

Definition rows {T} (a : ndarray T) : list (list T) :=
  match shape a with
  | [r; _] => map (row a) (seq 0 r)
  | _ => []
  end.

(** Column [j] of a two-dimensional array. *)
Definition col {T} (a : ndarray T) (j : nat) : list T :=
  match shape a with
  | [r; _] => omap (fun i => elem2 a i j) (seq 0 r)
  | _ => []
  end.

(** *** Index expressions *)

(** One component of an index: a Python [int], a NumPy integer scalar,
    or [slice(start, stop, step)] with [None] for an omitted part. *)
Inductive index :=
| IxInt (k : Z)
| IxNpInt (k : Z)
| IxSlice (start stop step : option Z).

(** What stands between the brackets of [a[...]]: one index, or a tuple. *)
Inductive key :=
| KIndex (i : index)
| KTuple (l : list index).

Definition key_indices (k : key) : list index :=
  match k with
  | KIndex i => [i]
  | KTuple l => l
  end.

(** An integer index on an axis of length [n], once it has been converted
    to a machine integer (see [index_conversion] below); negative ones
    count from the end. *)
Definition norm_int (n : nat) (k : Z) : result nat :=
  if ((0 <=? k) && (k <? Z.of_nat n))%Z then Ok (Z.to_nat k)
  else if ((- Z.of_nat n <=? k) && (k <? 0))%Z
       then Ok (Z.to_nat (k + Z.of_nat n))
       else Raise IndexError.

(** The range of NumPy's index type [npy_intp], 64 bits wide, and of its
    unsigned counterpart. *)
Definition intp_min : Z := (-9223372036854775808)%Z.
Definition intp_max : Z := 9223372036854775807%Z.
Definition uintp_max : Z := 18446744073709551615%Z.

Definition fits_intp (k : Z) : bool :=
  ((intp_min <=? k) && (k <=? intp_max))%Z.

(** Before any bound is checked, every integer of an index is converted
    to [npy_intp].  A Python [int] is unbounded: one above [intp_max] that
    still fits 64 bits unsigned is read as an unsigned array scalar, whose
    conversion raises [OverflowError]; one beyond that, or below
    [intp_min], is no integer NumPy can index with, an [IndexError].  An
    axis is never longer than [intp_max], so an index within its axis
    always converts. *)
Definition index_conversion (n : nat) (k : Z) : option exn :=
  match norm_int n k with
  | Ok _ => None
  | Raise _ =>
      if fits_intp k then None
      else if ((intp_max <? k) && (k <=? uintp_max))%Z
           then Some OverflowError
           else Some IndexError
  end.

(** The positions selected by a slice on an axis of length [n]
    ([slice.indices] followed by [range]). *)
Definition slice_range (n : nat) (start stop step : option Z)
  : result (list nat) :=
  let st := default 1%Z step in
  if (st =? 0)%Z then Raise ValueError
  else
    let len := Z.of_nat n in
    let lower := (if st <? 0 then -1 else 0)%Z in
    let upper := (if st <? 0 then len - 1 else len)%Z in
    let clip v :=
      (if v <? 0 then Z.max (v + len) lower else Z.min v upper)%Z in
    let b := match start with
             | None => (if st <? 0 then upper else lower)%Z
             | Some v => clip v
             end in
    let e := match stop with
             | None => (if st <? 0 then lower else upper)%Z
             | Some v => clip v
             end in
    let count :=
      (if st <? 0
       then (if e <? b then (b - e - 1) / (- st) + 1 else 0)
       else (if b <? e then (e - b - 1) / st + 1 else 0))%Z in
    Ok (map (fun k => Z.to_nat (b + Z.of_nat k * st))
            (seq 0 (Z.to_nat count))).

(** The positions an index component selects on its axis, and whether
    the axis is kept in the result. *)
Definition axis_select (n : nat) (i : index) : result (list nat * bool) :=
  match i with
  | IxInt k | IxNpInt k =>
      match norm_int n k with
      | Ok p => Ok ([p], false)
      | Raise e => Raise e
      end
  | IxSlice a b c =>
      match slice_range n a b c with
      | Ok l => Ok (l, true)
      | Raise e => Raise e
      end
  end.

Fixpoint select (s : list nat) (ix : list index)
  : result (list (list nat * bool)) :=
  match s, ix with
  | [], [] => Ok []
  | [], _ :: _ => Raise IndexError
  | n :: s', [] =>
      match select s' [] with
      | Ok rest => Ok ((seq 0 n, true) :: rest)
      | Raise e => Raise e
      end
  | n :: s', i :: ix' =>
      match axis_select n i with
      | Ok x =>
          match select s' ix' with
          | Ok rest => Ok (x :: rest)
          | Raise e => Raise e
          end
      | Raise e => Raise e
      end
  end.

(** The first exception of the conversion of the integers in an index,
    left to right; the axis [hd 0 s] is the one the component indexes. *)
Fixpoint convert_indices (s : list nat) (ix : list index) : option exn :=
  match ix with
  | [] => None
  | IxSlice _ _ _ :: ix' => convert_indices (tl s) ix'
  | IxInt k :: ix' | IxNpInt k :: ix' =>
      match index_conversion (hd 0 s) k with
      | Some e => Some e
      | None => convert_indices (tl s) ix'
      end
  end.

(** What an index selects in an array of shape [s]: the integers are
    converted, the number of components is checked against the number of
    axes, then each component is resolved on its axis. *)
Definition resolve (s : list nat) (ix : list index)
  : result (list (list nat * bool)) :=
  match convert_indices s ix with
  | Some e => Raise e
  | None => if length s <? length ix then Raise IndexError else select s ix
  end.

(** Row-major positions of the selected elements. *)
Fixpoint offsets (s : list nat) (sel : list (list nat)) : list nat :=
  match s, sel with
  | _ :: s', here :: sel' =>
      flat_map (fun i => map (fun o => i * size_of s' + o) (offsets s' sel'))
               here
  | _, _ => [0]
  end.

Definition kept_shape (sel : list (list nat * bool)) : list nat :=
  flat_map (fun x : list nat * bool =>
              if snd x then [length (fst x)] else []) sel.

(** The result of [a[key]]: a scalar when every axis is indexed by an
    integer, an array otherwise. *)
Inductive item (T : Type) :=
| IScalar (x : T)
| IArray (a : ndarray T).
Arguments IScalar {T} x.
Arguments IArray {T} a.

(** [a[key]] with integers and slices (basic indexing). *)
Definition getitem {T} (a : ndarray T) (k : key) : result (item T) :=
  match resolve (shape a) (key_indices k) with
  | Raise e => Raise e
  | Ok sel =>
      let vals := omap (fun o => data a !! o)
                       (offsets (shape a) (map fst sel)) in
      match kept_shape sel, vals with
      | [], [x] => Ok (IScalar x)
      | shp, _ => Ok (IArray (mk_nd shp vals))
      end
  end.

(** *** Broadcasting *)

Fixpoint bshape_rev (r1 r2 : list nat) : option (list nat) :=
  match r1, r2 with
  | [], r => Some r
  | r, [] => Some r
  | a :: r1', b :: r2' =>
      match bshape_rev r1' r2' with
      | None => None
      | Some r =>
          if a =? b then Some (a :: r)
          else if a =? 1 then Some (b :: r)
          else if b =? 1 then Some (a :: r)
          else None
      end
  end.

(** [np.broadcast_shapes(s1, s2)]; [None] when they do not agree. *)
Definition broadcast_shapes (s1 s2 : list nat) : option (list nat) :=
  match bshape_rev (rev s1) (rev s2) with
  | Some r => Some (rev r)
  | None => None
  end.

Fixpoint bsrc_rev (vs_rev m_rev : list nat) : list nat :=
  match vs_rev with
  | [] => []
  | d :: vs' =>
      match m_rev with
      | [] => 0 :: bsrc_rev vs' []
      | i :: m' => (if d =? 1 then 0 else i) :: bsrc_rev vs' m'
      end
  end.

(** The multi-index in an array of shape [vs] that a multi-index [m] of
    the broadcast result reads. *)
Definition bsrc (vs m : list nat) : list nat :=
  rev (bsrc_rev (rev vs) (rev m)).

(** Leading axes of length one in excess of [n] axes are dropped when a
    value is assigned. *)
Fixpoint squeeze_to (n : nat) (vs : list nat) : list nat :=
  match vs with
  | 1 :: vs' => if n <? length vs then squeeze_to n vs' else vs
  | _ => vs
  end.

(** The array [v] copied into the selection [sel] of [a], broadcast to
    it; nothing is written when the shapes do not fit. *)
Definition assign_array {T} (a : ndarray T) (sel : list (list nat * bool))
    (v : ndarray T) : result (ndarray T) :=
  let shp := kept_shape sel in
  let vs := squeeze_to (length shp) (shape v) in
  if bool_decide (broadcast_shapes vs shp = Some shp) then
    let vals :=
      omap (fun m => data v !! flat_index vs (bsrc vs m))
           (indices shp) in
    let offs := offsets (shape a) (map fst sel) in
    Ok (mk_nd (shape a)
          (fold_left (fun d ox => <[fst ox := snd ox]> d)
                     (combine offs vals) (data a)))
  else Raise ValueError.

(** [a.copy()] *)
Definition copy {T} (a : ndarray T) : ndarray T :=
  mk_nd (shape a) (data a).

(** [a.T]: the axes reversed. *)
Definition transpose {T} (a : ndarray T) : ndarray T :=
  tabulate (rev (shape a)) (fun m => get a (rev m)).

(** *** Stacking *)

Definition atleast_1d {T} (a : ndarray T) : ndarray T :=
  match shape a with
  | [] => mk_nd [1] (data a)
  | _ => a
  end.

Definition atleast_2d {T} (a : ndarray T) : ndarray T :=
  match shape a with
  | [] => mk_nd [1; 1] (data a)
  | [n] => mk_nd [1; n] (data a)
  | _ => a
  end.

(** [np.concatenate(l, axis=0)] *)
Definition concatenate0 {T} (l : list (ndarray T)) : result (ndarray T) :=
  match l with
  | [] => Raise ValueError
  | a :: _ =>
      match shape a with
      | [] => Raise ValueError
      | _ :: t =>
          if forallb (fun b => match shape b with
                               | [] => false
                               | _ :: t' => bool_decide (t' = t)
                               end) l
          then Ok (mk_nd (sum_list (map (fun b => hd 0 (shape b)) l) :: t)
                         (flat_map data l))
          else Raise ValueError
      end
  end.

(** The elements of [b] under index [i] of its first axis. *)
Definition block {T} (b : ndarray T) (i : nat) : list T :=
  let stride := size_of (tl (shape b)) in
  take stride (drop (i * stride) (data b)).

(** [np.concatenate(l, axis=1)] *)
Definition concatenate1 {T} (l : list (ndarray T)) : result (ndarray T) :=
  match l with
  | [] => Raise ValueError
  | a :: _ =>
      match shape a with
      | n0 :: _ :: t =>
          if forallb (fun b => match shape b with
                               | n0' :: _ :: t' =>
                                   bool_decide (n0' = n0 /\ t' = t)
                               | _ => false
                               end) l
          then Ok (mk_nd
                     (n0 :: sum_list (map (fun b => hd 0 (tl (shape b))) l)
                         :: t)
                     (flat_map (fun i => flat_map (fun b => block b i) l)
                               (seq 0 n0)))
          else Raise ValueError
      | _ => Raise ValueError
      end
  end.

(** [np.vstack(l)] *)
Definition vstack {T} (l : list (ndarray T)) : result (ndarray T) :=
  concatenate0 (map atleast_2d l).

(** [np.hstack(l)] *)
Definition hstack {T} (l : list (ndarray T)) : result (ndarray T) :=
  let arrs := map atleast_1d l in
  match arrs with
  | a :: _ => if ndim a =? 1 then concatenate0 arrs else concatenate1 arrs
  | [] => concatenate1 arrs
  end.

End Np.

(** ** Python values and the numeric library *)

(** The Python objects NumPy is given: numbers and (nested) lists. *)
#[local] Set Warnings "-register-all".
Inductive pyobj (F : Type) :=
| PyInt (z : Z)
| PyFloat (x : F)
| PyComplex (re im : F)
| PyList (l : list (pyobj F)).
Arguments PyInt {F} z.
Arguments PyFloat {F} x.
Arguments PyComplex {F} re im.
Arguments PyList {F} l.

(** An array of dtype float64 or of dtype complex128 (pairs real, imaginary). *)
Inductive anyarray (F : Type) :=
| AFloat (a : Np.ndarray F)
| AComplex (a : Np.ndarray (F * F)).
Arguments AFloat {F} a.
Arguments AComplex {F} a.

(** What [np.array(...)] is applied to. *)
Inductive npinput (F : Type) :=
| InObj (o : pyobj F)
| InArray (a : anyarray F).
Arguments InObj {F} o.
Arguments InArray {F} a.

(** The float64 scalars with their arithmetic, Python's [float()], and the
    routines of [numpy.linalg].  [None] from [float_of_str] is Python's
    [ValueError], [None] from [float_of_int] its [OverflowError]. *)
Record NumLib := {
  F : Type;
  float_of_str : string -> option F;
  float_of_int : Z -> option F;
  fzero : F;
  fadd : F -> F -> F;
  fsub : F -> F -> F;
  fmul : F -> F -> F;
  fdiv : F -> F -> F;
  fpow : F -> F -> F;
  linalg_inv : Np.ndarray F -> result (Np.ndarray F);
  linalg_pinv : Np.ndarray F -> result (Np.ndarray F);
  linalg_det : Np.ndarray F -> result (Np.item F);
  linalg_matrix_rank : Np.ndarray F -> result (Np.item Z);
  linalg_eig : Np.ndarray F -> result (anyarray F * anyarray F);
  linalg_matrix_power : Np.ndarray F -> pyobj F -> result (Np.ndarray F)
}.

(** ** NumPy on float64 arrays *)

Module NpF.
Section WithLib.

Variable L : NumLib.
Abbreviation F := (F L).
Import Np.

(** The shape NumPy discovers in a nested list; [None] when the nesting
  is inhomogeneous. *)
Fixpoint obj_shape (o : pyobj F) : option (list nat) :=
match o with
| PyList l =>
    match map obj_shape l with
    | [] => Some [0]
    | Some s :: rest =>
        if forallb (fun r => bool_decide (r = Some s)) rest
        then Some (length l :: s)
        else None
    | None :: _ => None
    end
| _ => Some []
end.

Fixpoint leaves (o : pyobj F) : list (pyobj F) :=
match o with
| PyList l => flat_map leaves l
| _ => [o]
end.

(** One element stored with [dtype=float]. *)
Definition to_float (o : pyobj F) : result F :=
match o with
| PyInt z =>
    match float_of_int L z with
    | Some x => Ok x
    | None => Raise OverflowError
    end
| PyFloat x => Ok x
| PyComplex _ _ => Raise TypeError
| PyList _ => Raise ValueError
end.

(** [np.array(d, dtype=float)].  A complex array is cast, which keeps the
  real parts (NumPy warns, it does not raise). *)
Definition array_float (d : npinput F) : result (ndarray F) :=
match d with
| InObj o =>
    match obj_shape o with
    | None => Raise ValueError
    | Some s =>
        match mapR to_float (leaves o) with
        | Ok xs => Ok (mk_nd s xs)
        | Raise e => Raise e
        end
    end
| InArray (AFloat a) => Ok (copy a)
| InArray (AComplex a) => Ok (mk_nd (shape a) (map fst (data a)))
end.

(** *** Item assignment

    [a[key] = value] on a float64 array.  The key is resolved first.  An
    array is then cast to float64 and copied into the selection, broadcast
    to it.  A number is stored in every selected element.  Of a (nested)
    list the shape is discovered first: a list that is inhomogeneous, or
    nested deeper than the selection has axes, is refused.  When it has
    the shape of the selection its elements are stored one after the
    other, straight into [a], so that an element that cannot be stored
    leaves the ones before it written; otherwise it is first made an array
    of its own, which is then copied into the selection.  With an integer
    for every axis the target is one element, which takes a number and no
    list. *)

(** A float64 or complex128 array cast to float64 (the real parts). *)
Definition as_float (x : anyarray F) : ndarray F :=
match x with
| AFloat v => v
| AComplex v => mk_nd (shape v) (map fst (data v))
end.

(** The elements [ws], each with its position, stored one after the
  other: the outcome, and the data as far as they were written. *)
Fixpoint pack (d : list F) (ws : list (nat * pyobj F))
: result unit * list F :=
match ws with
| [] => (Ok tt, d)
| (p, o) :: ws' =>
    match to_float o with
    | Ok x => pack (<[p := x]> d) ws'
    | Raise e => (Raise e, d)
    end
end.

(** Is every axis indexed by an integer? *)
Definition full_integer (sel : list (list nat * bool)) : bool :=
negb (bool_decide (sel = [])) && forallb (fun x => negb (snd x)) sel.

(** The outcome of an assignment, and the array afterwards. *)
Definition atomic (a : ndarray F) (r : result (ndarray F))
: result unit * ndarray F :=
match r with
| Ok a' => (Ok tt, a')
| Raise e => (Raise e, a)
end.

Definition assign_object (a : ndarray F) (sel : list (list nat * bool))
  (o : pyobj F) : result unit * ndarray F :=
let offs := offsets (shape a) (map fst sel) in
match o with
| PyList _ =>
    if full_integer sel then (Raise ValueError, a)
    else
      let shp := kept_shape sel in
      match obj_shape o with
      | None => (Raise ValueError, a)
      | Some s =>
          if length shp <? length s then (Raise ValueError, a)
          else if bool_decide (s = shp) then
            let r := pack (data a) (combine offs (leaves o)) in
            (fst r, mk_nd (shape a) (snd r))
          else
            atomic a (xs ← mapR to_float (leaves o);
                      assign_array a sel (mk_nd s xs))
      end
| _ =>
    atomic a
      (x ← to_float o;
       Ok (mk_nd (shape a) (fold_left (fun d p => <[p := x]> d) offs (data a))))
end.

Definition assign_item (a : ndarray F) (k : key) (value : npinput F)
: result unit * ndarray F :=
match resolve (shape a) (key_indices k) with
| Raise e => (Raise e, a)
| Ok sel =>
    match value with
    | InArray x => atomic a (assign_array a sel (as_float x))
    | InObj o => assign_object a sel o
    end
end.

(** [a.conj()] on a float64 array. *)
Definition conj (a : ndarray F) : ndarray F := copy a.

(** A binary ufunc: the operands are broadcast against each other. *)
Definition elementwise (f : F -> F -> F) (a b : ndarray F)
: result (ndarray F) :=
match broadcast_shapes (shape a) (shape b) with
| None => Raise ValueError
| Some s =>
    Ok (tabulate s (fun m =>
          match get a (bsrc (shape a) m), get b (bsrc (shape b) m) with
          | Some x, Some y => Some (f x y)
          | _, _ => None
          end))
end.

Definition add := elementwise (fadd L).
Definition subtract := elementwise (fsub L).
Definition multiply := elementwise (fmul L).
Definition divide := elementwise (fdiv L).
Definition power := elementwise (fpow L).

(** The dot product of two vectors, summed in index order. *)
Definition dot (u v : list F) : F :=
fold_left (fadd L) (zip_with (fmul L) u v) (fzero L).

(** [a @ b]: a one-dimensional operand is a row (on the left) or a column
  (on the right) and that axis is removed again; arrays of more than two
  dimensions are stacks of matrices in their last two axes, the leading
  axes being broadcast. *)
Definition matmul (a b : ndarray F) : result (ndarray F) :=
match shape a, shape b with
| [], _ | _, [] => Raise ValueError
| sa, sb =>
    let sa2 := match sa with [n] => [1; n] | _ => sa end in
    let sb2 := match sb with [n] => [n; 1] | _ => sb end in
    let ba := take (length sa2 - 2) sa2 in
    let bb := take (length sb2 - 2) sb2 in
    match drop (length sa2 - 2) sa2, drop (length sb2 - 2) sb2 with
    | [m; k], [k'; n] =>
        if k =? k' then
          match broadcast_shapes ba bb with
          | None => Raise ValueError
          | Some bs =>
              let entry idx :=
                let bi := take (length bs) idx in
                match drop (length bs) idx with
                | [i; j] =>
                    Some (dot
                            (omap (fun t => data a !!
                                     flat_index sa2 (bsrc ba bi ++ [i; t]))
                                  (seq 0 k))
                            (omap (fun t => data b !!
                                     flat_index sb2 (bsrc bb bi ++ [t; j]))
                                  (seq 0 k)))
                | _ => None
                end in
              Ok (mk_nd (bs ++ (if ndim a =? 1 then [] else [m])
                            ++ (if ndim b =? 1 then [] else [n]))
                        (omap entry (indices (bs ++ [m; n]))))
          end
        else Raise ValueError
    | _, _ => Raise ValueError
    end
end.

End WithLib.
End NpF.

(** ** The class [M] *)

(** The store of the arrays that [M] objects refer to.  A location is a
    position in the list; allocation appends (arrays are never freed). *)
Module Store.
Section WithElem.

Variable E : Type.

Definition loc := nat.
Definition store := list (Np.ndarray E).

(** A stateful computation: the outcome and the store afterwards.  The
  store survives an exception. *)
Definition py (R : Type) : Type := store -> result R * store.

Definition ret {R} (r : R) : py R := fun h => (Ok r, h).

Definition bind {R S} (c : py R) (k : R -> py S) : py S :=
fun h =>
  match c h with
  | (Ok r, h') => k r h'
  | (Raise e, h') => (Raise e, h')
  end.

Definition lift {R} (r : result R) : py R := fun h => (r, h).

(** Reading through a reference.  Python has no dangling references; a
  location outside the store is reported as [SystemError]. *)
Definition deref (l : loc) : py (Np.ndarray E) :=
fun h =>
  match h !! l with
  | Some a => (Ok a, h)
  | None => (Raise SystemError, h)
  end.

Definition alloc (a : Np.ndarray E) : py loc :=
fun h => (Ok (length h), h ++ [a]).

Definition assign (l : loc) (a : Np.ndarray E) : py unit :=
fun h => (Ok tt, <[l := a]> h).

Fixpoint mapP {R S} (f : R -> py S) (l : list R) : py (list S) :=
match l with
| [] => ret []
| x :: l' => bind (f x) (fun y => bind (mapP f l') (fun ys => ret (y :: ys)))
end.

End WithElem.
End Store.

Arguments Store.ret {E R} r.
Arguments Store.bind {E R S} c k.
Arguments Store.lift {E R} r.
Arguments Store.deref {E} l.
Arguments Store.alloc {E} a.
Arguments Store.assign {E} l a.
Arguments Store.mapP {E R S} f l.

Notation "'let*' x ':=' c 'in' k" := (Store.bind c (fun x => k))
  (at level 10, x name, c at level 100, k at level 200).

Module M.
Section WithLib.

Variable L : NumLib.
Abbreviation F := (F L).
Abbreviation py := (Store.py F).
Import Np.

(** An instance of [M]: its attribute [A] refers to an array of dtype
  float64 ([__init__] is the only place that sets it). *)
Record t := mk { A : Store.loc }.

(** The argument of [M(...)]. *)
Inductive mdata :=
| DataM (m : t)
| DataNp (x : npinput F).

(** The right operand of an operator: an [M], an array, or a float. *)
Inductive operand :=
| OpM (m : t)
| OpArr (a : ndarray F)
| OpFloat (x : F).

Definition of_array (a : ndarray F) : mdata := DataNp (InArray (AFloat a)).

Definition __init__ (d : mdata) : py t :=
match d with
| DataM m =>
    let* a := Store.deref (A m) in
    let* l := Store.alloc (copy a) in
    Store.ret (mk l)
| DataNp x =>
    let* a := Store.lift (NpF.array_float L x) in
    let* l := Store.alloc a in
    Store.ret (mk l)
end.

(** *** Indexing *)

(** [i - 1 if isinstance(i, int) else i] *)
Definition shift (i : index) : index :=
match i with
| IxInt k => IxInt (k - 1)
| _ => i
end.

Definition __call__ (self : t) (idx : list index) : py (item F) :=
let* a := Store.deref (A self) in
Store.lift (getitem a (KTuple (map shift idx))).

Definition __getitem__ (self : t) (k : key) : py (item F) :=
let* a := Store.deref (A self) in
Store.lift (getitem a k).

(** [self.A[key] = value]: the array of [self] is what NumPy leaves of
  it, also when the assignment raises. *)
Definition __setitem__ (self : t) (k : key) (value : npinput F) : py unit :=
let* a := Store.deref (A self) in
let r := NpF.assign_item L a k value in
let* _ := Store.assign (A self) (snd r) in
Store.lift (fst r).

(** *** Shape helpers *)

Definition T (self : t) : py t :=
let* a := Store.deref (A self) in
__init__ (of_array (transpose a)).

Definition H (self : t) : py t :=
let* a := Store.deref (A self) in
__init__ (of_array (transpose (NpF.conj L a))).

Definition shape (self : t) : py (list nat) :=
let* a := Store.deref (A self) in
Store.ret (Np.shape a).

(** *** Operators *)

Definition _unwrap (x : operand) : py (ndarray F) :=
match x with
| OpM m => Store.deref (A m)
| OpArr a => Store.ret a
| OpFloat v => Store.ret (mk_nd [] [v])
end.

Definition __add__ (self : t) (other : operand) : py t :=
let* a := Store.deref (A self) in
let* b := _unwrap other in
let* c := Store.lift (NpF.add L a b) in
__init__ (of_array c).

Definition __sub__ (self : t) (other : operand) : py t :=
let* a := Store.deref (A self) in
let* b := _unwrap other in
let* c := Store.lift (NpF.subtract L a b) in
__init__ (of_array c).

Definition __mul__ (self : t) (other : operand) : py t :=
let* a := Store.deref (A self) in
let* b := _unwrap other in
let* c := Store.lift (NpF.matmul L a b) in
__init__ (of_array c).

Definition __truediv__ (self : t) (other : operand) : py t :=
let* a := Store.deref (A self) in
let* b := _unwrap other in
let* bi := Store.lift (linalg_inv L b) in
let* c := Store.lift (NpF.matmul L a bi) in
__init__ (of_array c).

Definition __pow__ (self : t) (p : pyobj F) : py t :=
let* a := Store.deref (A self) in
let* c := Store.lift (linalg_matrix_power L a p) in
__init__ (of_array c).

Definition emul (self : t) (other : operand) : py t :=
let* a := Store.deref (A self) in
let* b := _unwrap other in
let* c := Store.lift (NpF.multiply L a b) in
__init__ (of_array c).

Definition ediv (self : t) (other : operand) : py t :=
let* a := Store.deref (A self) in
let* b := _unwrap other in
let* c := Store.lift (NpF.divide L a b) in
__init__ (of_array c).

Definition epow (self : t) (other : operand) : py t :=
let* a := Store.deref (A self) in
let* b := _unwrap other in
let* c := Store.lift (NpF.power L a b) in
__init__ (of_array c).

(** *** Linear algebra helpers *)

Definition inv (self : t) : py t :=
let* a := Store.deref (A self) in
let* c := Store.lift (linalg_inv L a) in
__init__ (of_array c).

Definition pinv (self : t) : py t :=
let* a := Store.deref (A self) in
let* c := Store.lift (linalg_pinv L a) in
__init__ (of_array c).

Definition det (self : t) : py (item F) :=
let* a := Store.deref (A self) in
Store.lift (linalg_det L a).

Definition rank (self : t) : py (item Z) :=
let* a := Store.deref (A self) in
Store.lift (linalg_matrix_rank L a).

Definition eig (self : t) : py (t * t) :=
let* a := Store.deref (A self) in
let* wv := Store.lift (linalg_eig L a) in
let* w := __init__ (DataNp (InArray (fst wv))) in
let* v := __init__ (DataNp (InArray (snd wv))) in
Store.ret (w, v).

(** *** Concatenation *)

Definition hcat (args : list operand) : py t :=
let* arrs := Store.mapP _unwrap args in
let* c := Store.lift (hstack arrs) in
__init__ (of_array c).

Definition vcat (args : list operand) : py t :=
let* arrs := Store.mapP _unwrap args in
let* c := Store.lift (vstack arrs) in
__init__ (of_array c).

End WithLib.
End M.

(** ** The matrix literal [mat] *)

Section Mat.

Variable L : NumLib.

(** [float(x)] on a string. *)
Definition pyfloat (x : string) : result (F L) :=
  match float_of_str L x with
  | Some v => Ok v
  | None => Raise ValueError
  end.

(** The loop of [mat]: the list [data] built from the pieces [rows]. *)
Fixpoint mat_data (rows : list string) : result (list (list (F L))) :=
  match rows with
  | [] => Ok []
  | r :: rest =>
      let r := PyStr.strip r in
      if PyStr.is_empty r then mat_data rest
      else
        match mapR pyfloat
                (PyStr.split_ws (PyStr.replace PyStr.comma PyStr.space r))
        with
        | Ok cols =>
            match mat_data rest with
            | Ok d => Ok (cols :: d)
            | Raise e => Raise e
            end
        | Raise e => Raise e
        end
  end.

Definition mat_pieces (expr : string) : list string :=
  PyStr.split PyStr.semicolon
    (PyStr.replace PyStr.newline PyStr.semicolon (PyStr.strip expr)).

Definition list_of_rows (d : list (list (F L))) : pyobj (F L) :=
  PyList (map (fun cols => PyList (map PyFloat cols)) d).

Definition mat (expr : string) : Store.py (F L) (M.t) :=
  let* d := Store.lift (mat_data (mat_pieces expr)) in
  M.__init__ L (M.DataNp L (InObj (list_of_rows d))).

End Mat.

(** ** A library instance to run the definitions on

    Integers stand for the floats: [float()] reads decimal integers, the
    arithmetic is that of [Z].  Of [numpy.linalg] only what the examples
    below evaluate is provided: matrices of one element, and the
    eigenvalues of the matrix of NumPy's own [eig] example,
    [[1, -1], [1, 1]], which are [1 + 1j] and [1 - 1j].  Its eigenvectors
    are given without NumPy's scaling to unit length, which integers
    cannot express; nothing below depends on them. *)

Module ExampleLib.

Import Np.

Fixpoint digits (s : string) (acc : Z) : option Z :=
  match s with
  | EmptyString => Some acc
  | String c s' =>
      let n := nat_of_ascii c in
      if (48 <=? n) && (n <=? 57)
      then digits s' (10 * acc + Z.of_nat (n - 48))%Z
      else None
  end.

Definition parse_int (s : string) : option Z :=
  match s with
  | EmptyString => None
  | String c s' =>
      if Ascii.eqb c "-"%char
      then match s' with
           | EmptyString => None
           | _ => option_map Z.opp (digits s' 0%Z)
           end
      else digits s 0%Z
  end.

Definition inv (a : ndarray Z) : result (ndarray Z) :=
  match shape a, data a with
  | [1; 1], [x] =>
      if ((x =? 1) || (x =? -1))%Z then Ok a else Raise LinAlgError
  | _, _ => Raise LinAlgError
  end.

Definition det (a : ndarray Z) : result (item Z) :=
  match shape a, data a with
  | [1; 1], [x] => Ok (IScalar x)
  | _, _ => Raise LinAlgError
  end.

Definition matrix_rank (a : ndarray Z) : result (item Z) :=
  match shape a, data a with
  | [1; 1], [x] => Ok (IScalar (if (x =? 0)%Z then 0 else 1)%Z)
  | _, _ => Raise LinAlgError
  end.

Definition rot : ndarray Z := mk_nd [2; 2] [1; -1; 1; 1]%Z.

Definition eig (a : ndarray Z) : result (anyarray Z * anyarray Z) :=
  match shape a, data a with
  | [1; 1], [x] => Ok (AFloat (mk_nd [1] [x]), AFloat (mk_nd [1; 1] [1%Z]))
  | [2; 2], [1; -1; 1; 1]%Z =>
      Ok (AComplex (mk_nd [2] [(1, 1); (1, -1)]%Z),
          AComplex (mk_nd [2; 2] [(1, 0); (1, 0); (0, -1); (0, 1)]%Z))
  | _, _ => Raise LinAlgError
  end.

Definition matrix_power (a : ndarray Z) (p : pyobj Z) : result (ndarray Z) :=
  match shape a, data a, p with
  | [1; 1], [x], PyInt n =>
      if (0 <=? n)%Z then Ok (mk_nd [1; 1] [x ^ n]%Z) else inv a
  | _, _, PyInt _ => Raise LinAlgError
  | _, _, _ => Raise TypeError
  end.

Definition lib : NumLib :=
  {| F := Z;
     float_of_str := parse_int;
     float_of_int := Some;
     fzero := 0%Z;
     fadd := Z.add;
     fsub := Z.sub;
     fmul := Z.mul;
     fdiv := Z.div;
     fpow := Z.pow;
     linalg_inv := inv;
     linalg_pinv := inv;
     linalg_det := det;
     linalg_matrix_rank := matrix_rank;
     linalg_eig := eig;
     linalg_matrix_power := matrix_power |}.

(** Two matrices and a store that holds them, as after
    [A = mat("1 2; 3 4")] and [B = mat("5 6; 7 8")]. *)
Definition a22 : ndarray Z := mk_nd [2; 2] [1; 2; 3; 4]%Z.
Definition b22 : ndarray Z := mk_nd [2; 2] [5; 6; 7; 8]%Z.
Definition store2 : list (ndarray Z) := [a22; b22].


End ExampleLib.

(** ** What the statements below are about *)

(** *** What a matrix literal denotes

    Written from the description of the literal, not from the code of
    [mat]: rows are separated by semicolons or newlines, entries within a
    row by white space or commas; a row with nothing but white space is no
    row. *)

Module LiteralSpec.

Import PyStr.

(** The pieces of [s] between the characters that satisfy [sep]. *)
Fixpoint fields (sep : ascii -> bool) (s : string) : list string :=
  match s with
  | EmptyString => [EmptyString]
  | String c s' =>
      if sep c then EmptyString :: fields sep s'
      else String c (hd EmptyString (fields sep s')) :: tl (fields sep s')
  end.

Definition row_sep (c : ascii) : bool :=
  Ascii.eqb c semicolon || Ascii.eqb c newline.

Definition entry_sep (c : ascii) : bool :=
  isspace c || Ascii.eqb c comma.

Fixpoint blank (s : string) : bool :=
  match s with
  | EmptyString => true
  | String c s' => isspace c && blank s'
  end.

Definition nonempty (s : string) : bool := negb (is_empty s).

(** The entries of a row. *)
Definition tokens (r : string) : list string :=
  List.filter nonempty (fields entry_sep r).

(** The entries of the rows that are not blank, row by row. *)
Definition grid (expr : string) : list (list string) :=
  map tokens (List.filter (fun r => negb (blank r)) (fields row_sep expr)).

(** The same for a list of pieces already cut at the row separators. *)
Definition rowlist (pieces : list string) : list (list string) :=
  map tokens (List.filter (fun r => negb (blank r)) pieces).

(** How a row grows when a character is put in front of it: the entry
    under construction, and the finished entries after it. *)
Definition tview (s : string) : string * list string :=
  (hd EmptyString (fields entry_sep s),
   List.filter nonempty (tl (fields entry_sep s))).

Definition tfinish (v : string * list string) : list string :=
  (if is_empty (fst v) then [] else [fst v]) ++ snd v.

Definition tstep (c : ascii) (v : string * list string)
  : string * list string :=
  if entry_sep c then (EmptyString, tfinish v)
  else (String c (fst v), snd v).

(** The same one level up: the row under construction (its entries and
    whether it is blank so far), and the finished rows after it. *)
Definition rview (s : string)
  : (string * list string) * bool * list (list string) :=
  let p := fields row_sep s in
  (tview (hd EmptyString p), blank (hd EmptyString p), rowlist (tl p)).

Definition rfinish (v : (string * list string) * bool * list (list string))
  : list (list string) :=
  (if snd (fst v) then [] else [tfinish (fst (fst v))]) ++ snd v.

Definition rstep (c : ascii)
    (v : (string * list string) * bool * list (list string))
  : (string * list string) * bool * list (list string) :=
  if row_sep c then (tview EmptyString, true, rfinish v)
  else (tstep c (fst (fst v)), isspace c && snd (fst v), snd v).

End LiteralSpec.

(** *** Matrices *)

Section MatrixNotions.

Context {T : Type}.
Import Np.

Definition nrows (a : ndarray T) : nat := hd 0 (shape a).

(** A matrix with [c] columns. *)
Definition matrix_cols (c : nat) (a : ndarray T) : Prop :=
  exists r, shape a = [r; c] /\ wf a.



End MatrixNotions.

(** *** Runs of the methods of [M] *)

Section RunNotions.

Variable L : NumLib.
Import Np.

(** A token that [float()] accepts. *)
Definition numeric (t : string) : Prop := is_Some (float_of_str L t).

(** Is this index component a Python [int]? *)
Definition is_pyint (i : index) : bool :=
  match i with
  | IxInt _ => true
  | _ => false
  end.

(** The array an operand unwraps to, in store [h]. *)
Definition operand_array (h : Store.store (F L)) (x : M.operand L)
  : option (ndarray (F L)) :=
  match x with
  | M.OpM _ m => h !! M.A m
  | M.OpArr _ a => Some a
  | M.OpFloat _ v => Some (mk_nd [] [v])
  end.

(** A library result wrapped by [M(...)]: on success a new object whose
    array is the library's result, allocated at the end of the store; on
    failure the library's exception, the store as it was. *)
Definition wrapped (h : Store.store (F L)) (r : result (ndarray (F L)))
  : result M.t * Store.store (F L) :=
  match r with
  | Ok c => (Ok (M.mk (length h)), h ++ [c])
  | Raise e => (Raise e, h)
  end.

(** The float64 array that [M(...)] stores for a library array. *)
Definition stored (x : anyarray (F L)) : ndarray (F L) :=
  match x with
  | AFloat a => a
  | AComplex a => mk_nd (shape a) (map fst (data a))
  end.





End RunNotions.

Ltac py_unfold :=
  unfold Store.bind, Store.deref, Store.lift, Store.ret, Store.alloc,
    Store.assign in *.

(** ** Constructors *)

(** NumPy's array constructors that the MATLAB-style constructors call.
    [one] is the float [1.0].  NumPy refuses a shape, with a
    [ValueError], when a dimension is negative, when a dimension is above
    [intp_max], or when the number of bytes, eight for each float64 and the
    dimensions of length zero left aside, is above [intp_max].  A shape it
    accepts is taken to fit in memory. *)
Module NpCtor.
Section WithLib.

Variable L : NumLib.
Variable one : F L.
Import Np.

(** The product of the dimensions that are not zero. *)
Definition nonzero_product (shape : list Z) : Z :=
  fold_right Z.mul 1%Z (List.filter (fun n => negb (n =? 0)%Z) shape).

Definition within_limits (shape : list Z) : bool :=
  forallb (fun n => (n <=? intp_max)%Z) shape
  && (8 * nonzero_product shape <=? intp_max)%Z.

(** [np.full(shape, x)] for a tuple of Python integers. *)
Definition full (x : F L) (shape : list Z) : result (ndarray (F L)) :=
  if forallb (fun n => (0 <=? n)%Z) shape
  then
    if within_limits shape
    then let s := map Z.to_nat shape in Ok (mk_nd s (replicate (size_of s) x))
    else Raise ValueError
  else Raise ValueError.

(** [np.zeros(shape)] *)
Definition zeros (shape : list Z) : result (ndarray (F L)) :=
  full (fzero L) shape.

(** [np.ones(shape)] *)
Definition ones (shape : list Z) : result (ndarray (F L)) :=
  full one shape.

(** Entry [(i, j)] of the identity matrix. *)
Definition eye_entry (m : list nat) : option (F L) :=
  match m with
  | [i; j] => Some (if i =? j then one else fzero L)
  | _ => None
  end.

(** Entry [(i, j)] of the matrix with [a] on its diagonal. *)
Definition diag_entry (a : ndarray (F L)) (m : list nat) : option (F L) :=
  match m with
  | [i; j] => if i =? j then data a !! i else Some (fzero L)
  | _ => None
  end.

(** [np.eye(n)] *)
Definition eye (n : Z) : result (ndarray (F L)) :=
  if (0 <=? n)%Z
  then
    if within_limits [n; n]
    then let k := Z.to_nat n in Ok (tabulate [k; k] eye_entry)
    else Raise ValueError
  else Raise ValueError.

(** [np.diag(a)]: the square matrix with a one-dimensional [a] on its
    diagonal, the diagonal of a two-dimensional [a]. *)
Definition diag (a : ndarray (F L)) : result (ndarray (F L)) :=
  match shape a with
  | [n] =>
      Ok (tabulate [n; n] (diag_entry a))
  | [r; c] =>
      Ok (mk_nd [Nat.min r c]
                (omap (fun i => elem2 a i i) (seq 0 (Nat.min r c))))
  | _ => Raise ValueError
  end.

End WithLib.
End NpCtor.

(** The module-level functions [zeros], [ones], [eye] and [diag]: each
    wraps the array of the NumPy constructor in an [M].  Dimensions are
    Python integers.
    [rand] and [linspace] are left out: the former draws random numbers,
    the latter depends on the rounding of float arithmetic. *)
Section Constructors.

Variable L : NumLib.
Variable one : F L.

Definition zeros (shape : list Z) : Store.py (F L) M.t :=
  let* a := Store.lift (NpCtor.zeros L shape) in
  M.__init__ L (M.of_array L a).

Definition ones (shape : list Z) : Store.py (F L) M.t :=
  let* a := Store.lift (NpCtor.ones L one shape) in
  M.__init__ L (M.of_array L a).

Definition eye (n : Z) : Store.py (F L) M.t :=
  let* a := Store.lift (NpCtor.eye L one n) in
  M.__init__ L (M.of_array L a).

Definition diag (v : M.operand L) : Store.py (F L) M.t :=
  let* a := M._unwrap L v in
  let* d := Store.lift (NpCtor.diag L a) in
  M.__init__ L (M.of_array L d).

End Constructors.

(** A computation that only allocates: the store afterwards is the store
    before, followed by the new arrays. *)
Definition only_allocates {E R} (c : Store.py E R) : Prop :=
  forall h, exists new, snd (c h) = h ++ new.

(** [d] is a matrix of shape [(r, c)] whose entries are [f] of the
    entries of [a] and [b]. *)
Definition entrywise {X} (f : X -> X -> X) (a b d : Np.ndarray X)
    (r c : nat) : Prop :=
  Np.shape d = [r; c] /\
  forall i j x y,
    Np.elem2 a i j = Some x -> Np.elem2 b i j = Some y ->
    Np.elem2 d i j = Some (f x y).

(** Two axis lengths that cannot be broadcast against each other. *)
Definition incompatible (x y : nat) : Prop := x <> y /\ x <> 1 /\ y <> 1.

(** A computation that leaves the store as it finds it. *)
Definition reads_only {E R} (c : Store.py E R) : Prop :=
  forall h, snd (c h) = h.

(** * Properties *)

(** ** Indexing *)

Section IndexingFacts.
Context {T : Type}.
Import Np.

Lemma copy_id (a : ndarray T) : copy a = a.
Proof. destruct a; reflexivity. Qed.

Lemma norm_int_in_range (n : nat) (k : Z) :
  (0 <= k < Z.of_nat n)%Z -> norm_int n k = Ok (Z.to_nat k).
Proof.
  intros Hk. unfold norm_int.
  destruct (Z.leb_spec 0 k); [|lia].
  destruct (Z.ltb_spec k (Z.of_nat n)); [|lia].
  reflexivity.
Qed.

(** An index within its axis converts. *)
Lemma index_conversion_ok (n : nat) (k : Z) (p : nat) :
  norm_int n k = Ok p -> index_conversion n k = None.
Proof. intros Hk. unfold index_conversion. rewrite Hk. reflexivity. Qed.

Lemma index_conversion_fits (n : nat) (k : Z) :
  fits_intp k = true -> index_conversion n k = None.
Proof.
  intros Hk. unfold index_conversion. rewrite Hk.
  destruct (norm_int n k); reflexivity.
Qed.

Lemma resolve_converted (s : list nat) (ix : list index) :
  convert_indices s ix = None ->
  resolve s ix
  = if length s <? length ix then Raise IndexError else select s ix.
Proof. intros Hc. unfold resolve. rewrite Hc. reflexivity. Qed.

Lemma convert_two_ints (r c : nat) (i j : Z) :
  index_conversion r i = None -> index_conversion c j = None ->
  convert_indices [r; c] [IxInt i; IxInt j] = None.
Proof. intros Hi Hj. simpl. rewrite Hi, Hj. reflexivity. Qed.

Lemma elem2_lookup (a : ndarray T) (r c i j : nat) :
  shape a = [r; c] -> i < r -> j < c ->
  elem2 a i j = data a !! (i * c + j).
Proof.
  intros Hs Hi Hj. unfold elem2. rewrite Hs.
  destruct (Nat.ltb_spec i r); [|lia].
  destruct (Nat.ltb_spec j c); [|lia].
  reflexivity.
Qed.

Lemma elem2_is_Some (a : ndarray T) (r c i j : nat) :
  shape a = [r; c] -> wf a -> i < r -> j < c ->
  is_Some (elem2 a i j).
Proof.
  intros Hs Hw Hi Hj. rewrite (elem2_lookup a r c) by assumption.
  apply lookup_lt_is_Some. unfold wf in Hw. rewrite Hw, Hs. simpl. nia.
Qed.

(** Two in-range integers select one element, and the result is a
    scalar. *)
Lemma getitem_int_int (a : ndarray T) (r c : nat) (i j : Z) (x : T) :
  shape a = [r; c] ->
  (0 <= i < Z.of_nat r)%Z -> (0 <= j < Z.of_nat c)%Z ->
  elem2 a (Z.to_nat i) (Z.to_nat j) = Some x ->
  getitem a (KTuple [IxInt i; IxInt j]) = Ok (IScalar x).
Proof.
  intros Hs Hi Hj Hx.
  rewrite (elem2_lookup a r c) in Hx by (assumption || lia).
  unfold getitem. rewrite Hs, resolve_converted
    by (apply convert_two_ints;
        eapply index_conversion_ok, norm_int_in_range; assumption).
  simpl.
  rewrite (norm_int_in_range r i), (norm_int_in_range c j) by assumption.
  simpl.
  replace (Z.to_nat i * (c * 1) + (Z.to_nat j * 1 + 0))
    with (Z.to_nat i * c + Z.to_nat j) by lia.
  rewrite Hx. reflexivity.
Qed.

Lemma last_lookup_app {X} (h : list X) (a : X) :
  (h ++ [a]) !! length h = Some a.
Proof. rewrite lookup_app_r, Nat.sub_diag by lia. reflexivity. Qed.
End IndexingFacts.

Section StoreFacts.
Variable L : NumLib.
Import Np.

Lemma array_float_of_array (c : ndarray (F L)) :
  NpF.array_float L (InArray (AFloat c)) = Ok c.
Proof. simpl. rewrite copy_id. reflexivity. Qed.

Lemma init_of_array (c : ndarray (F L)) (h : Store.store (F L)) :
  M.__init__ L (M.of_array L c) h = (Ok (M.mk (length h)), h ++ [c]).
Proof.
  unfold M.of_array, M.__init__. py_unfold.
  rewrite array_float_of_array. reflexivity.
Qed.

Lemma init_of_M (m : M.t) (a : ndarray (F L)) (h : Store.store (F L)) :
  h !! M.A m = Some a ->
  M.__init__ L (M.DataM L m) h = (Ok (M.mk (length h)), h ++ [a]).
Proof.
  intros Hm. unfold M.__init__. py_unfold. rewrite Hm, copy_id.
  reflexivity.
Qed.

Lemma array_float_stored (x : anyarray (F L)) :
  NpF.array_float L (InArray x) = Ok (stored L x).
Proof. destruct x; simpl; [rewrite copy_id|]; reflexivity. Qed.

Lemma init_any (x : anyarray (F L)) (h : Store.store (F L)) :
  M.__init__ L (M.DataNp L (InArray x)) h
  = (Ok (M.mk (length h)), h ++ [stored L x]).
Proof.
  unfold M.__init__. py_unfold. rewrite array_float_stored. reflexivity.
Qed.

Lemma call_run (self : M.t) (a : ndarray (F L)) idx h :
  h !! M.A self = Some a ->
  M.__call__ L self idx h = (getitem a (KTuple (map M.shift idx)), h).
Proof. intros Hm. unfold M.__call__. py_unfold. rewrite Hm. reflexivity. Qed.

Lemma getitem_run (self : M.t) (a : ndarray (F L)) k h :
  h !! M.A self = Some a ->
  M.__getitem__ L self k h = (getitem a k, h).
Proof.
  intros Hm. unfold M.__getitem__. py_unfold. rewrite Hm. reflexivity.
Qed.

Lemma shift_not_int (idx : list index) :
  forallb (fun i => negb (is_pyint i)) idx = true -> map M.shift idx = idx.
Proof.
  induction idx as [|i idx IH]; simpl; intros Hall; [reflexivity|].
  apply andb_prop in Hall as [Hi Hrest].
  rewrite IH by assumption. destruct i; simpl in *; congruence.
Qed.

Lemma setitem_run (m : M.t) (a : ndarray (F L)) k v (h : Store.store (F L)) :
  h !! M.A m = Some a ->
  M.__setitem__ L m k v h
  = (fst (NpF.assign_item L a k v),
     <[M.A m := snd (NpF.assign_item L a k v)]> h).
Proof.
  intros Hm. unfold M.__setitem__. py_unfold. rewrite Hm. reflexivity.
Qed.

Lemma setitem_dangling (m : M.t) k v (h : Store.store (F L)) :
  h !! M.A m = None -> M.__setitem__ L m k v h = (Raise SystemError, h).
Proof.
  intros Hm. unfold M.__setitem__. py_unfold. rewrite Hm. reflexivity.
Qed.

Lemma setitem_frame (m : M.t) k v (h : Store.store (F L)) (l : nat) :
  l <> M.A m -> snd (M.__setitem__ L m k v h) !! l = h !! l.
Proof.
  intros Hne. destruct (h !! M.A m) as [a|] eqn:Hm.
  - rewrite (setitem_run m a k v h Hm). simpl.
    apply list_lookup_insert_ne. congruence.
  - rewrite (setitem_dangling m k v h Hm). reflexivity.
Qed.


(** An assignment whose key is rejected writes nothing. *)
Lemma assign_item_rejected (a : ndarray (F L)) k v e :
  resolve (shape a) (key_indices k) = Raise e ->
  NpF.assign_item L a k v = (Raise e, a).
Proof. intros Hk. unfold NpF.assign_item. rewrite Hk. reflexivity. Qed.

End StoreFacts.

Section Indexing.
Variable L : NumLib.
Import Np.

(** C3.  For a matrix [A] with [r] rows and [c] columns and Python
    integers [1 <= i <= r], [1 <= j <= c], the call [A(i, j)] returns the
    element stored at the zero-based position [(i-1, j-1)] and leaves the
    store alone; [A(1, 1)] is the first element of the array. *)
Theorem call_one_based (self : M.t) (a : ndarray (F L)) (r c : nat) (i j : Z)
    (h : Store.store (F L)) :
  h !! M.A self = Some a -> shape a = [r; c] -> wf a ->
  (1 <= i <= Z.of_nat r)%Z -> (1 <= j <= Z.of_nat c)%Z ->
  exists x,
    elem2 a (Z.to_nat (i - 1)) (Z.to_nat (j - 1)) = Some x /\
    M.__call__ L self [IxInt i; IxInt j] h = (Ok (IScalar x), h) /\
    (i = 1%Z -> j = 1%Z -> head (data a) = Some x).
Proof.
  intros Hm Hs Hw Hi Hj.
  destruct (elem2_is_Some a r c (Z.to_nat (i - 1)) (Z.to_nat (j - 1)))
    as [x Hx]; try assumption; try lia.
  exists x. split; [exact Hx|]. split.
  - rewrite (call_run L self a) by assumption. simpl.
    rewrite (getitem_int_int a r c (i - 1) (j - 1) x)
      by (assumption || lia).
    reflexivity.
  - intros -> ->. simpl in Hx.
    rewrite (elem2_lookup a r c) in Hx by (assumption || lia).
    simpl in Hx. rewrite <- Hx. destruct (data a); reflexivity.
Qed.

(** C9.  [A[i-1, j-1]] and [A(i, j)] are the same computation; a slice
    given to [A(...)] behaves as the same slice in [A[...]]; more
    generally [A(...)] with no Python [int] among its arguments is
    [A[...]] on the same tuple (a NumPy integer is not shifted); and for
    in-range [i], [j] both [A[i-1, j-1]] and [A(i, j)] return the element
    at the zero-based position [(i-1, j-1)]. *)
Theorem call_vs_getitem (self : M.t) (h : Store.store (F L)) :
  (forall i j : Z,
      M.__getitem__ L self (KTuple [IxInt (i - 1); IxInt (j - 1)]) h
      = M.__call__ L self [IxInt i; IxInt j] h) /\
  (forall start stop step,
      M.__call__ L self [IxSlice start stop step] h
      = M.__getitem__ L self (KIndex (IxSlice start stop step)) h) /\
  (forall idx,
      forallb (fun i => negb (is_pyint i)) idx = true ->
      M.__call__ L self idx h = M.__getitem__ L self (KTuple idx) h) /\
  (forall a r c (i j : Z),
      h !! M.A self = Some a -> shape a = [r; c] -> wf a ->
      (1 <= i <= Z.of_nat r)%Z -> (1 <= j <= Z.of_nat c)%Z ->
      exists x,
        elem2 a (Z.to_nat (i - 1)) (Z.to_nat (j - 1)) = Some x /\
        M.__getitem__ L self (KTuple [IxInt (i - 1); IxInt (j - 1)]) h
        = (Ok (IScalar x), h) /\
        M.__call__ L self [IxInt i; IxInt j] h = (Ok (IScalar x), h)).
Proof.
  split; [|split; [|split]].
  - intros i j. reflexivity.
  - intros start stop step. reflexivity.
  - intros idx Hidx. unfold M.__call__, M.__getitem__.
    rewrite shift_not_int by assumption. reflexivity.
  - intros a r c i j Hm Hs Hw Hi Hj.
    destruct (elem2_is_Some a r c (Z.to_nat (i - 1)) (Z.to_nat (j - 1)))
      as [x Hx]; try assumption; try lia.
    exists x. split; [exact Hx|].
    rewrite (getitem_run L self a), (call_run L self a) by assumption.
    simpl.
    rewrite (getitem_int_int a r c (i - 1) (j - 1) x)
      by (assumption || lia).
    split; reflexivity.
Qed.

(** C8.  [M(B)] for an [M] object [B] allocates a new array with the
    elements of [B]'s; whatever is assigned through [__setitem__] to the
    new object afterwards, [B]'s array stays what it was, and whatever is
    assigned to [B], the new object's array stays what it was. *)
Theorem init_copies (B : M.t) (b : ndarray (F L)) (h : Store.store (F L)) :
  h !! M.A B = Some b ->
  exists N h',
    M.__init__ L (M.DataM L B) h = (Ok N, h') /\
    M.A N <> M.A B /\
    h' !! M.A N = Some b /\ h' !! M.A B = Some b /\
    (forall k v, snd (M.__setitem__ L N k v h') !! M.A B = Some b) /\
    (forall k v, snd (M.__setitem__ L B k v h') !! M.A N = Some b).
Proof.
  intros HB.
  assert (Hlt : M.A B < length h) by (eapply lookup_lt_Some; eassumption).
  exists (M.mk (length h)), (h ++ [b]).
  assert (HN : (h ++ [b]) !! length h = Some b) by apply last_lookup_app.
  assert (HB' : (h ++ [b]) !! M.A B = Some b).
  { rewrite lookup_app_l by assumption. exact HB. }
  split; [apply init_of_M; assumption|].
  simpl. split; [lia|]. split; [exact HN|]. split; [exact HB'|].
  split; intros k v.
  - rewrite setitem_frame by (simpl; lia). exact HB'.
  - rewrite setitem_frame by (simpl; lia). exact HN.
Qed.

End Indexing.

(** [call_one_based] on [A = [[1, 2], [3, 4]]] at [A(2, 1)]. *)
Lemma call_one_based_witness :
  exists x,
    Np.elem2 ExampleLib.a22 (Z.to_nat (2 - 1)) (Z.to_nat (1 - 1)) = Some x /\
    M.__call__ ExampleLib.lib (M.mk 0) [Np.IxInt 2; Np.IxInt 1]
      ExampleLib.store2
    = (Ok (Np.IScalar x), ExampleLib.store2) /\
    (2%Z = 1%Z -> 1%Z = 1%Z -> head (Np.data ExampleLib.a22) = Some x).
Proof.
  apply (call_one_based ExampleLib.lib (M.mk 0) ExampleLib.a22 2 2 2 1
           ExampleLib.store2);
    [reflexivity | reflexivity | reflexivity | lia | lia].
Defined.

(** [call_vs_getitem] on [A = [[1, 2], [3, 4]]]: [A[0, 1]] and [A(1, 2)]. *)
Lemma call_vs_getitem_witness :
  exists x,
    Np.elem2 ExampleLib.a22 (Z.to_nat (1 - 1)) (Z.to_nat (2 - 1)) = Some x /\
    M.__getitem__ ExampleLib.lib (M.mk 0)
      (Np.KTuple [Np.IxInt (1 - 1); Np.IxInt (2 - 1)]) ExampleLib.store2
    = (Ok (Np.IScalar x), ExampleLib.store2) /\
    M.__call__ ExampleLib.lib (M.mk 0) [Np.IxInt 1; Np.IxInt 2]
      ExampleLib.store2
    = (Ok (Np.IScalar x), ExampleLib.store2).
Proof.
  apply (proj2 (proj2 (proj2
           (call_vs_getitem ExampleLib.lib (M.mk 0) ExampleLib.store2)))
           ExampleLib.a22 2 2 1%Z 2%Z);
    [reflexivity | reflexivity | reflexivity | lia | lia].
Defined.

(** [init_copies] on [M(B)] for [B = [[5, 6], [7, 8]]]. *)
Lemma init_copies_witness :
  exists N h',
    M.__init__ ExampleLib.lib (M.DataM ExampleLib.lib (M.mk 1))
      ExampleLib.store2 = (Ok N, h') /\
    M.A N <> 1 /\
    h' !! M.A N = Some ExampleLib.b22 /\ h' !! 1 = Some ExampleLib.b22 /\
    (forall k v,
        snd (M.__setitem__ ExampleLib.lib N k v h') !! 1
        = Some ExampleLib.b22) /\
    (forall k v,
        snd (M.__setitem__ ExampleLib.lib (M.mk 1) k v h') !! M.A N
        = Some ExampleLib.b22).
Proof.
  apply (init_copies ExampleLib.lib (M.mk 1) ExampleLib.b22
           ExampleLib.store2).
  reflexivity.
Defined.

(** ** Operators are calls of the library *)

Section CallThrough.
Variable L : NumLib.
Import Np.

Lemma unwrap_run (x : M.operand L) b (h : Store.store (F L)) :
  operand_array L h x = Some b -> M._unwrap L x h = (Ok b, h).
Proof.
  destruct x; simpl; intros Hx.
  - unfold Store.deref. rewrite Hx. reflexivity.
  - inversion Hx; reflexivity.
  - inversion Hx; reflexivity.
Qed.

Lemma mapP_unwrap_run (args : list (M.operand L)) arrs
    (h : Store.store (F L)) :
  Forall2 (fun x a => operand_array L h x = Some a) args arrs ->
  Store.mapP (M._unwrap L) args h = (Ok arrs, h).
Proof.
  induction 1 as [|x a args arrs Hx _ IH]; [reflexivity|].
  simpl. unfold Store.bind at 1. rewrite (unwrap_run x a h Hx).
  unfold Store.bind at 1. rewrite IH. reflexivity.
Qed.

(** The shape of every binary operator of [M]. *)
Lemma binary_run (f : ndarray (F L) -> ndarray (F L) -> result (ndarray (F L)))
    (self : M.t) (other : M.operand L) (a b : ndarray (F L))
    (h : Store.store (F L)) :
  h !! M.A self = Some a -> operand_array L h other = Some b ->
  (let* x := Store.deref (M.A self) in
   let* y := M._unwrap L other in
   let* c := Store.lift (f x y) in
   M.__init__ L (M.of_array L c)) h
  = wrapped L h (f a b).
Proof.
  intros Hself Hother. py_unfold. rewrite Hself.
  rewrite (unwrap_run _ _ _ Hother).
  destruct (f a b) as [c|e]; cbv beta iota; [|reflexivity].
  rewrite init_of_array. reflexivity.
Qed.

(** The shape of every unary method that returns an [M]. *)
Lemma unary_run (f : ndarray (F L) -> result (ndarray (F L)))
    (self : M.t) (a : ndarray (F L)) (h : Store.store (F L)) :
  h !! M.A self = Some a ->
  (let* x := Store.deref (M.A self) in
   let* c := Store.lift (f x) in
   M.__init__ L (M.of_array L c)) h
  = wrapped L h (f a).
Proof.
  intros Hself. py_unfold. rewrite Hself.
  destruct (f a) as [c|e]; cbv beta iota; [|reflexivity].
  rewrite init_of_array. reflexivity.
Qed.

Section Ops.
Variables (self : M.t) (other : M.operand L) (a b : ndarray (F L))
          (h : Store.store (F L)).
Hypothesis Hself : h !! M.A self = Some a.
Hypothesis Hother : operand_array L h other = Some b.

Lemma add_run : M.__add__ L self other h = wrapped L h (NpF.add L a b).
Proof. apply (binary_run (NpF.add L)); assumption. Qed.

Lemma sub_run :
  M.__sub__ L self other h = wrapped L h (NpF.subtract L a b).
Proof. apply (binary_run (NpF.subtract L)); assumption. Qed.

Lemma mul_run : M.__mul__ L self other h = wrapped L h (NpF.matmul L a b).
Proof. apply (binary_run (NpF.matmul L)); assumption. Qed.

Lemma truediv_run :
  M.__truediv__ L self other h
  = wrapped L h (linalg_inv L b ≫= NpF.matmul L a).
Proof.
  unfold M.__truediv__. py_unfold. rewrite Hself.
  rewrite (unwrap_run _ _ _ Hother).
  destruct (linalg_inv L b) as [bi|e]; cbn [mbind result_bind];
    [|reflexivity].
  destruct (NpF.matmul L a bi) as [c|e]; cbv beta iota; [|reflexivity].
  rewrite init_of_array. reflexivity.
Qed.

Lemma emul_run : M.emul L self other h = wrapped L h (NpF.multiply L a b).
Proof. apply (binary_run (NpF.multiply L)); assumption. Qed.

Lemma ediv_run : M.ediv L self other h = wrapped L h (NpF.divide L a b).
Proof. apply (binary_run (NpF.divide L)); assumption. Qed.

Lemma epow_run : M.epow L self other h = wrapped L h (NpF.power L a b).
Proof. apply (binary_run (NpF.power L)); assumption. Qed.

Lemma pow_run p :
  M.__pow__ L self p h = wrapped L h (linalg_matrix_power L a p).
Proof.
  apply (unary_run (fun x => linalg_matrix_power L x p)). assumption.
Qed.

Lemma inv_run : M.inv L self h = wrapped L h (linalg_inv L a).
Proof. apply (unary_run (linalg_inv L)). assumption. Qed.

Lemma pinv_run : M.pinv L self h = wrapped L h (linalg_pinv L a).
Proof. apply (unary_run (linalg_pinv L)). assumption. Qed.

Lemma det_run : M.det L self h = (linalg_det L a, h).
Proof. unfold M.det. py_unfold. rewrite Hself. reflexivity. Qed.

Lemma rank_run : M.rank L self h = (linalg_matrix_rank L a, h).
Proof. unfold M.rank. py_unfold. rewrite Hself. reflexivity. Qed.

Lemma eig_run :
  M.eig L self h
  = match linalg_eig L a with
    | Ok (w, v) =>
        (Ok (M.mk (length h), M.mk (S (length h))),
         h ++ [stored L w; stored L v])
    | Raise e => (Raise e, h)
    end.
Proof.
  unfold M.eig. unfold Store.bind at 1. unfold Store.deref.
  rewrite Hself. unfold Store.bind at 1. unfold Store.lift.
  destruct (linalg_eig L a) as [[w v]|e]; [|reflexivity].
  unfold Store.bind at 1. rewrite init_any.
  unfold Store.bind at 1. rewrite init_any. simpl.
  unfold Store.ret. rewrite length_app, <- app_assoc. simpl.
  rewrite Nat.add_1_r. reflexivity.
Qed.
End Ops.

Lemma hcat_run args arrs (h : Store.store (F L)) :
  Forall2 (fun x a => operand_array L h x = Some a) args arrs ->
  M.hcat L args h = wrapped L h (hstack arrs).
Proof.
  intros Hargs. unfold M.hcat. unfold Store.bind at 1.
  rewrite (mapP_unwrap_run args arrs h Hargs).
  py_unfold. destruct (hstack arrs) as [c|e]; cbv beta iota; [|reflexivity].
  rewrite init_of_array. reflexivity.
Qed.

Lemma vcat_run args arrs (h : Store.store (F L)) :
  Forall2 (fun x a => operand_array L h x = Some a) args arrs ->
  M.vcat L args h = wrapped L h (vstack arrs).
Proof.
  intros Hargs. unfold M.vcat. unfold Store.bind at 1.
  rewrite (mapP_unwrap_run args arrs h Hargs).
  py_unfold. destruct (vstack arrs) as [c|e]; cbv beta iota; [|reflexivity].
  rewrite init_of_array. reflexivity.
Qed.



End CallThrough.

(** ** Lists, shapes and multi-indices *)

Section ListFacts.
Context {T : Type}.

Lemma omap_lookup_seq (l : list T) (p k : nat) :
  p + k <= length l ->
  omap (fun t => l !! (p + t)) (seq 0 k) = take k (drop p l).
Proof.
  revert p. induction k as [|k IH]; intros p Hk.
  - reflexivity.
  - rewrite seq_S, omap_app. simpl. rewrite IH by lia.
    destruct (lookup_lt_is_Some_2 l (p + k)) as [x Hx]; [lia|].
    rewrite Hx. simpl.
    rewrite (take_S_r _ _ x) by (rewrite lookup_drop; exact Hx).
    reflexivity.
Qed.

Lemma omap_lookup_all (l : list T) :
  omap (fun o => l !! o) (seq 0 (length l)) = l.
Proof.
  pose proof (omap_lookup_seq l 0 (length l)) as Hall. simpl in Hall.
  rewrite Hall by lia. rewrite drop_0. apply firstn_all.
Qed.

Lemma flat_map_seq_blocks (n s : nat) :
  flat_map (fun i => seq (i * s) s) (seq 0 n) = seq 0 (n * s).
Proof.
  induction n as [|n IH]; [reflexivity|].
  replace (S n * s) with (n * s + s) by lia.
  rewrite seq_S, flat_map_app, IH, seq_app. simpl. rewrite app_nil_r.
  reflexivity.
Qed.

(** Block [i] of a concatenation of blocks of equal length. *)
Lemma take_drop_flat_map {X} (f : X -> list T) (l : list X) (s i : nat)
    (x : X) :
  Forall (fun y => length (f y) = s) l ->
  l !! i = Some x ->
  take s (drop (i * s) (flat_map f l)) = f x.
Proof.
  intros Hall. revert i. induction Hall as [|y l Hy Hall IH]; intros i Hi.
  - discriminate.
  - destruct i as [|i]; simpl in *.
    + injection Hi as ->. rewrite drop_0, take_app_length' by lia.
      reflexivity.
    + rewrite drop_app_ge by lia.
      replace (s + i * s - length (f y)) with (i * s) by lia.
      apply IH. exact Hi.
Qed.

Lemma concat_lookup (d : list (list T)) (c i j : nat) r x :
  Forall (fun r => length r = c) d ->
  d !! i = Some r -> r !! j = Some x ->
  concat d !! (i * c + j) = Some x.
Proof.
  intros Hall. revert i. induction Hall as [|r0 d Hr0 _ IH]; intros i Hi Hj.
  - discriminate.
  - destruct i as [|i]; simpl in *.
    + injection Hi as ->. rewrite lookup_app_l; [exact Hj|].
      eapply lookup_lt_Some. exact Hj.
    + rewrite lookup_app_r by lia.
      replace (c + i * c + j - length r0) with (i * c + j) by lia.
      apply IH; assumption.
Qed.

Lemma length_concat_rect (d : list (list T)) (c : nat) :
  Forall (fun r => length r = c) d -> length (concat d) = length d * c.
Proof.
  induction 1 as [|r d Hr _ IH]; [reflexivity|].
  simpl. rewrite length_app, IH, Hr. reflexivity.
Qed.
End ListFacts.

Section OmapFacts.
Context {X Y : Type}.

Lemma omap_total_lookup (f : X -> option Y) (l : list X) (i : nat)
    (x : X) :
  (forall y, In y l -> is_Some (f y)) ->
  l !! i = Some x -> omap f l !! i = f x.
Proof.
  revert i. induction l as [|y l IH]; intros i Hall Hi; [discriminate|].
  csimpl. destruct (Hall y (or_introl eq_refl)) as [fy Hfy]. rewrite Hfy.
  destruct i as [|i]; simpl in *.
  - injection Hi as ->. symmetry. exact Hfy.
  - apply IH; [|exact Hi]. intros z Hz. apply Hall. right. exact Hz.
Qed.

Lemma length_omap_total (f : X -> option Y) (l : list X) :
  (forall y, In y l -> is_Some (f y)) -> length (omap f l) = length l.
Proof.
  induction l as [|x l IH]; intros Hf; [reflexivity|]. csimpl.
  destruct (Hf x (or_introl eq_refl)) as [y ->]. simpl.
  rewrite IH; [reflexivity|]. intros z Hz. apply Hf. right. exact Hz.
Qed.

Lemma omap_ext_in (f g : X -> option Y) (l : list X) :
  (forall x, In x l -> f x = g x) -> omap f l = omap g l.
Proof.
  induction l as [|x l IH]; intros Hfg; [reflexivity|].
  csimpl. rewrite (Hfg x) by (left; reflexivity).
  rewrite IH by (intros y Hy; apply Hfg; right; exact Hy).
  reflexivity.
Qed.


Lemma omap_map {W} (f : X -> option Y) (g : W -> X) (l : list W) :
  omap f (map g l) = omap (fun w => f (g w)) l.
Proof.
  induction l as [|w l IH]; [reflexivity|]. csimpl. rewrite IH. reflexivity.
Qed.
End OmapFacts.

Section ShapeFacts.
Import Np.

(** [indices] lists the multi-indices in the order of their positions. *)
Lemma flat_index_indices (s : list nat) :
  map (flat_index s) (indices s) = seq 0 (size_of s).
Proof.
  induction s as [|n s IH]; [reflexivity|].
  simpl. rewrite <- flat_map_seq_blocks.
  rewrite flat_map_concat_map, concat_map, map_map, <- flat_map_concat_map.
  apply flat_map_ext. intros i.
  rewrite map_map. simpl.
  rewrite <- (map_map (flat_index s) (fun o => i * size_of s + o)), IH.
  pose proof (fmap_add_seq (i * size_of s) 0 (size_of s)) as Hshift.
  rewrite Nat.add_0_r in Hshift. exact Hshift.
Qed.

Lemma length_indices (s : list nat) : length (indices s) = size_of s.
Proof.
  rewrite <- (length_map (flat_index s)), flat_index_indices.
  apply length_seq.
Qed.

(** The members of [indices s] are the multi-indices below [s]. *)
Lemma indices_bounded (s m : list nat) :
  In m (indices s) -> Forall2 (fun i d => i < d) m s.
Proof.
  revert m. induction s as [|n s IH]; simpl; intros m Hm.
  - destruct Hm as [<-|[]]. constructor.
  - apply in_flat_map in Hm as (i & Hi & Hm).
    apply in_map_iff in Hm as (m' & <- & Hm').
    apply in_seq in Hi. constructor; [lia|]. apply IH. exact Hm'.
Qed.

Lemma indices_lookup (s m : list nat) :
  Forall2 (fun i d => i < d) m s ->
  indices s !! flat_index s m = Some m.
Proof.
  induction 1 as [|i n m s Hi Hm IH]; [reflexivity|].
  simpl.
  assert (Hblock : take (size_of s) (drop (i * size_of s)
            (flat_map (fun i => map (cons i) (indices s)) (seq 0 n)))
          = map (cons i) (indices s)).
  { apply (take_drop_flat_map (fun i => map (cons i) (indices s))
             (seq 0 n) (size_of s) i i).
    - apply Forall_forall. intros y _.
      rewrite length_map. apply length_indices.
    - apply lookup_seq_lt. exact Hi. }
  assert (Hlt : flat_index s m < size_of s).
  { apply lookup_lt_Some in IH. rewrite length_indices in IH. exact IH. }
  rewrite <- lookup_drop, <- (lookup_take_lt _ (size_of s)) by exact Hlt.
  rewrite Hblock, list_lookup_fmap, IH. reflexivity.
Qed.

Lemma bshape_rev_same (r : list nat) : bshape_rev r r = Some r.
Proof.
  induction r as [|a r IH]; [reflexivity|].
  simpl. rewrite IH, Nat.eqb_refl. reflexivity.
Qed.

Lemma broadcast_same (s : list nat) : broadcast_shapes s s = Some s.
Proof.
  unfold broadcast_shapes. rewrite bshape_rev_same, rev_involutive.
  reflexivity.
Qed.

Lemma Forall2_rev {P : nat -> nat -> Prop} (l k : list nat) :
  Forall2 P l k -> Forall2 P (rev l) (rev k).
Proof.
  induction 1 as [|x y l k Hxy _ IH]; simpl; [constructor|].
  apply Forall2_app; [exact IH|]. repeat constructor. exact Hxy.
Qed.

Lemma bsrc_rev_bounded (rs rm : list nat) :
  Forall2 (fun i d => i < d) rm rs -> bsrc_rev rs rm = rm.
Proof.
  induction 1 as [|i d rm rs Hi _ IH]; [reflexivity|].
  simpl. rewrite IH. destruct (Nat.eqb_spec d 1); [f_equal; lia|reflexivity].
Qed.

(** Broadcasting an array to its own shape reads every element at its
    own multi-index. *)
Lemma bsrc_bounded (s m : list nat) :
  Forall2 (fun i d => i < d) m s -> bsrc s m = m.
Proof.
  intros Hm. unfold bsrc.
  rewrite bsrc_rev_bounded by (apply Forall2_rev; exact Hm).
  apply rev_involutive.
Qed.
End ShapeFacts.

(** ** Matrix product and elementwise product *)

Section Rows.
Context {T : Type}.
Import Np.

Lemma row_lookups (a : ndarray T) (r c i : nat) :
  shape a = [r; c] -> wf a -> i < r ->
  omap (fun t => data a !! (i * c + t)) (seq 0 c) = row a i.
Proof.
  intros Hs Hw Hi. unfold row. rewrite Hs.
  apply omap_lookup_seq. unfold wf in Hw. rewrite Hw, Hs. simpl. nia.
Qed.

Lemma length_row (a : ndarray T) (r c i : nat) :
  shape a = [r; c] -> wf a -> i < r -> length (row a i) = c.
Proof.
  intros Hs Hw Hi. unfold row. rewrite Hs.
  rewrite length_take, length_drop. unfold wf in Hw. rewrite Hw, Hs.
  simpl. nia.
Qed.
End Rows.

Section Products.
Variable L : NumLib.
Import Np.

Lemma elementwise_same_shape (f : F L -> F L -> F L) (a b : ndarray (F L)) :
  shape b = shape a -> wf a -> wf b ->
  NpF.elementwise L f a b
  = Ok (mk_nd (shape a) (zip_with f (data a) (data b))).
Proof.
  intros Hs Ha Hb. unfold NpF.elementwise, tabulate.
  rewrite Hs, broadcast_same. f_equal. f_equal.
  rewrite (omap_ext_in _
             (fun m => zip_with f (data a) (data b)
                         !! flat_index (shape a) m)).
  - rewrite <- (omap_map (fun o => zip_with f (data a) (data b) !! o)).
    rewrite flat_index_indices.
    replace (size_of (shape a))
      with (length (zip_with f (data a) (data b))).
    + apply omap_lookup_all.
    + rewrite length_zip_with. unfold wf in Ha, Hb. rewrite Hs in Hb. lia.
  - intros m Hm. apply indices_bounded in Hm.
    rewrite bsrc_bounded by exact Hm.
    unfold get. rewrite Hs, lookup_zip_with.
    destruct (data a !! _), (data b !! _); reflexivity.
Qed.








End Products.


(** ** Concatenation *)

Section Stacking.
Context {T : Type}.
Import Np.



Lemma vstack_matrices (l : list (ndarray T)) (c : nat) :
  l <> [] -> Forall (matrix_cols c) l ->
  vstack l = Ok (mk_nd [sum_list (map nrows l); c] (flat_map data l)).
Proof.
  intros Hne Hall. unfold vstack.
  assert (Hid : map atleast_2d l = l).
  { clear Hne. induction Hall as [|a l (r & Hs & _) _ IH]; [reflexivity|].
    simpl. rewrite IH. unfold atleast_2d. rewrite Hs. reflexivity. }
  rewrite Hid. destruct l as [|a l]; [congruence|].
  unfold concatenate0.
  pose proof (Forall_inv Hall) as (r & Hs & _). rewrite Hs.
  replace (forallb _ (a :: l)) with true; [reflexivity|].
  symmetry. apply forallb_forall. intros b Hb.
  rewrite Forall_forall in Hall.
  destruct (Hall b) as (rb & Hsb & _).
  { apply list_elem_of_In. exact Hb. }
  rewrite Hsb. apply bool_decide_eq_true. reflexivity.
Qed.




End Stacking.

Section Concatenation.
Variable L : NumLib.
Import Np.


End Concatenation.


(** ** The matrix literal *)

Section ParsingFacts.
Import PyStr LiteralSpec.

Lemma fields_unfold sep s :
  fields sep s = hd EmptyString (fields sep s) :: tl (fields sep s).
Proof. destruct s as [|c s]; simpl; [|destruct (sep c)]; reflexivity. Qed.

(** The pieces [mat] iterates over, before the first [strip]. *)
Lemma pieces_fields s :
  split semicolon (replace newline semicolon s) = fields row_sep s.
Proof.
  induction s as [|c s IH]; [reflexivity|].
  simpl. rewrite IH. unfold row_sep.
  destruct (Ascii.eqb_spec c newline) as [->|Hnl].
  - rewrite Bool.orb_true_r. reflexivity.
  - rewrite Bool.orb_false_r.
    destruct (Ascii.eqb c semicolon); [reflexivity|].
    rewrite (fields_unfold _ s) at 1. reflexivity.
Qed.

(** *** One row *)

Lemma lstrip_blank s : blank (lstrip s) = blank s.
Proof.
  induction s as [|c s IH]; [reflexivity|].
  simpl. destruct (isspace c) eqn:Hc; simpl; [exact IH|].
  rewrite Hc. reflexivity.
Qed.

Lemma rstrip_empty s : is_empty (rstrip s) = blank s.
Proof.
  induction s as [|c s IH]; [reflexivity|].
  simpl. destruct (rstrip s) as [|c' r]; simpl in *.
  - rewrite <- IH, Bool.andb_true_r. destruct (isspace c); reflexivity.
  - rewrite <- IH, Bool.andb_false_r. reflexivity.
Qed.

Lemma strip_empty s : is_empty (strip s) = blank s.
Proof. unfold strip. rewrite rstrip_empty. apply lstrip_blank. Qed.

Lemma split_ws_fields s :
  split_ws s = List.filter nonempty (fields isspace s).
Proof.
  induction s as [|c s IH]; [reflexivity|].
  cbn [split_ws fields]. destruct (isspace c) eqn:Hc; [exact IH|].
  destruct s as [|c' s]; [reflexivity|].
  rewrite IH. cbn [fields]. destruct (isspace c'); reflexivity.
Qed.

Lemma replace_comma_fields s :
  fields isspace (replace comma space s) = fields entry_sep s.
Proof.
  induction s as [|c s IH]; [reflexivity|].
  simpl. rewrite IH. unfold entry_sep.
  destruct (Ascii.eqb c comma); [rewrite Bool.orb_true_r; reflexivity|].
  rewrite Bool.orb_false_r. reflexivity.
Qed.

Lemma tokens_tview s : tokens s = tfinish (tview s).
Proof.
  unfold tokens, tfinish, tview. rewrite (fields_unfold _ s) at 1.
  simpl. unfold nonempty at 1.
  destruct (is_empty (hd EmptyString (fields entry_sep s))); reflexivity.
Qed.

Lemma tview_cons c s : tview (String c s) = tstep c (tview s).
Proof.
  unfold tstep. destruct (entry_sep c) eqn:Hc.
  - unfold tview at 1. simpl. rewrite Hc. simpl. f_equal.
    apply tokens_tview.
  - unfold tview. simpl. rewrite Hc. reflexivity.
Qed.

Lemma isspace_entry_sep c : isspace c = true -> entry_sep c = true.
Proof. intros Hc. unfold entry_sep. rewrite Hc. reflexivity. Qed.

Lemma tview_rstrip s : tview (rstrip s) = tview s.
Proof.
  induction s as [|c s IH]; [reflexivity|].
  rewrite (tview_cons c s). simpl. destruct (rstrip s) as [|c' r] eqn:Hr.
  - rewrite <- IH. destruct (isspace c) eqn:Hc.
    + unfold tstep. rewrite (isspace_entry_sep c Hc). reflexivity.
    + apply tview_cons.
  - rewrite <- IH. apply tview_cons.
Qed.

Lemma tokens_lstrip s : tokens (lstrip s) = tokens s.
Proof.
  induction s as [|c s IH]; [reflexivity|].
  simpl. destruct (isspace c) eqn:Hc; [|reflexivity].
  rewrite IH. unfold tokens. simpl.
  rewrite (isspace_entry_sep c Hc). reflexivity.
Qed.

Lemma tokens_strip s : tokens (strip s) = tokens s.
Proof.
  unfold strip. rewrite tokens_tview, tview_rstrip, <- tokens_tview.
  apply tokens_lstrip.
Qed.

(** What the body of the loop of [mat] splits a piece into. *)
Lemma row_tokens r :
  split_ws (replace comma space (strip r)) = tokens r.
Proof.
  rewrite split_ws_fields, replace_comma_fields. apply tokens_strip.
Qed.

(** *** The rows *)

Lemma grid_rview s : grid s = rfinish (rview s).
Proof.
  unfold grid, rfinish, rview. rewrite (fields_unfold _ s) at 1.
  cbn [List.filter fst snd].
  destruct (blank (hd EmptyString (fields row_sep s))); simpl;
    [reflexivity|].
  rewrite tokens_tview. reflexivity.
Qed.

Lemma rview_cons c s : rview (String c s) = rstep c (rview s).
Proof.
  unfold rstep. destruct (row_sep c) eqn:Hc.
  - unfold rview at 1. simpl. rewrite Hc. simpl.
    f_equal. apply grid_rview.
  - unfold rview. simpl. rewrite Hc. simpl. rewrite tview_cons.
    reflexivity.
Qed.

Lemma rstep_space_empty c :
  isspace c = true -> rstep c (rview EmptyString) = rview EmptyString.
Proof.
  intros Hc. unfold rstep. destruct (row_sep c); [reflexivity|].
  simpl. unfold tstep. rewrite (isspace_entry_sep c Hc), Hc. reflexivity.
Qed.

Lemma rview_rstrip s : rview (rstrip s) = rview s.
Proof.
  induction s as [|c s IH]; [reflexivity|].
  rewrite (rview_cons c s). simpl. destruct (rstrip s) as [|c' r] eqn:Hr.
  - rewrite <- IH. destruct (isspace c) eqn:Hc.
    + symmetry. apply rstep_space_empty. exact Hc.
    + apply rview_cons.
  - rewrite <- IH. apply rview_cons.
Qed.

Lemma grid_space c s : isspace c = true -> grid (String c s) = grid s.
Proof.
  intros Hc. rewrite !grid_rview, rview_cons. unfold rstep.
  destruct (row_sep c); [reflexivity|].
  unfold rfinish. cbn [fst snd]. rewrite Hc, Bool.andb_true_l.
  destruct (snd (fst (rview s))); [reflexivity|].
  unfold tstep. rewrite (isspace_entry_sep c Hc). reflexivity.
Qed.

Lemma grid_lstrip s : grid (lstrip s) = grid s.
Proof.
  induction s as [|c s IH]; [reflexivity|].
  simpl. destruct (isspace c) eqn:Hc; [|reflexivity].
  rewrite IH. symmetry. apply grid_space. exact Hc.
Qed.

Lemma grid_strip s : grid (strip s) = grid s.
Proof.
  unfold strip. rewrite grid_rview, rview_rstrip, <- grid_rview.
  apply grid_lstrip.
Qed.

End ParsingFacts.

Section MatData.
Variable L : NumLib.
Import PyStr LiteralSpec.

(** The loop of [mat] reads the entries of the rows that are not blank. *)
Lemma mat_data_rowlist (pieces : list string) :
  mat_data L pieces = mapR (mapR (pyfloat L)) (rowlist pieces).
Proof.
  induction pieces as [|r pieces IH]; [reflexivity|].
  unfold rowlist in *. cbn [mat_data List.filter].
  rewrite strip_empty, row_tokens, IH.
  destruct (blank r); reflexivity.
Qed.

Lemma mat_data_grid (expr : string) :
  mat_data L (mat_pieces expr) = mapR (mapR (pyfloat L)) (grid expr).
Proof.
  rewrite mat_data_rowlist. unfold mat_pieces.
  rewrite pieces_fields.
  change (rowlist (fields row_sep (strip expr))) with (grid (strip expr)).
  rewrite grid_strip. reflexivity.
Qed.
End MatData.

Section MapR.
Context {X Y : Type}.

Lemma mapR_Forall2 (f : X -> result Y) (l : list X) (ys : list Y) :
  Forall2 (fun x y => f x = Ok y) l ys -> mapR f l = Ok ys.
Proof.
  induction 1 as [|x y l ys Hxy _ IH]; [reflexivity|].
  simpl. rewrite Hxy, IH. reflexivity.
Qed.

Lemma mapR_raises_at (f : X -> result Y) (l : list X) (x : X) :
  In x l -> raises (f x) -> raises (mapR f l).
Proof.
  intros Hin [e He]. induction l as [|y l IH]; [destruct Hin|].
  simpl. destruct Hin as [->|Hin].
  - rewrite He. exists e. reflexivity.
  - destruct (f y) as [y'|e']; [|exists e'; reflexivity].
    destruct (IH Hin) as [e' ->]. exists e'. reflexivity.
Qed.
End MapR.

Section ArrayOfRows.
Variable L : NumLib.
Import Np LiteralSpec.

(** The values of a grid of numeric tokens. *)
Lemma numeric_values (g : list (list string)) :
  Forall (Forall (numeric L)) g ->
  exists d,
    Forall2 (Forall2 (fun t x => float_of_str L t = Some x)) g d /\
    mapR (mapR (pyfloat L)) g = Ok d.
Proof.
  induction 1 as [|r g Hr _ (d & Hd & Hmap)].
  - exists []. split; [constructor|reflexivity].
  - assert (Hrow : exists xs,
               Forall2 (fun t x => float_of_str L t = Some x) r xs /\
               mapR (pyfloat L) r = Ok xs).
    { clear -Hr. induction Hr as [|t r [x Hx] _ (xs & Hxs & Hmap)].
      - exists []. split; [constructor|reflexivity].
      - exists (x :: xs). split; [constructor; assumption|].
        simpl. unfold pyfloat at 1. rewrite Hx, Hmap. reflexivity. }
    destruct Hrow as (xs & Hxs & Hrow).
    exists (xs :: d). split; [constructor; assumption|].
    simpl. rewrite Hrow, Hmap. reflexivity.
Qed.

Lemma values_rect (g : list (list string)) (d : list (list (F L))) c :
  Forall2 (Forall2 (fun t x => float_of_str L t = Some x)) g d ->
  Forall (fun r => length r = c) g ->
  Forall (fun r => length r = c) d /\ length d = length g.
Proof.
  induction 1 as [|r xs g d Hr _ IH]; intros Hall.
  - split; [constructor|reflexivity].
  - inversion Hall as [|? ? Hlen Hrest]; subst.
    destruct (IH Hrest) as [IH1 IH2]. split.
    + constructor; [|exact IH1].
      symmetry. eapply Forall2_length. exact Hr.
    + simpl. rewrite IH2. reflexivity.
Qed.

Lemma obj_shape_row (cols : list (F L)) :
  NpF.obj_shape L (PyList (map PyFloat cols)) = Some [length cols].
Proof.
  destruct cols as [|x cols]; [reflexivity|].
  cbn [NpF.obj_shape map]. rewrite map_map. cbn [NpF.obj_shape].
  replace (forallb _ _) with true;
    [cbn [length]; rewrite length_map; reflexivity|].
  symmetry. apply forallb_forall. intros s Hs.
  apply in_map_iff in Hs as (y & <- & _). apply bool_decide_eq_true.
  reflexivity.
Qed.

Lemma map_obj_shape_rows (d : list (list (F L))) :
  map (NpF.obj_shape L) (map (fun cols => PyList (map PyFloat cols)) d)
  = map (fun cols => Some [length cols]) d.
Proof.
  rewrite map_map. apply map_ext. intros cols. apply obj_shape_row.
Qed.

Lemma obj_shape_rows (d : list (list (F L))) (c : nat) :
  d <> [] -> Forall (fun r => length r = c) d ->
  NpF.obj_shape L (list_of_rows L d) = Some [length d; c].
Proof.
  intros Hne Hall. unfold list_of_rows. cbn [NpF.obj_shape].
  rewrite map_obj_shape_rows. destruct d as [|r d]; [congruence|].
  cbn [map]. inversion Hall as [|? ? Hr Hd]; subst.
  replace (forallb _ _) with true.
  - cbn [length]. rewrite length_map. reflexivity.
  - symmetry. apply forallb_forall. intros s Hs.
    apply in_map_iff in Hs as (y & <- & Hy).
    apply bool_decide_eq_true. rewrite Forall_forall in Hd.
    rewrite (Hd y) by (apply list_elem_of_In; exact Hy). reflexivity.
Qed.

(** Rows of different lengths have no shape. *)
Lemma obj_shape_ragged (d : list (list (F L))) (i j : nat) r1 r2 :
  d !! i = Some r1 -> d !! j = Some r2 -> length r1 <> length r2 ->
  NpF.obj_shape L (list_of_rows L d) = None.
Proof.
  intros H1 H2 Hne. unfold list_of_rows. cbn [NpF.obj_shape].
  rewrite map_obj_shape_rows. destruct d as [|r d]; [discriminate|].
  cbn [map].
  destruct (forallb _ _) eqn:Hall; [exfalso|reflexivity].
  rewrite forallb_forall in Hall.
  assert (Hsame : forall k r', (r :: d) !! k = Some r' ->
                               length r' = length r).
  { intros [|k] r' Hk; simpl in Hk; [congruence|].
    specialize (Hall (Some [length r'])).
    rewrite bool_decide_eq_true in Hall.
    assert (Hs : Some [length r'] = Some [length r]); [|congruence].
    apply Hall. apply in_map_iff. exists r'. split; [reflexivity|].
    apply list_elem_of_In. eapply list_elem_of_lookup_2. exact Hk. }
  rewrite (Hsame i r1 H1), (Hsame j r2 H2) in Hne. congruence.
Qed.

Lemma leaves_rows (d : list (list (F L))) :
  NpF.leaves L (list_of_rows L d) = map PyFloat (concat d).
Proof.
  unfold list_of_rows. cbn [NpF.leaves].
  induction d as [|r d IH]; [reflexivity|].
  cbn [map flat_map concat]. rewrite IH, map_app. f_equal.
  cbn [NpF.leaves]. clear. induction r as [|x r IH]; [reflexivity|].
  simpl. rewrite IH. reflexivity.
Qed.

Lemma to_float_floats (xs : list (F L)) :
  mapR (NpF.to_float L) (map PyFloat xs) = Ok xs.
Proof.
  induction xs as [|x xs IH]; [reflexivity|]. simpl. rewrite IH.
  reflexivity.
Qed.

Lemma array_of_rows (d : list (list (F L))) (c : nat) :
  d <> [] -> Forall (fun r => length r = c) d ->
  NpF.array_float L (InObj (list_of_rows L d))
  = Ok (mk_nd [length d; c] (concat d)).
Proof.
  intros Hne Hall. unfold NpF.array_float.
  rewrite (obj_shape_rows d c Hne Hall), leaves_rows, to_float_floats.
  reflexivity.
Qed.

Lemma array_of_ragged_rows (d : list (list (F L))) (i j : nat) r1 r2 :
  d !! i = Some r1 -> d !! j = Some r2 -> length r1 <> length r2 ->
  NpF.array_float L (InObj (list_of_rows L d)) = Raise ValueError.
Proof.
  intros H1 H2 Hne. unfold NpF.array_float.
  rewrite (obj_shape_ragged d i j r1 r2 H1 H2 Hne). reflexivity.
Qed.

Lemma mat_run (expr : string) (d : list (list (F L))) h :
  mapR (mapR (pyfloat L)) (grid expr) = Ok d ->
  mat L expr h
  = match NpF.array_float L (InObj (list_of_rows L d)) with
    | Ok a => (Ok (M.mk (length h)), h ++ [a])
    | Raise e => (Raise e, h)
    end.
Proof.
  intros Hd. unfold mat. py_unfold. rewrite mat_data_grid, Hd.
  unfold M.__init__. py_unfold.
  destruct (NpF.array_float L _); reflexivity.
Qed.

Lemma mat_rect_run (expr : string) (d : list (list (F L))) (c : nat) h :
  mapR (mapR (pyfloat L)) (grid expr) = Ok d ->
  d <> [] -> Forall (fun r => length r = c) d ->
  mat L expr h
  = (Ok (M.mk (length h)), h ++ [mk_nd [length d; c] (concat d)]).
Proof.
  intros Hd Hne Hall. rewrite (mat_run expr d h Hd).
  rewrite (array_of_rows d c Hne Hall). reflexivity.
Qed.

Lemma mat_empty_run (expr : string) h :
  grid expr = [] ->
  mat L expr h = (Ok (M.mk (length h)), h ++ [mk_nd [0] []]).
Proof.
  intros Hg. rewrite (mat_run expr [] h); [reflexivity|].
  rewrite Hg. reflexivity.
Qed.

(** C1, amended.  For every literal whose entries are numeric and whose
    rows (the non-blank pieces between semicolons and newlines) all have
    the same number of entries (the pieces between white space and
    commas), [mat] returns a matrix in which [A(i+1, j+1)] is the value
    [float()] gives entry [j] of row [i]; and [mat("1 2; 3 4")] and
    [mat("1,2\n3 4")] are the same computation. *)
Theorem mat_entries :
  (forall (expr : string) (c : nat) (h : Store.store (F L)),
      Forall (Forall (numeric L)) (grid expr) ->
      Forall (fun r => length r = c) (grid expr) ->
      exists m h',
        mat L expr h = (Ok m, h') /\
        forall i j r t,
          grid expr !! i = Some r -> r !! j = Some t ->
          exists x,
            float_of_str L t = Some x /\
            M.__call__ L m [IxInt (Z.of_nat i + 1); IxInt (Z.of_nat j + 1)] h'
            = (Ok (IScalar x), h')) /\
  (forall h : Store.store (F L),
      mat L "1 2; 3 4" h = mat L ("1,2" ++ String PyStr.newline "3 4") h).
Proof.
  split.
  - intros expr c h Hnum Hrect.
    destruct (numeric_values (grid expr) Hnum) as (d & Hval & Hd).
    destruct (values_rect (grid expr) d c Hval Hrect) as [Hdrect Hlen].
    destruct (decide (d = [])) as [->|Hne].
    + exists (M.mk (length h)), (h ++ [mk_nd [0] []]). split.
      * apply mat_empty_run. inversion Hval. reflexivity.
      * intros i j r t Hi. inversion Hval as [Hg|]; subst.
        rewrite <- Hg in Hi. discriminate.
    + exists (M.mk (length h)), (h ++ [mk_nd [length d; c] (concat d)]).
      split; [apply (mat_rect_run expr d c h); assumption|].
      intros i j r t Hi Hj.
      destruct (Forall2_lookup_l _ _ _ _ _ Hval Hi) as (xs & Hxs & Hrow).
      destruct (Forall2_lookup_l _ _ _ _ _ Hrow Hj) as (x & Hx & Htx).
      exists x. split; [exact Htx|].
      pose proof (lookup_lt_Some _ _ _ Hxs) as Hilt.
      pose proof (lookup_lt_Some _ _ _ Hx) as Hjlt.
      rewrite Forall_forall in Hdrect.
      rewrite (Hdrect xs) in Hjlt
        by (eapply list_elem_of_lookup_2; exact Hxs).
      rewrite (call_run L _ (mk_nd [length d; c] (concat d)))
        by apply last_lookup_app.
      cbn [map M.shift].
      rewrite (getitem_int_int _ (length d) c _ _ x);
        [reflexivity|reflexivity|lia|lia|].
      rewrite (elem2_lookup _ (length d) c) by (reflexivity || lia).
      cbn [data].
      replace (Z.to_nat (Z.of_nat i + 1 - 1)) with i by lia.
      replace (Z.to_nat (Z.of_nat j + 1 - 1)) with j by lia.
      apply (concat_lookup d c i j xs); [|assumption|assumption].
      apply Forall_forall. exact Hdrect.
  - intros h. unfold mat. rewrite !mat_data_grid.
    replace (grid ("1,2" ++ String PyStr.newline "3 4"))
      with (grid "1 2; 3 4") by (vm_compute; reflexivity).
    reflexivity.
Qed.

(** C2, amended.  For every literal whose entries are numeric: when it has
    at least one row and all rows have [c] entries, [mat] returns a
    two-dimensional array of shape (number of rows, [c]), every row of
    which has [c] elements; when it has no row, [mat] returns the empty
    one-dimensional array of shape [(0,)]; when two rows differ in their
    number of entries, [mat] raises [ValueError]. *)
Theorem mat_shape (expr : string) (h : Store.store (F L)) :
  Forall (Forall (numeric L)) (grid expr) ->
  (forall c,
      grid expr <> [] -> Forall (fun r => length r = c) (grid expr) ->
      exists a,
        mat L expr h = (Ok (M.mk (length h)), h ++ [a]) /\
        shape a = [length (grid expr); c] /\
        wf a /\
        length (rows a) = length (grid expr) /\
        Forall (fun r => length r = c) (rows a)) /\
  (grid expr = [] ->
     mat L expr h = (Ok (M.mk (length h)), h ++ [mk_nd [0] []])) /\
  (forall i j r1 r2,
      grid expr !! i = Some r1 -> grid expr !! j = Some r2 ->
      length r1 <> length r2 ->
      mat L expr h = (Raise ValueError, h)).
Proof.
  intros Hnum.
  destruct (numeric_values (grid expr) Hnum) as (d & Hval & Hd).
  split; [|split].
  - intros c Hne Hrect.
    destruct (values_rect (grid expr) d c Hval Hrect) as [Hdrect Hlen].
    assert (Hdne : d <> []).
    { intros ->. inversion Hval; subst. congruence. }
    exists (mk_nd [length d; c] (concat d)).
    assert (Hwf : wf (mk_nd [length d; c] (concat d))).
    { unfold wf. cbn [data shape size_of fold_right].
      rewrite (length_concat_rect d c Hdrect). lia. }
    split; [apply (mat_rect_run expr d c h); assumption|].
    split; [rewrite Hlen; reflexivity|].
    split; [exact Hwf|].
    unfold rows. cbn [shape]. split.
    + rewrite length_map, length_seq. exact Hlen.
    + apply Forall_forall. intros r Hr.
      apply list_elem_of_In, in_map_iff in Hr as (i & <- & Hi).
      apply in_seq in Hi.
      apply (length_row _ (length d) c); [reflexivity|exact Hwf|lia].
  - apply mat_empty_run.
  - intros i j r1 r2 H1 H2 Hne.
    destruct (Forall2_lookup_l _ _ _ _ _ Hval H1) as (x1 & Hx1 & Hr1).
    destruct (Forall2_lookup_l _ _ _ _ _ Hval H2) as (x2 & Hx2 & Hr2).
    rewrite (mat_run expr d h Hd).
    rewrite (array_of_ragged_rows d i j x1 x2 Hx1 Hx2); [reflexivity|].
    apply Forall2_length in Hr1, Hr2. congruence.
Qed.

End ArrayOfRows.

Lemma numeric_example_grid :
  Forall (Forall (numeric ExampleLib.lib)) (LiteralSpec.grid "1 2; 3 4").
Proof.
  replace (LiteralSpec.grid "1 2; 3 4") with [["1"; "2"]; ["3"; "4"]]%string
    by (vm_compute; reflexivity).
  repeat (constructor; try (eexists; reflexivity)).
Qed.

(** [mat_entries] on [mat("1 2; 3 4")]. *)
Lemma mat_entries_witness :
  exists m h',
    mat ExampleLib.lib "1 2; 3 4" [] = (Ok m, h') /\
    forall i j r t,
      LiteralSpec.grid "1 2; 3 4" !! i = Some r -> r !! j = Some t ->
      exists x,
        float_of_str ExampleLib.lib t = Some x /\
        M.__call__ ExampleLib.lib m
          [Np.IxInt (Z.of_nat i + 1); Np.IxInt (Z.of_nat j + 1)] h'
        = (Ok (Np.IScalar x), h').
Proof.
  apply (proj1 (mat_entries ExampleLib.lib) "1 2; 3 4"%string 2 []).
  - exact numeric_example_grid.
  - replace (LiteralSpec.grid "1 2; 3 4")
      with [["1"; "2"]; ["3"; "4"]]%string by (vm_compute; reflexivity).
    repeat constructor.
Defined.

(** Against C1 as stated: the rows of the literal ["1; 2 3"] are separated
    by a semicolon and its entries by a space, all numeric, and [mat]
    returns no matrix for it. *)
Lemma mat_ragged_literal_raises :
  Forall (Forall (numeric ExampleLib.lib)) (LiteralSpec.grid "1; 2 3") /\
  mat ExampleLib.lib "1; 2 3" [] = (Raise ValueError, []).
Proof.
  split; [|vm_compute; reflexivity].
  replace (LiteralSpec.grid "1; 2 3") with [["1"]; ["2"; "3"]]%string
    by (vm_compute; reflexivity).
  repeat (constructor; try (eexists; reflexivity)).
Qed.

(** [mat_shape] on [mat("1 2; 3 4")]. *)
Lemma mat_shape_witness :
  exists a,
    mat ExampleLib.lib "1 2; 3 4" [] = (Ok (M.mk 0), [] ++ [a]) /\
    Np.shape a = [length (LiteralSpec.grid "1 2; 3 4"); 2] /\
    Np.wf a /\
    length (Np.rows a) = length (LiteralSpec.grid "1 2; 3 4") /\
    Forall (fun r => length r = 2) (Np.rows a).
Proof.
  apply (proj1 (mat_shape ExampleLib.lib "1 2; 3 4"%string []
                  numeric_example_grid)).
  - replace (LiteralSpec.grid "1 2; 3 4")
      with [["1"; "2"]; ["3"; "4"]]%string by (vm_compute; reflexivity).
    discriminate.
  - replace (LiteralSpec.grid "1 2; 3 4")
      with [["1"; "2"]; ["3"; "4"]]%string by (vm_compute; reflexivity).
    repeat constructor.
Defined.

(** Against C2 as stated: ["1 2; 3"] is a delimited string of numbers for
    which [mat] raises, and for the empty string the result has one
    dimension, not two. *)
Lemma mat_not_always_a_grid :
  Forall (Forall (numeric ExampleLib.lib)) (LiteralSpec.grid "1 2; 3") /\
  mat ExampleLib.lib "1 2; 3" [] = (Raise ValueError, []) /\
  mat ExampleLib.lib EmptyString [] = (Ok (M.mk 0), [Np.mk_nd [0] []]).
Proof.
  split; [|split; vm_compute; reflexivity].
  replace (LiteralSpec.grid "1 2; 3") with [["1"; "2"]; ["3"]]%string
    by (vm_compute; reflexivity).
  repeat (constructor; try (eexists; reflexivity)).
Qed.

(** ** Delegation to the library *)

Section Delegation.
Variable L : NumLib.
Import Np.

(** C5, amended.  Every operator of [M] is one call of the library
    routine on the unwrapped arrays, its result wrapped by [M(...)]:
    [A + B] and [A - B] are NumPy's elementwise sum and difference,
    [A * B] the matrix product, [A / B] the matrix product of [A] with the
    library's inverse of [B], [A ** p] the library's matrix power, [inv]
    and [pinv] the library's inverse and pseudo-inverse, [det] and [rank]
    the library's determinant and rank, returned as they are.  [eig]
    returns the library's eigenvalues and eigenvectors each passed through
    [M(...)], which stores a float64 array: they are the library's arrays
    whenever those are real. *)
Theorem operators_call_through (self : M.t) (other : M.operand L)
    (a b : ndarray (F L)) (h : Store.store (F L)) :
  h !! M.A self = Some a -> operand_array L h other = Some b ->
  M.__add__ L self other h = wrapped L h (NpF.add L a b) /\
  M.__sub__ L self other h = wrapped L h (NpF.subtract L a b) /\
  M.__mul__ L self other h = wrapped L h (NpF.matmul L a b) /\
  M.__truediv__ L self other h
  = wrapped L h (linalg_inv L b ≫= NpF.matmul L a) /\
  (forall p, M.__pow__ L self p h = wrapped L h (linalg_matrix_power L a p)) /\
  M.inv L self h = wrapped L h (linalg_inv L a) /\
  M.pinv L self h = wrapped L h (linalg_pinv L a) /\
  M.det L self h = (linalg_det L a, h) /\
  M.rank L self h = (linalg_matrix_rank L a, h) /\
  M.eig L self h
  = match linalg_eig L a with
    | Ok (w, v) =>
        (Ok (M.mk (length h), M.mk (S (length h))),
         h ++ [stored L w; stored L v])
    | Raise e => (Raise e, h)
    end /\
  (forall w v,
      linalg_eig L a = Ok (AFloat w, AFloat v) ->
      M.eig L self h
      = (Ok (M.mk (length h), M.mk (S (length h))), h ++ [w; v])).
Proof.
  intros Hself Hother.
  repeat match goal with |- _ /\ _ => split end;
    eauto using add_run, sub_run, mul_run, truediv_run, pow_run, inv_run,
      pinv_run, det_run, rank_run, eig_run.
  intros w v Heig. rewrite (eig_run L self a h Hself), Heig. reflexivity.
Qed.


End Delegation.

(** [operators_call_through] on [A + B], which succeeds, and on [A.inv()]
    with a library that rejects [A]. *)
Lemma operators_call_through_witness :
  M.__add__ ExampleLib.lib (M.mk 0) (M.OpM ExampleLib.lib (M.mk 1))
    ExampleLib.store2
  = (Ok (M.mk 2), ExampleLib.store2 ++ [Np.mk_nd [2; 2] [6; 8; 10; 12]%Z]) /\
  M.inv ExampleLib.lib (M.mk 0) ExampleLib.store2
  = (Raise LinAlgError, ExampleLib.store2).
Proof.
  destruct (operators_call_through ExampleLib.lib (M.mk 0)
              (M.OpM ExampleLib.lib (M.mk 1)) ExampleLib.a22 ExampleLib.b22
              ExampleLib.store2)
    as (Hadd & _ & _ & _ & _ & Hinv & _); [reflexivity | reflexivity |].
  split; [exact Hadd | exact Hinv].
Defined.

(** Against C5 as stated: for the matrix [[1, -1], [1, 1]] the library's
    eigenvalues are [1 + 1j] and [1 - 1j]; the first [M] that [eig]
    returns holds [1, 1], the imaginary parts are gone. *)
Lemma eig_drops_imaginary_parts :
  fst <$> linalg_eig ExampleLib.lib ExampleLib.rot
  = Ok (AComplex (Np.mk_nd [2] [(1, 1); (1, -1)]%Z)) /\
  M.eig ExampleLib.lib (M.mk 0) [ExampleLib.rot]
  = (Ok (M.mk 1, M.mk 2),
     [ExampleLib.rot; Np.mk_nd [2] [1; 1]%Z;
      Np.mk_nd [2; 2] [1; 1; 0; 0]%Z]).
Proof. split; vm_compute; reflexivity. Qed.



(** ** Float storage *)

Section FloatStorage.
Variable L : NumLib.
Import Np.

Lemma to_float_ints (zs : list Z) (xs : list (F L)) :
  Forall2 (fun z x => float_of_int L z = Some x) zs xs ->
  mapR (NpF.to_float L) (map PyInt zs) = Ok xs.
Proof.
  induction 1 as [|z x zs xs Hz _ IH]; [reflexivity|].
  simpl. rewrite Hz, IH. reflexivity.
Qed.

Lemma obj_shape_ints (zs : list Z) :
  NpF.obj_shape L (PyList (map PyInt zs)) = Some [length zs].
Proof.
  destruct zs as [|z zs]; [reflexivity|].
  cbn [NpF.obj_shape map]. rewrite map_map. cbn [NpF.obj_shape].
  replace (forallb _ _) with true;
    [cbn [length]; rewrite length_map; reflexivity|].
  symmetry. apply forallb_forall. intros s Hs.
  apply in_map_iff in Hs as (y & <- & _). apply bool_decide_eq_true.
  reflexivity.
Qed.

Lemma leaves_ints (zs : list Z) :
  NpF.leaves L (PyList (map PyInt zs)) = map PyInt zs.
Proof.
  cbn [NpF.leaves]. induction zs as [|z zs IH]; [reflexivity|].
  simpl. rewrite IH. reflexivity.
Qed.

Lemma H_is_T (self : M.t) (h : Store.store (F L)) :
  M.H L self h = M.T L self h.
Proof.
  unfold M.H, M.T, NpF.conj. py_unfold.
  destruct (h !! M.A self) as [a|]; [|reflexivity].
  rewrite copy_id. reflexivity.
Qed.

(** C10, amended.  An [M] built from a list of Python integers stores
    their float values, and [mat("1 2")(1, 1)] is the float that [float()]
    gives ["1"]; building an [M] from a (nested) list that contains a
    Python complex number raises and leaves the store alone; building it
    from an array of complex dtype succeeds and keeps the real parts; in
    no case is a complex value stored, and the property [H] is the same
    computation as [T]. *)
Theorem entries_are_floats :
  (forall zs xs (h : Store.store (F L)),
      Forall2 (fun z x => float_of_int L z = Some x) zs xs ->
      M.__init__ L (M.DataNp L (InObj (PyList (map PyInt zs)))) h
      = (Ok (M.mk (length h)), h ++ [mk_nd [length zs] xs])) /\
  (forall x y (h : Store.store (F L)),
      float_of_str L "1" = Some x -> float_of_str L "2" = Some y ->
      exists m h',
        mat L "1 2" h = (Ok m, h') /\
        M.__call__ L m [IxInt 1; IxInt 1] h' = (Ok (IScalar x), h')) /\
  (forall o re im (h : Store.store (F L)),
      In (PyComplex re im) (NpF.leaves L o) ->
      raises (fst (M.__init__ L (M.DataNp L (InObj o)) h)) /\
      snd (M.__init__ L (M.DataNp L (InObj o)) h) = h) /\
  (forall a (h : Store.store (F L)),
      M.__init__ L (M.DataNp L (InArray (AComplex a))) h
      = (Ok (M.mk (length h)),
         h ++ [mk_nd (shape a) (map fst (data a))])) /\
  (forall self (h : Store.store (F L)), M.H L self h = M.T L self h).
Proof.
  split; [|split; [|split; [|split]]].
  - intros zs xs h Hzs. unfold M.__init__. py_unfold.
    unfold NpF.array_float.
    rewrite obj_shape_ints, leaves_ints, (to_float_ints zs xs Hzs).
    reflexivity.
  - intros x y h Hx Hy.
    exists (M.mk (length h)), (h ++ [mk_nd [1; 2] [x; y]]). split.
    + rewrite (mat_rect_run L "1 2" [[x; y]] 2 h); try reflexivity.
      * replace (LiteralSpec.grid "1 2") with [["1"; "2"]]%string
          by (vm_compute; reflexivity).
        simpl. unfold pyfloat. rewrite Hx, Hy. reflexivity.
      * discriminate.
      * repeat constructor.
    + rewrite (call_run L _ (mk_nd [1; 2] [x; y]))
        by apply last_lookup_app.
      reflexivity.
  - intros o re im h Hin. unfold M.__init__. py_unfold.
    unfold NpF.array_float.
    destruct (NpF.obj_shape L o) as [s|].
    + destruct (mapR_raises_at (NpF.to_float L) _ _ Hin) as [e He].
      { exists TypeError. reflexivity. }
      rewrite He. split; [exists e|]; reflexivity.
    + split; [exists ValueError|]; reflexivity.
  - intros a h. apply (init_any L (AComplex a)).
  - apply H_is_T.
Qed.

End FloatStorage.

(** [entries_are_floats] on [M([1, 2])] and on [M([1.0, 1+2j])]. *)
Lemma entries_are_floats_witness :
  M.__init__ ExampleLib.lib
    (M.DataNp ExampleLib.lib (InObj (PyList (map PyInt [1; 2]%Z)))) []
  = (Ok (M.mk 0), [] ++ [Np.mk_nd [2] [1; 2]%Z]) /\
  (raises (fst (M.__init__ ExampleLib.lib
                  (M.DataNp ExampleLib.lib
                     (InObj (PyList [PyFloat 1%Z; PyComplex 1%Z 2%Z]))) [])) /\
   snd (M.__init__ ExampleLib.lib
          (M.DataNp ExampleLib.lib
             (InObj (PyList [PyFloat 1%Z; PyComplex 1%Z 2%Z]))) []) = []).
Proof.
  destruct (entries_are_floats ExampleLib.lib) as (Hint & _ & Hcomplex & _).
  split.
  - apply (Hint [1; 2]%Z [1; 2]%Z []). repeat constructor.
  - apply (Hcomplex _ 1%Z 2%Z []). right. left. reflexivity.
Defined.

(** Against C10 as stated: building an [M] from an array of complex dtype
    does not fail; it stores the real part of [1 + 2j]. *)
Lemma complex_array_is_accepted :
  M.__init__ ExampleLib.lib
    (M.DataNp ExampleLib.lib
       (InArray (AComplex (Np.mk_nd [1] [(1, 2)%Z])))) []
  = (Ok (M.mk 0), [Np.mk_nd [1] [1%Z]]).
Proof. vm_compute. reflexivity. Qed.

(** * Further properties *)

(** ** Call-style indexing at and beyond the edges *)

Section IndexEdges.
Context {T : Type}.
Import Np.

Lemma norm_int_wraps (n : nat) (k : Z) :
  (- Z.of_nat n <= k < Z.of_nat n)%Z ->
  norm_int n k = Ok (Z.to_nat (k mod Z.of_nat n)).
Proof.
  intros Hk. unfold norm_int.
  destruct (Z.leb_spec 0 k); simpl.
  - destruct (Z.ltb_spec k (Z.of_nat n)); [|lia].
    rewrite Z.mod_small by lia. reflexivity.
  - destruct (Z.leb_spec (- Z.of_nat n) k); [|lia].
    destruct (Z.ltb_spec k 0); [|lia]. simpl.
    replace (k mod Z.of_nat n)%Z with (k + Z.of_nat n)%Z; [reflexivity|].
    apply Z.mod_unique with (q := (-1)%Z); lia.
Qed.

Lemma norm_int_outside (n : nat) (k : Z) :
  ~ (- Z.of_nat n <= k < Z.of_nat n)%Z -> norm_int n k = Raise IndexError.
Proof.
  intros Hk. unfold norm_int.
  destruct (Z.leb_spec 0 k), (Z.ltb_spec k (Z.of_nat n)),
    (Z.leb_spec (- Z.of_nat n) k), (Z.ltb_spec k 0);
    simpl; try reflexivity; lia.
Qed.

Lemma norm_int_bound (n : nat) (k : Z) (p : nat) :
  norm_int n k = Ok p -> p < n.
Proof.
  unfold norm_int.
  destruct (Z.leb_spec 0 k), (Z.ltb_spec k (Z.of_nat n)),
    (Z.leb_spec (- Z.of_nat n) k), (Z.ltb_spec k 0);
    simpl; intros Hp; inversion Hp; lia.
Qed.

(** Two integers that NumPy accepts select one element. *)
Lemma getitem_two_ints (a : ndarray T) (r c : nat) (i j : Z) (p q : nat)
    (x : T) :
  shape a = [r; c] ->
  norm_int r i = Ok p -> norm_int c j = Ok q ->
  elem2 a p q = Some x ->
  getitem a (KTuple [IxInt i; IxInt j]) = Ok (IScalar x).
Proof.
  intros Hs Hi Hj Hx.
  pose proof (norm_int_bound r i p Hi) as Hp.
  pose proof (norm_int_bound c j q Hj) as Hq.
  rewrite (elem2_lookup a r c) in Hx by assumption.
  unfold getitem. rewrite Hs, resolve_converted
    by (apply convert_two_ints; eapply index_conversion_ok; eassumption).
  simpl. rewrite Hi, Hj. simpl.
  replace (p * (c * 1) + (q * 1 + 0)) with (p * c + q) by lia.
  rewrite Hx. reflexivity.
Qed.

(** Two integers that convert resolve to an [IndexError] when one of
    them is outside its axis. *)
Lemma resolve_two_ints_outside (r c : nat) (i j : Z) :
  index_conversion r i = None -> index_conversion c j = None ->
  norm_int r i = Raise IndexError \/ norm_int c j = Raise IndexError ->
  resolve [r; c] [IxInt i; IxInt j] = Raise IndexError.
Proof.
  intros Hci Hcj Hout.
  rewrite resolve_converted by (apply convert_two_ints; assumption).
  simpl. destruct Hout as [Hi|Hj].
  - rewrite Hi. reflexivity.
  - rewrite Hj. destruct (norm_int r i) as [p|e] eqn:Hi; [reflexivity|].
    unfold norm_int in Hi.
    destruct ((0 <=? i)%Z && (i <? Z.of_nat r)%Z); [discriminate|].
    destruct ((- Z.of_nat r <=? i)%Z && (i <? 0)%Z); [discriminate|].
    inversion Hi. reflexivity.
Qed.

(** An integer that does not convert fails the whole index, whatever the
    other one is, as long as the ones before it convert. *)
Lemma resolve_two_ints_unconverted (r c : nat) (i j : Z) (e : exn) :
  index_conversion r i = Some e \/
  (index_conversion r i = None /\ index_conversion c j = Some e) ->
  resolve [r; c] [IxInt i; IxInt j] = Raise e.
Proof.
  intros [Hi|[Hi Hj]]; unfold resolve; simpl.
  - rewrite Hi. reflexivity.
  - rewrite Hi, Hj. reflexivity.
Qed.

Lemma fits_intp_spec (k : Z) :
  (intp_min <= k <= intp_max)%Z -> fits_intp k = true.
Proof.
  intros Hk. unfold fits_intp.
  destruct (Z.leb_spec intp_min k), (Z.leb_spec k intp_max);
    try reflexivity; lia.
Qed.

Lemma index_conversion_window (n : nat) (k : Z) :
  (intp_max < k <= uintp_max)%Z -> (Z.of_nat n <= intp_max)%Z ->
  index_conversion n k = Some OverflowError.
Proof.
  intros Hk Hn. unfold index_conversion, norm_int, fits_intp.
  unfold intp_max, intp_min, uintp_max in *.
  destruct (Z.leb_spec 0 k), (Z.ltb_spec k (Z.of_nat n)),
    (Z.leb_spec (- Z.of_nat n) k), (Z.ltb_spec k 0);
    simpl; try lia;
    destruct (Z.leb_spec (-9223372036854775808) k),
      (Z.leb_spec k 9223372036854775807),
      (Z.ltb_spec 9223372036854775807 k),
      (Z.leb_spec k 18446744073709551615);
    simpl; try reflexivity; lia.
Qed.

Lemma getitem_two_ints_outside (a : ndarray T) (r c : nat) (i j : Z) :
  shape a = [r; c] ->
  index_conversion r i = None -> index_conversion c j = None ->
  norm_int r i = Raise IndexError \/ norm_int c j = Raise IndexError ->
  getitem a (KTuple [IxInt i; IxInt j]) = Raise IndexError.
Proof.
  intros Hs Hci Hcj Hout. unfold getitem. rewrite Hs. cbn [key_indices].
  rewrite (resolve_two_ints_outside r c i j Hci Hcj Hout). reflexivity.
Qed.

Lemma slice_all (n : nat) : slice_range n None None None = Ok (seq 0 n).
Proof.
  unfold slice_range. simpl.
  destruct (Z.ltb_spec 0 (Z.of_nat n)) as [Hn|Hn].
  - f_equal. rewrite Z.div_1_r.
    replace (Z.to_nat (Z.of_nat n - 0 - 1 + 1)) with n by lia.
    rewrite <- (map_id (seq 0 n)) at 2. apply map_ext. intros k. lia.
  - assert (n = 0) as -> by lia. reflexivity.
Qed.

Lemma offsets_last_axis (c : nat) :
  offsets [c] [seq 0 c] = seq 0 c.
Proof.
  simpl. rewrite flat_map_concat_map.
  rewrite <- (map_id (seq 0 c)) at 2.
  induction (seq 0 c) as [|k l IH]; [reflexivity|].
  simpl. rewrite IH. f_equal. lia.
Qed.

(** One integer on a matrix selects a row. *)
Lemma getitem_row (a : ndarray T) (r c : nat) (i : Z) (p : nat) :
  shape a = [r; c] -> wf a -> norm_int r i = Ok p ->
  getitem a (KTuple [IxInt i]) = Ok (IArray (mk_nd [c] (row a p))) /\
  getitem a (KTuple [IxInt i; IxSlice None None None])
  = Ok (IArray (mk_nd [c] (row a p))).
Proof.
  intros Hs Hw Hi.
  pose proof (norm_int_bound r i p Hi) as Hp.
  assert (Hvals : omap (fun o => data a !! o)
                    (flat_map (fun i0 => map (fun o => i0 * size_of [c] + o)
                                           (offsets [c] [seq 0 c])) [p])
                  = row a p).
  { rewrite offsets_last_axis. simpl. rewrite app_nil_r, Nat.mul_1_r.
    rewrite omap_map. apply (row_lookups a r c p); assumption. }
  split.
  - unfold getitem. rewrite Hs, resolve_converted
      by (simpl; rewrite (index_conversion_ok r i p Hi); reflexivity).
    cbn [key_indices length Nat.ltb Nat.leb select axis_select].
    rewrite Hi. cbn [select map fst kept_shape flat_map snd app offsets].
    f_equal. f_equal. f_equal; [f_equal; apply length_seq | exact Hvals].
  - unfold getitem. rewrite Hs, resolve_converted
      by (simpl; rewrite (index_conversion_ok r i p Hi); reflexivity).
    cbn [key_indices length Nat.ltb Nat.leb select axis_select].
    rewrite Hi, slice_all.
    cbn [select map fst kept_shape flat_map snd app offsets].
    f_equal. f_equal. f_equal; [f_equal; apply length_seq | exact Hvals].
Qed.

Lemma col_lookups (a : ndarray T) (r c q : nat) :
  shape a = [r; c] -> q < c ->
  omap (fun o => data a !! o) (map (fun i => i * c + q) (seq 0 r))
  = col a q.
Proof.
  intros Hs Hq. unfold col. rewrite Hs, omap_map.
  apply omap_ext_in. intros i Hi. apply in_seq in Hi.
  rewrite (elem2_lookup a r c) by (assumption || lia). reflexivity.
Qed.

(** A full slice and an integer select a column. *)
Lemma getitem_col (a : ndarray T) (r c : nat) (j : Z) (q : nat) :
  shape a = [r; c] -> norm_int c j = Ok q ->
  getitem a (KTuple [IxSlice None None None; IxInt j])
  = Ok (IArray (mk_nd [r] (col a q))).
Proof.
  intros Hs Hj.
  pose proof (norm_int_bound c j q Hj) as Hq.
  unfold getitem. rewrite Hs, resolve_converted
    by (simpl; rewrite (index_conversion_ok c j q Hj); reflexivity).
  cbn [key_indices length Nat.ltb Nat.leb select axis_select].
  rewrite slice_all, Hj.
  cbn [select map fst kept_shape flat_map snd app offsets].
  f_equal. f_equal. f_equal; [f_equal; apply length_seq|].
  rewrite <- (col_lookups a r c q) by assumption. f_equal.
  induction (seq 0 r) as [|i l IH]; [reflexivity|].
  cbn [flat_map map app]. rewrite <- IH. simpl. f_equal. lia.
Qed.
End IndexEdges.

Section CallEdges.
Variable L : NumLib.
Import Np.

(** X1.  On a matrix with [r] rows and [c] columns, [A(i, j)] with Python
    integers succeeds exactly for [1 - r <= i <= r] and [1 - c <= j <= c];
    it then returns the element at row [(i - 1) mod r] and column
    [(j - 1) mod c], so that [A(0, j)] reads the last row.  Any other pair
    raises [IndexError] when [i - 1] and [j - 1] fit a signed 64-bit
    integer.  It raises [OverflowError] when one of them is too large for
    that but fits 64 bits unsigned, and the other is not below the signed
    range nor above the unsigned one (the axes being no longer than the
    largest signed 64-bit integer, as those of every array are). *)
Theorem call_index_range (self : M.t) (a : ndarray (F L)) (r c : nat)
    (i j : Z) (h : Store.store (F L)) :
  h !! M.A self = Some a -> shape a = [r; c] -> wf a ->
  ((1 - Z.of_nat r <= i <= Z.of_nat r)%Z /\
   (1 - Z.of_nat c <= j <= Z.of_nat c)%Z ->
   exists x,
     elem2 a (Z.to_nat ((i - 1) mod Z.of_nat r))
             (Z.to_nat ((j - 1) mod Z.of_nat c)) = Some x /\
     M.__call__ L self [IxInt i; IxInt j] h = (Ok (IScalar x), h)) /\
  (~ ((1 - Z.of_nat r <= i <= Z.of_nat r)%Z /\
      (1 - Z.of_nat c <= j <= Z.of_nat c)%Z) ->
   (intp_min <= i - 1 <= intp_max)%Z -> (intp_min <= j - 1 <= intp_max)%Z ->
   M.__call__ L self [IxInt i; IxInt j] h = (Raise IndexError, h)) /\
  ((Z.of_nat r <= intp_max)%Z -> (Z.of_nat c <= intp_max)%Z ->
   (intp_min <= i - 1 <= uintp_max)%Z -> (intp_min <= j - 1 <= uintp_max)%Z ->
   (intp_max < i - 1)%Z \/ (intp_max < j - 1)%Z ->
   M.__call__ L self [IxInt i; IxInt j] h = (Raise OverflowError, h)).
Proof.
  intros Hm Hs Hw. rewrite (call_run L self a _ h Hm). cbn [map M.shift].
  repeat match goal with |- _ /\ _ => split end.
  - intros [Hi Hj].
    pose proof (norm_int_wraps r (i - 1)) as Hni.
    pose proof (norm_int_wraps c (j - 1)) as Hnj.
    specialize (Hni ltac:(lia)). specialize (Hnj ltac:(lia)).
    destruct (elem2_is_Some a r c
                (Z.to_nat ((i - 1) mod Z.of_nat r))
                (Z.to_nat ((j - 1) mod Z.of_nat c))) as [x Hx];
      try assumption;
      try (eapply norm_int_bound; eassumption).
    exists x. split; [exact Hx|].
    rewrite (getitem_two_ints a r c _ _ _ _ x Hs Hni Hnj Hx). reflexivity.
  - intros Hout Hfi Hfj.
    rewrite (getitem_two_ints_outside a r c (i - 1) (j - 1) Hs);
      [reflexivity| | |].
    + apply index_conversion_fits, fits_intp_spec. exact Hfi.
    + apply index_conversion_fits, fits_intp_spec. exact Hfj.
    + destruct (decide (- Z.of_nat r <= i - 1 < Z.of_nat r)%Z) as [Hi|Hi].
      * right. apply norm_int_outside. lia.
      * left. apply norm_int_outside. exact Hi.
  - intros Hr Hc Hi Hj Hbig. unfold getitem. rewrite Hs. cbn [key_indices].
    rewrite (resolve_two_ints_unconverted r c (i - 1) (j - 1) OverflowError);
      [reflexivity|].
    destruct (decide (intp_max < i - 1)%Z) as [Hi'|Hi'].
    + left. apply index_conversion_window; [lia|exact Hr].
    + right. split.
      * apply index_conversion_fits, fits_intp_spec. lia.
      * apply index_conversion_window; [|exact Hc].
        destruct Hbig; [contradiction|lia].
Qed.

(** X2.  On a matrix, [A(i)] and [A(i, slice(None))] for [1 <= i <= r]
    return row [i - 1] as a one-dimensional array, and
    [A(slice(None), j)] for [1 <= j <= c] returns column [j - 1]. *)
Theorem call_row_and_column (self : M.t) (a : ndarray (F L)) (r c : nat)
    (h : Store.store (F L)) :
  h !! M.A self = Some a -> shape a = [r; c] -> wf a ->
  (forall i, (1 <= i <= Z.of_nat r)%Z ->
     M.__call__ L self [IxInt i] h
     = (Ok (IArray (mk_nd [c] (row a (Z.to_nat (i - 1))))), h) /\
     M.__call__ L self [IxInt i; IxSlice None None None] h
     = (Ok (IArray (mk_nd [c] (row a (Z.to_nat (i - 1))))), h)) /\
  (forall j, (1 <= j <= Z.of_nat c)%Z ->
     M.__call__ L self [IxSlice None None None; IxInt j] h
     = (Ok (IArray (mk_nd [r] (col a (Z.to_nat (j - 1))))), h)).
Proof.
  intros Hm Hs Hw. split.
  - intros i Hi. rewrite !(call_run L self a _ h Hm). cbn [map M.shift].
    destruct (getitem_row a r c (i - 1) (Z.to_nat (i - 1)) Hs Hw) as [H1 H2].
    { apply norm_int_in_range. lia. }
    rewrite H1, H2. split; reflexivity.
  - intros j Hj. rewrite (call_run L self a _ h Hm). cbn [map M.shift].
    rewrite (getitem_col a r c (j - 1) (Z.to_nat (j - 1)) Hs).
    + reflexivity.
    + apply norm_int_in_range. lia.
Qed.

End CallEdges.

(** [call_index_range] on [A = [[1, 2], [3, 4]]]: [A(0, 1)] reads the
    last row, [A(3, 1)] is out of range, and in
    [A(9223372036854775809, 1)] the row index is too large to convert. *)
Lemma call_index_range_witness :
  (exists x,
      Np.elem2 ExampleLib.a22 (Z.to_nat ((0 - 1) mod 2)) (Z.to_nat ((1 - 1) mod 2))
      = Some x /\
      M.__call__ ExampleLib.lib (M.mk 0) [Np.IxInt 0; Np.IxInt 1]
        ExampleLib.store2
      = (Ok (Np.IScalar x), ExampleLib.store2)) /\
  M.__call__ ExampleLib.lib (M.mk 0) [Np.IxInt 3; Np.IxInt 1] ExampleLib.store2
  = (Raise IndexError, ExampleLib.store2) /\
  M.__call__ ExampleLib.lib (M.mk 0)
    [Np.IxInt 9223372036854775809; Np.IxInt 1] ExampleLib.store2
  = (Raise OverflowError, ExampleLib.store2).
Proof.
  split; [|split].
  - apply (proj1 (call_index_range ExampleLib.lib (M.mk 0) ExampleLib.a22
                    2 2 0 1 ExampleLib.store2 eq_refl eq_refl eq_refl)).
    simpl. lia.
  - apply (proj1 (proj2 (call_index_range ExampleLib.lib (M.mk 0)
                           ExampleLib.a22 2 2 3 1 ExampleLib.store2
                           eq_refl eq_refl eq_refl)));
      unfold Np.intp_min, Np.intp_max; simpl; lia.
  - apply (proj2 (proj2 (call_index_range ExampleLib.lib (M.mk 0)
                           ExampleLib.a22 2 2 9223372036854775809 1
                           ExampleLib.store2 eq_refl eq_refl eq_refl)));
      unfold Np.intp_min, Np.intp_max, Np.uintp_max; simpl; lia.
Defined.

(** [call_row_and_column] on [A = [[1, 2], [3, 4]]]: [A(2)] and
    [A(slice(None), 1)]. *)
Lemma call_row_and_column_witness :
  M.__call__ ExampleLib.lib (M.mk 0) [Np.IxInt 2] ExampleLib.store2
  = (Ok (Np.IArray (Np.mk_nd [2] [3; 4]%Z)), ExampleLib.store2) /\
  M.__call__ ExampleLib.lib (M.mk 0)
    [Np.IxSlice None None None; Np.IxInt 1] ExampleLib.store2
  = (Ok (Np.IArray (Np.mk_nd [2] [1; 3]%Z)), ExampleLib.store2).
Proof.
  destruct (call_row_and_column ExampleLib.lib (M.mk 0) ExampleLib.a22 2 2
              ExampleLib.store2 eq_refl eq_refl eq_refl) as [Hrow Hcol].
  split.
  - apply (proj1 (Hrow 2%Z ltac:(simpl; lia))).
  - apply (Hcol 1%Z ltac:(simpl; lia)).
Defined.

(** ** Assignment *)

Section Assignment.
Variable L : NumLib.
Import Np.

Lemma length_fold_insert {X} (l : list (nat * X)) (d : list X) :
  length (fold_left (fun d ox => <[fst ox := snd ox]> d) l d) = length d.
Proof.
  revert d. induction l as [|ox l IH]; intros d; [reflexivity|].
  simpl. rewrite IH. apply length_insert.
Qed.

Lemma length_fold_fill {X} (x : X) (offs : list nat) (d : list X) :
  length (fold_left (fun d p => <[p := x]> d) offs d) = length d.
Proof.
  revert d. induction offs as [|o offs IH]; intros d; [reflexivity|].
  simpl. rewrite IH. apply length_insert.
Qed.

Lemma length_pack (ws : list (nat * pyobj (F L))) (d : list (F L)) :
  length (snd (NpF.pack L d ws)) = length d.
Proof.
  revert d. induction ws as [|[p o] ws IH]; intros d; [reflexivity|].
  simpl. destruct (NpF.to_float L o); [|reflexivity].
  rewrite IH. apply length_insert.
Qed.

(** Copying an array into a selection keeps the shape and the number of
    elements. *)
Lemma assign_array_shape {X} (a a' : ndarray X) sel v :
  assign_array a sel v = Ok a' ->
  shape a' = shape a /\ length (data a') = length (data a).
Proof.
  unfold assign_array. destruct (bool_decide _); [|discriminate].
  intros Ha. inversion Ha. cbn [shape data].
  split; [reflexivity|apply length_fold_insert].
Qed.

Lemma atomic_shape (a : ndarray (F L)) (r : result (ndarray (F L))) :
  (forall a', r = Ok a' ->
     shape a' = shape a /\ length (data a') = length (data a)) ->
  shape (snd (NpF.atomic L a r)) = shape a /\
  length (data (snd (NpF.atomic L a r))) = length (data a).
Proof.
  intros Hr. destruct r as [a'|e]; simpl; [apply Hr; reflexivity|].
  split; reflexivity.
Qed.

(** Whatever the key, the value and the outcome, item assignment keeps the
    shape and the number of elements. *)
Lemma assign_item_shape (a : ndarray (F L)) k v :
  shape (snd (NpF.assign_item L a k v)) = shape a /\
  length (data (snd (NpF.assign_item L a k v))) = length (data a).
Proof.
  unfold NpF.assign_item.
  destruct (resolve (shape a) (key_indices k)) as [sel|e];
    [|split; reflexivity].
  destruct v as [o|x].
  - assert (Hnum : forall o',
      let r := NpF.atomic L a
                 (x ← NpF.to_float L o';
                  Ok (mk_nd (shape a)
                        (fold_left (fun d p => <[p := x]> d)
                           (offsets (shape a) (map fst sel)) (data a)))) in
      shape (snd r) = shape a /\ length (data (snd r)) = length (data a)).
    { intros o'. apply atomic_shape. intros a' Ha'.
      destruct (NpF.to_float L o'); [|discriminate].
      inversion Ha'. cbn [shape data].
      split; [reflexivity|apply length_fold_fill]. }
    destruct o; try apply Hnum. unfold NpF.assign_object.
    destruct (NpF.full_integer sel); [split; reflexivity|].
    destruct (NpF.obj_shape L _) as [s|]; [|split; reflexivity].
    destruct (_ <? _); [split; reflexivity|].
    destruct (bool_decide _).
    + cbn [snd shape data]. split; [reflexivity|apply length_pack].
    + apply atomic_shape. intros a' Ha'.
      destruct (mapR _ _) as [xs|]; [|discriminate].
      apply (assign_array_shape a a' sel _ Ha').
  - apply atomic_shape. intros a' Ha'.
    apply (assign_array_shape a a' sel _ Ha').
Qed.

(** A float stored at two in-range integers. *)
Lemma assign_item_int_int (a : ndarray (F L)) (r c : nat) (i j : Z)
    (p q : nat) (x : F L) :
  shape a = [r; c] ->
  norm_int r i = Ok p -> norm_int c j = Ok q ->
  NpF.assign_item L a (KTuple [IxInt i; IxInt j]) (InObj (PyFloat x))
  = (Ok tt, mk_nd [r; c] (<[p * c + q := x]> (data a))).
Proof.
  intros Hs Hi Hj. unfold NpF.assign_item. rewrite Hs. cbn [key_indices].
  rewrite resolve_converted
    by (apply convert_two_ints; eapply index_conversion_ok; eassumption).
  simpl. rewrite Hi, Hj. simpl. rewrite Hs. simpl.
  replace (p * (c * 1) + (q * 1 + 0)) with (p * c + q) by lia.
  reflexivity.
Qed.

(** X3.  After [A[i, j] = x] with in-range zero-based integers and a
    float [x], the array has its old shape, its element [(i, j)] is [x]
    and every other element is what it was; [A[i, j]] and [A(i+1, j+1)]
    then both return [x]. *)
Theorem setitem_then_getitem (self : M.t) (a : ndarray (F L)) (r c : nat)
    (p q : nat) (x : F L) (h : Store.store (F L)) :
  h !! M.A self = Some a -> shape a = [r; c] -> wf a -> p < r -> q < c ->
  exists a',
    M.__setitem__ L self (KTuple [IxInt (Z.of_nat p); IxInt (Z.of_nat q)])
      (InObj (PyFloat x)) h
    = (Ok tt, <[M.A self := a']> h) /\
    shape a' = [r; c] /\ wf a' /\
    elem2 a' p q = Some x /\
    (forall p' q', (p', q') <> (p, q) -> elem2 a' p' q' = elem2 a p' q') /\
    M.__getitem__ L self (KTuple [IxInt (Z.of_nat p); IxInt (Z.of_nat q)])
      (<[M.A self := a']> h)
    = (Ok (IScalar x), <[M.A self := a']> h) /\
    M.__call__ L self [IxInt (Z.of_nat p + 1); IxInt (Z.of_nat q + 1)]
      (<[M.A self := a']> h)
    = (Ok (IScalar x), <[M.A self := a']> h).
Proof.
  intros Hm Hs Hw Hp Hq.
  set (a' := mk_nd [r; c] (<[p * c + q := x]> (data a))).
  assert (Hlen : p * c + q < length (data a)).
  { unfold wf in Hw. rewrite Hw, Hs. simpl. nia. }
  assert (Hx : elem2 a' p q = Some x).
  { rewrite (elem2_lookup a' r c) by (reflexivity || assumption).
    cbn [a' data]. apply list_lookup_insert_eq. exact Hlen. }
  assert (Hm' : <[M.A self := a']> h !! M.A self = Some a').
  { apply list_lookup_insert_eq. eapply lookup_lt_Some. exact Hm. }
  exists a'. split; [|split; [|split; [|split; [|split; [|split]]]]].
  - rewrite (setitem_run L self a _ _ h Hm).
    rewrite (assign_item_int_int a r c _ _ p q x Hs)
      by (rewrite norm_int_in_range by lia; f_equal; lia).
    reflexivity.
  - reflexivity.
  - unfold wf in *. cbn [a' data shape]. rewrite length_insert, Hw, Hs.
    reflexivity.
  - exact Hx.
  - intros p' q' Hne. unfold elem2. cbn [a' shape data]. rewrite Hs.
    destruct (Nat.ltb_spec p' r); [|reflexivity].
    destruct (Nat.ltb_spec q' c); [|reflexivity]. simpl.
    apply list_lookup_insert_ne. intros Heq.
    apply Hne. assert (p = p') by nia. subst p'.
    assert (q = q') by lia. subst q'. reflexivity.
  - rewrite (getitem_run L self a' _ _ Hm').
    rewrite (getitem_int_int a' r c _ _ x); try reflexivity; try lia.
    rewrite !Nat2Z.id. exact Hx.
  - rewrite (call_run L self a' _ _ Hm'). cbn [map M.shift].
    rewrite (getitem_int_int a' r c _ _ x); try reflexivity; try lia.
    replace (Z.to_nat (Z.of_nat p + 1 - 1)) with p by lia.
    replace (Z.to_nat (Z.of_nat q + 1 - 1)) with q by lia.
    exact Hx.
Qed.

(** X4.  Whatever the key and the value, a [__setitem__] that succeeds
    replaces the array of its object by one of the same shape and the
    same number of elements, and no other array of the store changes. *)
Theorem setitem_keeps_shape (self : M.t) k v (h h' : Store.store (F L)) :
  M.__setitem__ L self k v h = (Ok tt, h') ->
  exists a a',
    h !! M.A self = Some a /\ h' = <[M.A self := a']> h /\
    shape a' = shape a /\ length (data a') = length (data a) /\
    (wf a -> wf a') /\
    length h' = length h /\
    forall l, l <> M.A self -> h' !! l = h !! l.
Proof.
  destruct (h !! M.A self) as [a|] eqn:Hm;
    [|rewrite (setitem_dangling L self k v h Hm); discriminate].
  rewrite (setitem_run L self a k v h Hm).
  destruct (assign_item_shape a k v) as [Hshape Hlen].
  set (a' := snd (NpF.assign_item L a k v)) in *.
  intros Hrun. inversion Hrun; subst h'.
  exists a, a'. repeat split; try assumption; try reflexivity.
  - unfold wf. rewrite Hshape, Hlen. trivial.
  - apply length_insert.
  - intros l Hl. apply list_lookup_insert_ne. congruence.
Qed.

End Assignment.

(** [setitem_then_getitem] on [A = [[1, 2], [3, 4]]] with [A[1, 0] = 9]. *)
Lemma setitem_then_getitem_witness :
  exists a',
    M.__setitem__ ExampleLib.lib (M.mk 0)
      (Np.KTuple [Np.IxInt (Z.of_nat 1); Np.IxInt (Z.of_nat 0)])
      (InObj (PyFloat 9%Z)) ExampleLib.store2
    = (Ok tt, <[0 := a']> ExampleLib.store2) /\
    Np.shape a' = [2; 2] /\ Np.wf a' /\
    Np.elem2 a' 1 0 = Some 9%Z /\
    (forall p' q', (p', q') <> (1, 0) ->
                   Np.elem2 a' p' q' = Np.elem2 ExampleLib.a22 p' q') /\
    M.__getitem__ ExampleLib.lib (M.mk 0)
      (Np.KTuple [Np.IxInt (Z.of_nat 1); Np.IxInt (Z.of_nat 0)])
      (<[0 := a']> ExampleLib.store2)
    = (Ok (Np.IScalar 9%Z), <[0 := a']> ExampleLib.store2) /\
    M.__call__ ExampleLib.lib (M.mk 0)
      [Np.IxInt (Z.of_nat 1 + 1); Np.IxInt (Z.of_nat 0 + 1)]
      (<[0 := a']> ExampleLib.store2)
    = (Ok (Np.IScalar 9%Z), <[0 := a']> ExampleLib.store2).
Proof.
  apply (setitem_then_getitem ExampleLib.lib (M.mk 0) ExampleLib.a22 2 2 1 0
           9%Z ExampleLib.store2);
    [reflexivity | reflexivity | reflexivity | lia | lia].
Defined.

(** [setitem_keeps_shape] on [A[:, 1] = 0] for [A = [[1, 2], [3, 4]]]. *)
Lemma setitem_keeps_shape_witness :
  exists a a',
    ExampleLib.store2 !! 0 = Some a /\
    [Np.mk_nd [2; 2] [1; 0; 3; 0]%Z; ExampleLib.b22]
    = <[0 := a']> ExampleLib.store2 /\
    Np.shape a' = Np.shape a /\
    length (Np.data a') = length (Np.data a) /\
    (Np.wf a -> Np.wf a') /\
    length [Np.mk_nd [2; 2] [1; 0; 3; 0]%Z; ExampleLib.b22]
    = length ExampleLib.store2 /\
    forall l, l <> 0 ->
      [Np.mk_nd [2; 2] [1; 0; 3; 0]%Z; ExampleLib.b22] !! l
      = ExampleLib.store2 !! l.
Proof.
  apply (setitem_keeps_shape ExampleLib.lib (M.mk 0)
           (Np.KTuple [Np.IxSlice None None None; Np.IxInt 1])
           (InObj (PyFloat 0%Z)) ExampleLib.store2).
  vm_compute. reflexivity.
Defined.

(** ** Transposition *)

Section TransposeFacts.
Context {T : Type}.
Import Np.

Lemma flat_index_bound (s m : list nat) :
  Forall2 (fun i d => i < d) m s -> flat_index s m < size_of s.
Proof.
  intros Hm. rewrite <- length_indices.
  eapply lookup_lt_Some. apply indices_lookup. exact Hm.
Qed.

Lemma size_of_app (s1 s2 : list nat) :
  size_of (s1 ++ s2) = size_of s1 * size_of s2.
Proof.
  induction s1 as [|n s1 IH]; simpl; [lia|]. rewrite IH. lia.
Qed.

Lemma size_of_rev (s : list nat) : size_of (rev s) = size_of s.
Proof.
  induction s as [|n s IH]; [reflexivity|].
  simpl. rewrite size_of_app, IH. simpl. lia.
Qed.

Lemma get_is_Some (a : ndarray T) (m : list nat) :
  wf a -> Forall2 (fun i d => i < d) m (shape a) -> is_Some (get a m).
Proof.
  intros Hw Hm. unfold get. apply lookup_lt_is_Some.
  unfold wf in Hw. rewrite Hw. apply flat_index_bound. exact Hm.
Qed.

Lemma Forall2_rev_inv (m s : list nat) :
  Forall2 (fun i d => i < d) m (rev s) ->
  Forall2 (fun i d => i < d) (rev m) s.
Proof.
  intros Hm. rewrite <- (rev_involutive s). apply Forall2_rev. exact Hm.
Qed.

(** Reading the transpose at [m] reads the array at [m] reversed. *)
Lemma get_transpose (a : ndarray T) (m : list nat) :
  wf a -> Forall2 (fun i d => i < d) m (rev (shape a)) ->
  get (transpose a) m = get a (rev m).
Proof.
  intros Hw Hm. unfold get at 1. unfold transpose, tabulate.
  cbn [shape data].
  apply (omap_total_lookup (fun m => get a (rev m))).
  - intros y Hy. apply get_is_Some; [exact Hw|].
    apply Forall2_rev_inv, indices_bounded. exact Hy.
  - apply indices_lookup. exact Hm.
Qed.

Lemma transpose_involutive (a : ndarray T) :
  wf a -> transpose (transpose a) = a.
Proof.
  intros Hw. destruct a as [s d]. unfold transpose at 1. unfold tabulate.
  change (shape (transpose (mk_nd s d))) with (rev s).
  rewrite rev_involutive. f_equal.
  rewrite (omap_ext_in _ (fun m => d !! flat_index s m)).
  - rewrite <- (omap_map (fun o => d !! o)), flat_index_indices.
    unfold wf in Hw. cbn [shape data] in Hw. rewrite <- Hw.
    apply omap_lookup_all.
  - intros m Hm. apply indices_bounded in Hm.
    rewrite get_transpose.
    + rewrite rev_involutive. reflexivity.
    + exact Hw.
    + cbn [shape]. apply Forall2_rev. exact Hm.
Qed.

Lemma elem2_get (a : ndarray T) (r c i j : nat) :
  shape a = [r; c] -> i < r -> j < c -> elem2 a i j = get a [i; j].
Proof.
  intros Hs Hi Hj. rewrite (elem2_lookup a r c) by assumption.
  unfold get. rewrite Hs. simpl. f_equal. lia.
Qed.

Lemma elem2_outside (a : ndarray T) (r c i j : nat) :
  shape a = [r; c] -> ~ (i < r /\ j < c) -> elem2 a i j = None.
Proof.
  intros Hs Hout. unfold elem2. rewrite Hs.
  destruct (Nat.ltb_spec i r), (Nat.ltb_spec j c); simpl;
    try reflexivity; lia.
Qed.

Lemma transpose_elem2 (a : ndarray T) (r c i j : nat) :
  shape a = [r; c] -> wf a ->
  elem2 (transpose a) j i = elem2 a i j.
Proof.
  intros Hs Hw.
  assert (Hst : shape (transpose a) = [c; r]).
  { unfold transpose. cbn [tabulate shape]. rewrite Hs. reflexivity. }
  destruct (decide (i < r /\ j < c)) as [[Hi Hj]|Hout].
  - rewrite (elem2_get (transpose a) c r j i Hst Hj Hi).
    rewrite (elem2_get a r c i j Hs Hi Hj).
    rewrite get_transpose; [reflexivity|exact Hw|].
    rewrite Hs. repeat constructor; assumption.
  - rewrite (elem2_outside a r c i j Hs Hout).
    apply (elem2_outside (transpose a) c r j i Hst). lia.
Qed.
End TransposeFacts.

Section Transposition.
Variable L : NumLib.
Import Np.

Lemma T_run (self : M.t) (a : ndarray (F L)) (h : Store.store (F L)) :
  h !! M.A self = Some a ->
  M.T L self h = (Ok (M.mk (length h)), h ++ [transpose a]).
Proof.
  intros Hm. unfold M.T. unfold Store.bind, Store.deref. rewrite Hm.
  apply init_of_array.
Qed.

(** X5.  For a matrix [A] of shape [(r, c)], [A.T] is a new matrix of
    shape [(c, r)] whose entry [(j, i)] is the entry [(i, j)] of [A] (both
    absent when out of range); [A] itself is not touched. *)
Theorem transpose_entries (self : M.t) (a : ndarray (F L)) (r c : nat)
    (h : Store.store (F L)) :
  h !! M.A self = Some a -> shape a = [r; c] -> wf a ->
  exists t,
    M.T L self h = (Ok (M.mk (length h)), h ++ [t]) /\
    shape t = [c; r] /\
    (forall i j, elem2 t j i = elem2 a i j) /\
    (h ++ [t]) !! M.A self = Some a.
Proof.
  intros Hm Hs Hw. exists (transpose a).
  split; [apply T_run; exact Hm|]. split; [|split].
  - unfold transpose. cbn [tabulate shape]. rewrite Hs. reflexivity.
  - intros i j. apply (transpose_elem2 a r c); assumption.
  - rewrite lookup_app_l by (eapply lookup_lt_Some; exact Hm). exact Hm.
Qed.

(** X6.  Transposing twice gives back the array: for an array of any
    number of dimensions, the object [A.T.T] holds the elements and the
    shape of [A]. *)
Theorem transpose_twice (self : M.t) (a : ndarray (F L))
    (h : Store.store (F L)) :
  h !! M.A self = Some a -> wf a ->
  exists t h1 tt' h2,
    M.T L self h = (Ok t, h1) /\
    M.T L t h1 = (Ok tt', h2) /\
    h2 !! M.A tt' = Some a.
Proof.
  intros Hm Hw.
  exists (M.mk (length h)), (h ++ [transpose a]),
    (M.mk (length (h ++ [transpose a]))),
    ((h ++ [transpose a]) ++ [transpose (transpose a)]).
  split; [apply T_run; exact Hm|]. split.
  - apply T_run. apply last_lookup_app.
  - rewrite transpose_involutive by exact Hw.
    exact (last_lookup_app (h ++ [transpose a]) a).
Qed.

End Transposition.

(** [transpose_entries] on [A = [[1, 2], [3, 4]]]. *)
Lemma transpose_entries_witness :
  exists t,
    M.T ExampleLib.lib (M.mk 0) ExampleLib.store2
    = (Ok (M.mk 2), ExampleLib.store2 ++ [t]) /\
    Np.shape t = [2; 2] /\
    (forall i j, Np.elem2 t j i = Np.elem2 ExampleLib.a22 i j) /\
    (ExampleLib.store2 ++ [t]) !! 0 = Some ExampleLib.a22.
Proof.
  apply (transpose_entries ExampleLib.lib (M.mk 0) ExampleLib.a22 2 2
           ExampleLib.store2); reflexivity.
Defined.

(** [transpose_twice] on [A = [[1, 2], [3, 4]]]. *)
Lemma transpose_twice_witness :
  exists t h1 tt' h2,
    M.T ExampleLib.lib (M.mk 0) ExampleLib.store2 = (Ok t, h1) /\
    M.T ExampleLib.lib t h1 = (Ok tt', h2) /\
    h2 !! M.A tt' = Some ExampleLib.a22.
Proof.
  apply (transpose_twice ExampleLib.lib (M.mk 0) ExampleLib.a22
           ExampleLib.store2); reflexivity.
Defined.

(** ** Elementwise operators, scalars and shapes that do not fit *)

Section ElementwiseFacts.
Variable L : NumLib.
Import Np.

Lemma same_shape_entrywise (f : F L -> F L -> F L) (a b : ndarray (F L))
    (r c : nat) :
  shape a = [r; c] -> shape b = [r; c] -> wf a -> wf b ->
  exists d, NpF.elementwise L f a b = Ok d /\ entrywise f a b d r c.
Proof.
  intros Ha Hb Hwa Hwb.
  exists (mk_nd [r; c] (zip_with f (data a) (data b))). split.
  - rewrite (elementwise_same_shape L f a b) by (assumption || congruence).
    rewrite Ha. reflexivity.
  - split; [reflexivity|].
    intros i j x y Hx Hy. unfold elem2 in *. rewrite Ha in Hx.
    rewrite Hb in Hy. cbn [shape data].
    destruct ((i <? r) && (j <? c)); [|discriminate].
    rewrite lookup_zip_with, Hx, Hy. reflexivity.
Qed.

Lemma broadcast_scalar (s : list nat) : broadcast_shapes s [] = Some s.
Proof.
  unfold broadcast_shapes. cbn [rev].
  assert (H : bshape_rev (rev s) [] = Some (rev s))
    by (destruct (rev s); reflexivity).
  rewrite H, rev_involutive. reflexivity.
Qed.

Lemma omap_fmap_lookup {X Y} (g : X -> Y) (l : list X) :
  omap (fun o => g <$> l !! o) (seq 0 (length l)) = map g l.
Proof.
  rewrite <- (omap_lookup_all (map g l)), length_map.
  apply omap_ext_in. intros o _. symmetry. apply list_lookup_fmap.
Qed.

(** A float operand is applied to every element. *)
Lemma elementwise_scalar (f : F L -> F L -> F L) (a : ndarray (F L))
    (x : F L) :
  wf a ->
  NpF.elementwise L f a (mk_nd [] [x])
  = Ok (mk_nd (shape a) (map (fun y => f y x) (data a))).
Proof.
  intros Hw. unfold NpF.elementwise, tabulate. cbn [shape].
  rewrite broadcast_scalar. f_equal. f_equal.
  rewrite (omap_ext_in _
             (fun m => (fun y => f y x) <$> data a !! flat_index (shape a) m)).
  - rewrite <- (omap_map (fun o => (fun y => f y x) <$> data a !! o)).
    rewrite flat_index_indices. unfold wf in Hw. rewrite <- Hw.
    apply omap_fmap_lookup.
  - intros m Hm. apply indices_bounded in Hm.
    rewrite bsrc_bounded by exact Hm. unfold get. cbn [shape data].
    unfold bsrc. cbn [rev bsrc_rev flat_index]. simpl.
    destruct (data a !! _); reflexivity.
Qed.

Lemma elementwise_incompatible (f : F L -> F L -> F L)
    (a b : ndarray (F L)) (r c r' c' : nat) :
  shape a = [r; c] -> shape b = [r'; c'] ->
  incompatible r r' \/ incompatible c c' ->
  NpF.elementwise L f a b = Raise ValueError.
Proof.
  intros Ha Hb Hinc. unfold NpF.elementwise, broadcast_shapes.
  rewrite Ha, Hb. simpl.
  destruct (Nat.eqb_spec r r'), (Nat.eqb_spec r 1), (Nat.eqb_spec r' 1),
    (Nat.eqb_spec c c'), (Nat.eqb_spec c 1), (Nat.eqb_spec c' 1);
    try reflexivity;
    destruct Hinc as [(H1 & H2 & H3)|(H1 & H2 & H3)]; congruence.
Qed.

Lemma matmul_inner_mismatch (a b : ndarray (F L)) (m k k' n : nat) :
  shape a = [m; k] -> shape b = [k'; n] -> k <> k' ->
  NpF.matmul L a b = Raise ValueError.
Proof.
  intros Ha Hb Hk. unfold NpF.matmul. rewrite Ha, Hb.
  cbn [length Nat.sub take drop].
  destruct (Nat.eqb_spec k k'); [congruence|reflexivity].
Qed.

Lemma matmul_scalar (a : ndarray (F L)) (x : F L) :
  NpF.matmul L a (mk_nd [] [x]) = Raise ValueError.
Proof.
  unfold NpF.matmul. cbn [shape]. destruct (shape a); reflexivity.
Qed.
End ElementwiseFacts.

Section ElementwiseOperators.
Variable L : NumLib.
Import Np.

(** X7.  For two matrices of one shape [(r, c)], [A + B], [A - B],
    [A.ediv(B)] and [A.epow(B)] are new matrices of that shape whose entry
    [(i, j)] is the sum, the difference, the quotient and the power of the
    two entries [(i, j)]. *)
Theorem elementwise_operator_entries (self other : M.t)
    (a b : ndarray (F L)) (r c : nat) (h : Store.store (F L)) :
  h !! M.A self = Some a -> h !! M.A other = Some b ->
  shape a = [r; c] -> shape b = [r; c] -> wf a -> wf b ->
  (exists d, M.__add__ L self (M.OpM L other) h
             = (Ok (M.mk (length h)), h ++ [d]) /\
             entrywise (fadd L) a b d r c) /\
  (exists d, M.__sub__ L self (M.OpM L other) h
             = (Ok (M.mk (length h)), h ++ [d]) /\
             entrywise (fsub L) a b d r c) /\
  (exists d, M.ediv L self (M.OpM L other) h
             = (Ok (M.mk (length h)), h ++ [d]) /\
             entrywise (fdiv L) a b d r c) /\
  (exists d, M.epow L self (M.OpM L other) h
             = (Ok (M.mk (length h)), h ++ [d]) /\
             entrywise (fpow L) a b d r c).
Proof.
  intros Hself Hother Ha Hb Hwa Hwb.
  rewrite (add_run L self (M.OpM L other) a b h Hself Hother),
    (sub_run L self (M.OpM L other) a b h Hself Hother),
    (ediv_run L self (M.OpM L other) a b h Hself Hother),
    (epow_run L self (M.OpM L other) a b h Hself Hother).
  unfold NpF.add, NpF.subtract, NpF.divide, NpF.power.
  repeat match goal with |- _ /\ _ => split end;
    match goal with
    | |- context [NpF.elementwise L ?f a b] =>
        destruct (same_shape_entrywise L f a b r c Ha Hb Hwa Hwb)
          as (d & -> & Hd);
        exists d; split; [reflexivity|exact Hd]
    end.
Qed.

(** X8.  With a Python float [x] as right operand, [A + x], [A - x],
    [A.emul(x)], [A.ediv(x)] and [A.epow(x)] are new arrays of the shape
    of [A] in which [x] is applied to every element, whereas [A * x]
    raises [ValueError]: [*] is the matrix product, which takes no
    scalar. *)
Theorem float_operand (self : M.t) (a : ndarray (F L)) (x : F L)
    (h : Store.store (F L)) :
  h !! M.A self = Some a -> wf a ->
  let applied f :=
    (Ok (M.mk (length h)),
     h ++ [mk_nd (shape a) (map (fun y => f y x) (data a))]) in
  M.__add__ L self (M.OpFloat L x) h = applied (fadd L) /\
  M.__sub__ L self (M.OpFloat L x) h = applied (fsub L) /\
  M.emul L self (M.OpFloat L x) h = applied (fmul L) /\
  M.ediv L self (M.OpFloat L x) h = applied (fdiv L) /\
  M.epow L self (M.OpFloat L x) h = applied (fpow L) /\
  M.__mul__ L self (M.OpFloat L x) h = (Raise ValueError, h).
Proof.
  intros Hself Hw applied.
  assert (Hother : operand_array L h (M.OpFloat L x) = Some (mk_nd [] [x]))
    by reflexivity.
  rewrite (add_run L self _ a _ h Hself Hother),
    (sub_run L self _ a _ h Hself Hother),
    (emul_run L self _ a _ h Hself Hother),
    (ediv_run L self _ a _ h Hself Hother),
    (epow_run L self _ a _ h Hself Hother),
    (mul_run L self _ a _ h Hself Hother).
  unfold NpF.add, NpF.subtract, NpF.multiply, NpF.divide, NpF.power.
  rewrite !elementwise_scalar by exact Hw. rewrite matmul_scalar.
  repeat split.
Qed.

(** X9.  Shapes that do not fit raise [ValueError] and allocate nothing:
    [A * B] when the number of columns of [A] differs from the number of
    rows of [B], and the elementwise operators when the two row counts,
    or the two column counts, differ and neither is one. *)
Theorem nonconformable_raises (self other : M.t) (a b : ndarray (F L))
    (r c r' c' : nat) (h : Store.store (F L)) :
  h !! M.A self = Some a -> h !! M.A other = Some b ->
  shape a = [r; c] -> shape b = [r'; c'] ->
  (c <> r' -> M.__mul__ L self (M.OpM L other) h = (Raise ValueError, h)) /\
  (incompatible r r' \/ incompatible c c' ->
   M.__add__ L self (M.OpM L other) h = (Raise ValueError, h) /\
   M.__sub__ L self (M.OpM L other) h = (Raise ValueError, h) /\
   M.emul L self (M.OpM L other) h = (Raise ValueError, h) /\
   M.ediv L self (M.OpM L other) h = (Raise ValueError, h) /\
   M.epow L self (M.OpM L other) h = (Raise ValueError, h)).
Proof.
  intros Hself Hother Ha Hb.
  rewrite (add_run L self (M.OpM L other) a b h Hself Hother),
    (sub_run L self (M.OpM L other) a b h Hself Hother),
    (emul_run L self (M.OpM L other) a b h Hself Hother),
    (ediv_run L self (M.OpM L other) a b h Hself Hother),
    (epow_run L self (M.OpM L other) a b h Hself Hother),
    (mul_run L self (M.OpM L other) a b h Hself Hother).
  split.
  - intros Hk. rewrite (matmul_inner_mismatch L a b r c r' c' Ha Hb Hk).
    reflexivity.
  - intros Hinc.
    unfold NpF.add, NpF.subtract, NpF.multiply, NpF.divide, NpF.power.
    rewrite !(elementwise_incompatible L _ a b r c r' c' Ha Hb Hinc).
    repeat split.
Qed.

End ElementwiseOperators.

(** [elementwise_operator_entries] on [A = [[1, 2], [3, 4]]] and
    [B = [[5, 6], [7, 8]]]. *)
Lemma elementwise_operator_entries_witness :
  exists d,
    M.__add__ ExampleLib.lib (M.mk 0) (M.OpM ExampleLib.lib (M.mk 1))
      ExampleLib.store2
    = (Ok (M.mk 2), ExampleLib.store2 ++ [d]) /\
    entrywise Z.add ExampleLib.a22 ExampleLib.b22 d 2 2.
Proof.
  apply (proj1 (elementwise_operator_entries ExampleLib.lib (M.mk 0) (M.mk 1)
                  ExampleLib.a22 ExampleLib.b22 2 2 ExampleLib.store2
                  eq_refl eq_refl eq_refl eq_refl eq_refl eq_refl)).
Defined.

(** [float_operand] on [A + 10.0] and [A * 10.0] for
    [A = [[1, 2], [3, 4]]]. *)
Lemma float_operand_witness :
  M.__add__ ExampleLib.lib (M.mk 0) (M.OpFloat ExampleLib.lib 10%Z)
    ExampleLib.store2
  = (Ok (M.mk 2),
     ExampleLib.store2 ++ [Np.mk_nd [2; 2] [11; 12; 13; 14]%Z]) /\
  M.__mul__ ExampleLib.lib (M.mk 0) (M.OpFloat ExampleLib.lib 10%Z)
    ExampleLib.store2
  = (Raise ValueError, ExampleLib.store2).
Proof.
  destruct (float_operand ExampleLib.lib (M.mk 0) ExampleLib.a22 10%Z
              ExampleLib.store2 eq_refl eq_refl)
    as (Hadd & _ & _ & _ & _ & Hmul).
  split; [exact Hadd | exact Hmul].
Defined.

(** [nonconformable_raises] on [A = [[1, 2], [3, 4]]] and the
    [3 x 3] matrix of zeros. *)
Lemma nonconformable_raises_witness :
  M.__mul__ ExampleLib.lib (M.mk 0) (M.OpM ExampleLib.lib (M.mk 1))
    [ExampleLib.a22; Np.mk_nd [3; 3] (replicate 9 0%Z)]
  = (Raise ValueError, [ExampleLib.a22; Np.mk_nd [3; 3] (replicate 9 0%Z)]) /\
  M.__add__ ExampleLib.lib (M.mk 0) (M.OpM ExampleLib.lib (M.mk 1))
    [ExampleLib.a22; Np.mk_nd [3; 3] (replicate 9 0%Z)]
  = (Raise ValueError, [ExampleLib.a22; Np.mk_nd [3; 3] (replicate 9 0%Z)]).
Proof.
  destruct (nonconformable_raises ExampleLib.lib (M.mk 0) (M.mk 1)
              ExampleLib.a22 (Np.mk_nd [3; 3] (replicate 9 0%Z)) 2 2 3 3
              [ExampleLib.a22; Np.mk_nd [3; 3] (replicate 9 0%Z)]
              eq_refl eq_refl eq_refl eq_refl) as [Hmul Hadd].
  split.
  - apply Hmul. lia.
  - apply Hadd. left. unfold incompatible. lia.
Defined.

(** ** What the methods do to the arrays already there *)

Section Frames.
Context {E : Type}.

Lemma reads_only_allocates {R} (c : Store.py E R) :
  reads_only c -> only_allocates c.
Proof. intros H h. exists []. rewrite H, app_nil_r. reflexivity. Qed.

Lemma ret_reads {R} (r : R) : reads_only (E:=E) (Store.ret r).
Proof. intros h. reflexivity. Qed.

Lemma lift_reads {R} (r : result R) : reads_only (E:=E) (Store.lift r).
Proof. intros h. reflexivity. Qed.

Lemma deref_reads (l : Store.loc) : reads_only (E:=E) (Store.deref l).
Proof. intros h. unfold Store.deref. destruct (h !! l); reflexivity. Qed.

Lemma bind_reads {R S} (c : Store.py E R) (k : R -> Store.py E S) :
  reads_only c -> (forall r, reads_only (k r)) ->
  reads_only (Store.bind c k).
Proof.
  intros Hc Hk h. unfold Store.bind. specialize (Hc h).
  destruct (c h) as [[r|e] h']; simpl in Hc; subst h'; [apply Hk|reflexivity].
Qed.

Lemma mapP_reads {R S} (f : R -> Store.py E S) (l : list R) :
  (forall x, reads_only (f x)) -> reads_only (Store.mapP f l).
Proof.
  intros Hf. induction l as [|x l IH]; simpl; [apply ret_reads|].
  apply bind_reads; [apply Hf|]. intros y.
  apply bind_reads; [exact IH|]. intros ys. apply ret_reads.
Qed.

Lemma alloc_allocates (a : Np.ndarray E) : only_allocates (Store.alloc a).
Proof. intros h. exists [a]. reflexivity. Qed.

Lemma bind_allocates {R S} (c : Store.py E R) (k : R -> Store.py E S) :
  only_allocates c -> (forall r, only_allocates (k r)) ->
  only_allocates (Store.bind c k).
Proof.
  intros Hc Hk h. unfold Store.bind. destruct (Hc h) as [n1 H1].
  destruct (c h) as [[r|e] h']; simpl in H1; subst h'.
  - destruct (Hk r (h ++ n1)) as [n2 H2]. exists (n1 ++ n2).
    rewrite H2, app_assoc. reflexivity.
  - exists n1. reflexivity.
Qed.
End Frames.

Ltac frame :=
  repeat first
    [ apply bind_reads; [|intros ?]
    | apply mapP_reads; intros ?
    | apply ret_reads | apply lift_reads | apply deref_reads ].

Ltac frame_alloc :=
  repeat first
    [ apply alloc_allocates
    | apply reads_only_allocates; solve [frame]
    | apply bind_allocates; [|intros ?] ].

Section MethodFrames.
Variable L : NumLib.
Variable one : F L.

Lemma unwrap_reads (x : M.operand L) : reads_only (M._unwrap L x).
Proof. destruct x; simpl; frame. Qed.

Lemma init_allocates (d : M.mdata L) : only_allocates (M.__init__ L d).
Proof. destruct d; simpl; frame_alloc. Qed.

(** X10.  Reading never changes the store: indexing with [A(...)] or
    [A[...]], [shape], [det], [rank] and [_unwrap] leave every array as
    it was, whether they return or raise. *)
Theorem accessors_read_only (self : M.t) :
  (forall idx, reads_only (M.__call__ L self idx)) /\
  (forall k, reads_only (M.__getitem__ L self k)) /\
  reads_only (M.shape L self) /\
  reads_only (M.det L self) /\
  reads_only (M.rank L self) /\
  (forall x, reads_only (M._unwrap L x)).
Proof.
  repeat match goal with |- _ /\ _ => split end; intros;
    try apply unwrap_reads;
    unfold M.__call__, M.__getitem__, M.shape, M.det, M.rank; frame.
Qed.

(** X11.  No method but [__setitem__] writes into an array that exists:
    the constructor, the transposes, the operators, the linear-algebra
    helpers, the concatenations, [mat] and the MATLAB-style constructors
    at most append new arrays to the store, whether they return or
    raise. *)
Theorem methods_only_allocate (self : M.t) (other : M.operand L) :
  (forall d, only_allocates (M.__init__ L d)) /\
  only_allocates (M.T L self) /\
  only_allocates (M.H L self) /\
  only_allocates (M.__add__ L self other) /\
  only_allocates (M.__sub__ L self other) /\
  only_allocates (M.__mul__ L self other) /\
  only_allocates (M.__truediv__ L self other) /\
  (forall p, only_allocates (M.__pow__ L self p)) /\
  only_allocates (M.emul L self other) /\
  only_allocates (M.ediv L self other) /\
  only_allocates (M.epow L self other) /\
  only_allocates (M.inv L self) /\
  only_allocates (M.pinv L self) /\
  only_allocates (M.eig L self) /\
  (forall args, only_allocates (M.hcat L args)) /\
  (forall args, only_allocates (M.vcat L args)) /\
  (forall expr, only_allocates (mat L expr)) /\
  (forall s, only_allocates (zeros L s)) /\
  (forall s, only_allocates (ones L one s)) /\
  (forall n, only_allocates (eye L one n)) /\
  only_allocates (diag L other).
Proof.
  pose proof init_allocates as Hinit. pose proof unwrap_reads as Hun.
  repeat match goal with |- _ /\ _ => split end; intros;
    try apply Hinit;
    unfold M.T, M.H, M.__add__, M.__sub__, M.__mul__, M.__truediv__,
      M.__pow__, M.emul, M.ediv, M.epow, M.inv, M.pinv, M.eig, M.hcat,
      M.vcat, mat, zeros, ones, eye, diag;
    repeat first
      [ apply Hinit
      | apply reads_only_allocates;
        first [apply Hun | apply mapP_reads; exact Hun | solve [frame]]
      | apply bind_allocates; [|intros ?] ].
Qed.

End MethodFrames.

(** ** More on the matrix literal *)

Section LiteralRows.
Import PyStr LiteralSpec.

Lemma fields_app sep (c : ascii) (e1 e2 : string) :
  sep c = true ->
  fields sep (e1 ++ String c e2) = fields sep e1 ++ fields sep e2.
Proof.
  intros Hc. induction e1 as [|a e1 IH]; simpl.
  - rewrite Hc. reflexivity.
  - rewrite IH. destruct (sep a); [reflexivity|].
    rewrite (fields_unfold sep e1). reflexivity.
Qed.

Lemma grid_app (c : ascii) (e1 e2 : string) :
  row_sep c = true -> grid (e1 ++ String c e2) = grid e1 ++ grid e2.
Proof.
  intros Hc. unfold grid.
  rewrite (fields_app row_sep c e1 e2 Hc), List.filter_app, map_app.
  reflexivity.
Qed.

Lemma row_sep_chars (c : ascii) :
  c = semicolon \/ c = newline -> row_sep c = true.
Proof. intros [->| ->]; reflexivity. Qed.
End LiteralRows.

Section MapRFacts.
Context {X Y : Type}.

Lemma mapR_app (f : X -> result Y) (l1 l2 : list X) :
  mapR f (l1 ++ l2)
  = match mapR f l1 with
    | Ok y1 => match mapR f l2 with
               | Ok y2 => Ok (y1 ++ y2)
               | Raise e => Raise e
               end
    | Raise e => Raise e
    end.
Proof.
  induction l1 as [|x l1 IH]; simpl.
  - destruct (mapR f l2); reflexivity.
  - destruct (f x); [|reflexivity]. rewrite IH.
    destruct (mapR f l1); [|reflexivity].
    destruct (mapR f l2); reflexivity.
Qed.

Lemma mapR_raises_only (f : X -> result Y) (e0 : exn) (l : list X) :
  (forall x e, f x = Raise e -> e = e0) ->
  forall e, mapR f l = Raise e -> e = e0.
Proof.
  intros Hf. induction l as [|x l IH]; simpl; intros e He; [discriminate|].
  destruct (f x) eqn:Hx.
  - destruct (mapR f l); [discriminate|]. apply IH. exact He.
  - injection He as <-. apply (Hf x). exact Hx.
Qed.
End MapRFacts.

Section MatRows.
Variable L : NumLib.
Import Np.

Lemma pyfloat_raises_only (t : string) (e : exn) :
  pyfloat L t = Raise e -> e = ValueError.
Proof.
  unfold pyfloat. destruct (float_of_str L t); [discriminate|].
  intros [= <-]. reflexivity.
Qed.

Lemma mat_of_data (expr : string) (h : Store.store (F L)) :
  mat L expr h
  = match mat_data L (mat_pieces expr) with
    | Ok d => M.__init__ L (M.DataNp L (InObj (list_of_rows L d))) h
    | Raise e => (Raise e, h)
    end.
Proof.
  unfold mat, Store.bind, Store.lift.
  destruct (mat_data L (mat_pieces expr)); reflexivity.
Qed.

(** X12.  An entry that [float()] does not accept makes [mat] raise
    [ValueError] before any array is built: the store is as it was. *)
Theorem mat_non_numeric_raises (expr : string) (r : list string) (t : string)
    (h : Store.store (F L)) :
  In r (LiteralSpec.grid expr) -> In t r -> float_of_str L t = None ->
  mat L expr h = (Raise ValueError, h).
Proof.
  intros Hr Ht Hnone. rewrite mat_of_data, mat_data_grid.
  assert (Hrow : raises (mapR (pyfloat L) r)).
  { apply (mapR_raises_at (pyfloat L) r t Ht).
    exists ValueError. unfold pyfloat. rewrite Hnone. reflexivity. }
  destruct (mapR_raises_at (mapR (pyfloat L)) (LiteralSpec.grid expr) r Hr Hrow)
    as [e He].
  rewrite He.
  rewrite (mapR_raises_only (mapR (pyfloat L)) ValueError
             (LiteralSpec.grid expr)) with (e := e); [reflexivity| |exact He].
  intros x e' Hx.
  apply (mapR_raises_only (pyfloat L) ValueError x pyfloat_raises_only e' Hx).
Qed.

(** X13.  The rows of a literal are read one after the other: for a row
    separator [c] (a semicolon or a newline), the list [data] that [mat]
    builds from [e1 c e2] is the list built from [e1] followed by the
    list built from [e2], and an exception of either is the exception of
    the whole.  So a row separator in front of or behind a literal
    changes nothing. *)
Theorem mat_rows_compose (c : ascii) (e1 e2 : string) :
  c = PyStr.semicolon \/ c = PyStr.newline ->
  mat_data L (mat_pieces (e1 ++ String c e2))
  = match mat_data L (mat_pieces e1) with
    | Ok d1 => match mat_data L (mat_pieces e2) with
               | Ok d2 => Ok (d1 ++ d2)
               | Raise e => Raise e
               end
    | Raise e => Raise e
    end /\
  (forall h, mat L (e1 ++ String c EmptyString) h = mat L e1 h) /\
  (forall h, mat L (String c e2) h = mat L e2 h).
Proof.
  intros Hc. apply row_sep_chars in Hc.
  assert (Hcomp : forall a b,
    mat_data L (mat_pieces (a ++ String c b))
    = match mat_data L (mat_pieces a) with
      | Ok d1 => match mat_data L (mat_pieces b) with
                 | Ok d2 => Ok (d1 ++ d2)
                 | Raise e => Raise e
                 end
      | Raise e => Raise e
      end).
  { intros a b. rewrite !mat_data_grid, (grid_app c a b Hc). apply mapR_app. }
  split; [apply Hcomp|]. split; intros h; rewrite !mat_of_data.
  - rewrite Hcomp. destruct (mat_data L (mat_pieces e1)) as [d1|e]; simpl.
    + replace (mat_data L (mat_pieces EmptyString)) with
        (Ok [] : result (list (list (F L)))) by reflexivity.
      rewrite app_nil_r. reflexivity.
    + reflexivity.
  - change (String c e2) with (EmptyString ++ String c e2)%string.
    rewrite Hcomp.
    replace (mat_data L (mat_pieces EmptyString)) with
      (Ok [] : result (list (list (F L)))) by reflexivity.
    destruct (mat_data L (mat_pieces e2)); reflexivity.
Qed.

(** X14.  Writing two literals one under the other is stacking them: when
    [mat(e1)] and [mat(e2)] are matrices with the same number [n] of
    columns, [mat] of [e1 c e2], for a row separator [c], stores the array
    that [M.vcat(mat(e1), mat(e2))] stores. *)
Theorem mat_rows_vcat (c : ascii) (e1 e2 : string)
    (d1 d2 : list (list (F L))) (n : nat) (h : Store.store (F L)) :
  c = PyStr.semicolon \/ c = PyStr.newline ->
  mat_data L (mat_pieces e1) = Ok d1 -> mat_data L (mat_pieces e2) = Ok d2 ->
  d1 <> [] -> d2 <> [] ->
  Forall (fun r => length r = n) d1 -> Forall (fun r => length r = n) d2 ->
  exists a1 a2 a,
    mat L e1 h = (Ok (M.mk (length h)), h ++ [a1]) /\
    mat L e2 (h ++ [a1]) = (Ok (M.mk (S (length h))), (h ++ [a1]) ++ [a2]) /\
    M.vcat L [M.OpM L (M.mk (length h)); M.OpM L (M.mk (S (length h)))]
      ((h ++ [a1]) ++ [a2])
    = (Ok (M.mk (S (S (length h)))), ((h ++ [a1]) ++ [a2]) ++ [a]) /\
    mat L (e1 ++ String c e2) h = (Ok (M.mk (length h)), h ++ [a]).
Proof.
  intros Hc H1 H2 Hn1 Hn2 Hr1 Hr2.
  apply row_sep_chars in Hc.
  pose proof H1 as G1. pose proof H2 as G2.
  rewrite mat_data_grid in G1, G2.
  set (a1 := mk_nd [length d1; n] (concat d1)).
  set (a2 := mk_nd [length d2; n] (concat d2)).
  exists a1, a2, (mk_nd [length (d1 ++ d2); n] (concat (d1 ++ d2))).
  assert (Hm1 : matrix_cols n a1).
  { exists (length d1). split; [reflexivity|].
    unfold wf. simpl. rewrite (length_concat_rect d1 n Hr1). lia. }
  assert (Hm2 : matrix_cols n a2).
  { exists (length d2). split; [reflexivity|].
    unfold wf. simpl. rewrite (length_concat_rect d2 n Hr2). lia. }
  repeat match goal with |- _ /\ _ => split end.
  - apply (mat_rect_run L e1 d1 n h G1 Hn1 Hr1).
  - rewrite (mat_rect_run L e2 d2 n (h ++ [a1]) G2 Hn2 Hr2).
    rewrite length_app. simpl. rewrite Nat.add_1_r. reflexivity.
  - rewrite (vcat_run L _ [a1; a2]).
    + rewrite (vstack_matrices [a1; a2] n)
        by (try discriminate; repeat (constructor; try assumption)).
      unfold wrapped. rewrite !length_app, concat_app. simpl.
      rewrite !Nat.add_1_r, !app_nil_r, Nat.add_0_r. reflexivity.
    + constructor; [|constructor; [|constructor]]; cbn [operand_array M.A].
      * etransitivity; [|apply (last_lookup_app h a1)].
        apply (lookup_app_l (h ++ [a1]) [a2] (length h)).
        rewrite length_app. simpl. lia.
      * replace (S (length h)) with (length (h ++ [a1]))
          by (rewrite length_app; simpl; lia).
        apply last_lookup_app.
  - apply (mat_rect_run L (e1 ++ String c e2) (d1 ++ d2) n h).
    + rewrite (grid_app c e1 e2 Hc), mapR_app, G1, G2. reflexivity.
    + destruct d1; [congruence|discriminate].
    + apply Forall_app. split; assumption.
Qed.

End MatRows.

(** [mat_non_numeric_raises] on the literal ["1 x; 3 4"]. *)
Lemma mat_non_numeric_raises_witness :
  mat ExampleLib.lib "1 x; 3 4" [] = (Raise ValueError, []).
Proof.
  apply (mat_non_numeric_raises ExampleLib.lib "1 x; 3 4"
           ["1"; "x"]%string "x" []).
  - replace (LiteralSpec.grid "1 x; 3 4")
      with [["1"; "x"]; ["3"; "4"]]%string by (vm_compute; reflexivity).
    left. reflexivity.
  - right. left. reflexivity.
  - vm_compute. reflexivity.
Defined.

(** [mat_rows_compose] on ["1 2"] and ["3 4"], joined by a semicolon. *)
Lemma mat_rows_compose_witness :
  mat_data ExampleLib.lib (mat_pieces ("1 2" ++ String PyStr.semicolon "3 4"))
  = match mat_data ExampleLib.lib (mat_pieces "1 2") with
    | Ok d1 => match mat_data ExampleLib.lib (mat_pieces "3 4") with
               | Ok d2 => Ok (d1 ++ d2)
               | Raise e => Raise e
               end
    | Raise e => Raise e
    end.
Proof.
  apply (proj1 (mat_rows_compose ExampleLib.lib PyStr.semicolon "1 2" "3 4"
                  (or_introl eq_refl))).
Defined.

(** [mat_rows_vcat] on ["1 2"] and ["3 4"]: the literal ["1 2;3 4"] in
    the empty store. *)
Lemma mat_rows_vcat_witness :
  exists a1 a2 a,
    mat ExampleLib.lib "1 2" [] = (Ok (M.mk 0), [] ++ [a1]) /\
    mat ExampleLib.lib "3 4" ([] ++ [a1]) = (Ok (M.mk 1), ([] ++ [a1]) ++ [a2]) /\
    M.vcat ExampleLib.lib
      [M.OpM ExampleLib.lib (M.mk 0); M.OpM ExampleLib.lib (M.mk 1)]
      (([] ++ [a1]) ++ [a2])
    = (Ok (M.mk 2), (([] ++ [a1]) ++ [a2]) ++ [a]) /\
    mat ExampleLib.lib ("1 2" ++ String PyStr.semicolon "3 4") []
    = (Ok (M.mk 0), [] ++ [a]).
Proof.
  apply (mat_rows_vcat ExampleLib.lib PyStr.semicolon "1 2" "3 4"
           [[1; 2]]%Z [[3; 4]]%Z 2 []).
  - left. reflexivity.
  - vm_compute. reflexivity.
  - vm_compute. reflexivity.
  - discriminate.
  - discriminate.
  - repeat constructor.
  - repeat constructor.
Defined.

(** ** The MATLAB-style constructors *)

Section TabulateFacts.
Context {T : Type}.
Import Np.

Lemma tabulate_wf (s : list nat) (f : list nat -> option T) :
  (forall m, In m (indices s) -> is_Some (f m)) -> wf (tabulate s f).
Proof.
  intros Hf. unfold wf, tabulate. cbn [data shape].
  rewrite (length_omap_total f _ Hf). apply length_indices.
Qed.

Lemma tabulate_get (s m : list nat) (f : list nat -> option T) :
  (forall m', In m' (indices s) -> is_Some (f m')) ->
  Forall2 (fun i d => i < d) m s -> get (tabulate s f) m = f m.
Proof.
  intros Hf Hm. unfold get, tabulate. cbn [data shape].
  apply omap_total_lookup; [exact Hf|]. apply indices_lookup. exact Hm.
Qed.

Lemma tabulate_elem2 (r c i j : nat) (f : list nat -> option T) :
  (forall m, In m (indices [r; c]) -> is_Some (f m)) ->
  i < r -> j < c -> elem2 (tabulate [r; c] f) i j = f [i; j].
Proof.
  intros Hf Hi Hj.
  rewrite (elem2_get _ r c) by (reflexivity || assumption).
  apply tabulate_get; [exact Hf|]. repeat constructor; assumption.
Qed.

Lemma indices_pairs (r c : nat) (m : list nat) :
  In m (indices [r; c]) -> exists i j, m = [i; j] /\ i < r /\ j < c.
Proof.
  intros Hm. apply indices_bounded in Hm.
  inversion Hm as [|i ? t1 ? Hi Ht]; subst.
  inversion Ht as [|j ? t2 ? Hj Ht2]; subst.
  inversion Ht2; subst. exists i, j. auto.
Qed.
End TabulateFacts.

Section ConstructorFacts.
Variable L : NumLib.
Variable one : F L.
Import Np.

Lemma within_limits_true (s : list Z) :
  Forall (fun n => (n <= intp_max)%Z) s ->
  (8 * NpCtor.nonzero_product s <= intp_max)%Z ->
  NpCtor.within_limits s = true.
Proof.
  intros Hs Hb. unfold NpCtor.within_limits.
  apply andb_true_intro. split.
  - apply forallb_forall. intros n Hn.
    rewrite List.Forall_forall in Hs. apply Z.leb_le. apply Hs. exact Hn.
  - apply Z.leb_le. exact Hb.
Qed.

Lemma within_limits_false (s : list Z) :
  Exists (fun n => (intp_max < n)%Z) s \/
  (intp_max < 8 * NpCtor.nonzero_product s)%Z ->
  NpCtor.within_limits s = false.
Proof.
  intros Hs. unfold NpCtor.within_limits.
  apply Bool.andb_false_iff. destruct Hs as [Hbig|Hbytes].
  - left. apply List.Exists_exists in Hbig as (n & Hn & Hbig).
    destruct (forallb _ s) eqn:Hall; [|reflexivity].
    rewrite forallb_forall in Hall. apply Hall, Z.leb_le in Hn. lia.
  - right. apply Z.leb_gt. exact Hbytes.
Qed.



Lemma full_ok (x : F L) (s : list Z) (o : ndarray (F L)) :
  NpCtor.full L x s = Ok o ->
  o = mk_nd (map Z.to_nat s) (replicate (size_of (map Z.to_nat s)) x).
Proof.
  unfold NpCtor.full. destruct (forallb _ s); [|discriminate].
  destruct (NpCtor.within_limits s); [|discriminate].
  intros Ho. injection Ho as <-. reflexivity.
Qed.

Lemma square_product (n : Z) :
  (0 <= n)%Z ->
  (8 * NpCtor.nonzero_product [n; n] <= intp_max)%Z <->
  (8 * (n * n) <= intp_max)%Z.
Proof.
  intros Hn. unfold NpCtor.nonzero_product, intp_max. simpl.
  destruct (Z.eqb_spec n 0) as [->|Hne]; simpl; lia.
Qed.

Lemma full_negative (x : F L) (s : list Z) :
  Exists (fun n => (n < 0)%Z) s -> NpCtor.full L x s = Raise ValueError.
Proof.
  intros Hs. unfold NpCtor.full.
  destruct (forallb (fun n => (0 <=? n)%Z) s) eqn:Hall; [|reflexivity].
  rewrite forallb_forall in Hall. apply List.Exists_exists in Hs.
  destruct Hs as (n & Hn & Hneg). apply Hall, Z.leb_le in Hn. lia.
Qed.


Lemma ctor_run (r : result (ndarray (F L))) (h : Store.store (F L)) :
  (let* a := Store.lift r in M.__init__ L (M.of_array L a)) h
  = wrapped L h r.
Proof.
  unfold Store.bind, Store.lift. destruct r as [a|e]; [|reflexivity].
  apply init_of_array.
Qed.

Lemma diag_run (v : M.operand L) (a : ndarray (F L))
    (h : Store.store (F L)) :
  operand_array L h v = Some a ->
  diag L v h = wrapped L h (NpCtor.diag L a).
Proof.
  intros Hv. unfold diag. unfold Store.bind at 1.
  rewrite (unwrap_run L v a h Hv). apply ctor_run.
Qed.

Lemma eye_entry_total (k : nat) (m : list nat) :
  In m (indices [k; k]) -> is_Some (NpCtor.eye_entry L one m).
Proof.
  intros Hm. apply indices_pairs in Hm as (i & j & -> & _ & _).
  eexists. reflexivity.
Qed.


Lemma diag_vector (a : ndarray (F L)) (n : nat) :
  shape a = [n] ->
  NpCtor.diag L a = Ok (tabulate [n; n] (NpCtor.diag_entry L a)).
Proof. intros Hs. unfold NpCtor.diag. rewrite Hs. reflexivity. Qed.

Lemma diag_matrix (a : ndarray (F L)) (r c : nat) :
  shape a = [r; c] ->
  NpCtor.diag L a
  = Ok (mk_nd [Nat.min r c]
              (omap (fun i => elem2 a i i) (seq 0 (Nat.min r c)))).
Proof. intros Hs. unfold NpCtor.diag. rewrite Hs. reflexivity. Qed.

Lemma diagonal_total (a : ndarray (F L)) (r c : nat) (i : nat) :
  shape a = [r; c] -> wf a -> In i (seq 0 (Nat.min r c)) ->
  is_Some (elem2 a i i).
Proof.
  intros Hs Hw Hi. apply in_seq in Hi.
  apply (elem2_is_Some a r c); (assumption || lia).
Qed.

End ConstructorFacts.

Section ConstructorProperties.
Variable L : NumLib.
Variable one : F L.
Import Np.


(** X16.  [eye(n)] for [n >= 0] such that the [n * n] elements have no
    more bytes than the largest signed 64-bit integer stores a new
    [n x n] matrix with [1.0] on the diagonal and [0.0] elsewhere; it is
    the array that [diag] makes of the array of [ones(n)].  Beyond that
    limit [eye(n)] raises [ValueError] and allocates nothing. *)
Theorem eye_entries (n : Z) (h : Store.store (F L)) :
  (0 <= n)%Z ->
  ((8 * (n * n) <= intp_max)%Z ->
   exists a,
     eye L one n h = (Ok (M.mk (length h)), h ++ [a]) /\
     shape a = [Z.to_nat n; Z.to_nat n] /\ wf a /\
     (forall i j, i < Z.to_nat n -> j < Z.to_nat n ->
        elem2 a i j = Some (if i =? j then one else fzero L)) /\
     (forall o, NpCtor.ones L one [n] = Ok o -> NpCtor.diag L o = Ok a)) /\
  ((intp_max < 8 * (n * n))%Z -> eye L one n h = (Raise ValueError, h)).
Proof.
  intros Hn. unfold eye. rewrite ctor_run. unfold NpCtor.eye.
  destruct (Z.leb_spec 0 n) as [_|]; [|lia].
  pose proof (square_product n Hn) as Hsq. split.
  - intros Hb. rewrite within_limits_true;
      [|repeat constructor; unfold intp_max in *; nia|apply Hsq; exact Hb].
    set (k := Z.to_nat n).
    exists (tabulate [k; k] (NpCtor.eye_entry L one)).
    repeat match goal with |- _ /\ _ => split end.
    + reflexivity.
    + reflexivity.
    + apply tabulate_wf. apply eye_entry_total.
    + intros i j Hi Hj.
      rewrite tabulate_elem2 by (try assumption; apply eye_entry_total).
      reflexivity.
    + intros o Ho. apply full_ok in Ho. subst o. cbn [map]. fold k.
      rewrite (diag_vector L _ k) by reflexivity.
      f_equal. unfold tabulate. f_equal. apply omap_ext_in.
      intros m Hm. apply indices_pairs in Hm as (i & j & -> & Hi & Hj).
      simpl. destruct (i =? j); [|reflexivity].
      rewrite lookup_replicate_2 by lia. reflexivity.
  - intros Hbig. rewrite within_limits_false; [reflexivity|].
    right. lia.
Qed.


(** X18.  [diag] of an [r x c] matrix stores a new one-dimensional array
    of length [min(r, c)], its diagonal.  So [diag] of a matrix with one
    row, such as [mat("1 2 3")], is an array of one element, not a
    [3 x 3] matrix. *)
Theorem diag_of_matrix (v : M.operand L) (a : ndarray (F L)) (r c : nat)
    (h : Store.store (F L)) :
  operand_array L h v = Some a -> shape a = [r; c] -> wf a ->
  exists d,
    diag L v h = (Ok (M.mk (length h)), h ++ [d]) /\
    shape d = [Nat.min r c] /\ wf d /\
    forall i, i < Nat.min r c -> data d !! i = elem2 a i i.
Proof.
  intros Hv Hs Hw. rewrite (diag_run L v a h Hv), (diag_matrix L a r c Hs).
  eexists.
  repeat match goal with |- _ /\ _ => split end.
  - reflexivity.
  - reflexivity.
  - unfold wf. cbn [data shape size_of fold_right].
    rewrite length_omap_total
      by (intros i; apply (diagonal_total L a r c i Hs Hw)).
    rewrite length_seq. lia.
  - intros i Hi. cbn [data].
    apply (omap_total_lookup (fun k => elem2 a k k) _ i i).
    + intros k. apply (diagonal_total L a r c k Hs Hw).
    + apply lookup_seq. split; [reflexivity|exact Hi].
Qed.


(** X20.  What the constructors refuse: a negative dimension makes
    [zeros], [ones] and [eye] raise [ValueError], and so does [diag] of
    an array that has neither one nor two dimensions, a float among
    them; nothing is allocated. *)
Theorem constructor_errors (h : Store.store (F L)) :
  (forall s, Exists (fun n => (n < 0)%Z) s ->
     zeros L s h = (Raise ValueError, h) /\
     ones L one s h = (Raise ValueError, h)) /\
  (forall n, (n < 0)%Z -> eye L one n h = (Raise ValueError, h)) /\
  (forall v a, operand_array L h v = Some a ->
     ndim a <> 1 -> ndim a <> 2 -> diag L v h = (Raise ValueError, h)) /\
  (forall x, diag L (M.OpFloat L x) h = (Raise ValueError, h)).
Proof.
  repeat match goal with |- _ /\ _ => split end.
  - intros s Hs. unfold zeros, ones. rewrite !ctor_run.
    unfold NpCtor.zeros, NpCtor.ones.
    rewrite !full_negative by exact Hs. split; reflexivity.
  - intros n Hn. unfold eye. rewrite ctor_run. unfold NpCtor.eye.
    destruct (Z.leb_spec 0 n); [lia|reflexivity].
  - intros v a Hv H1 H2. rewrite (diag_run L v a h Hv).
    unfold NpCtor.diag, ndim in *.
    destruct (shape a) as [|? [|? [|? ?]]]; simpl in *;
      try reflexivity; congruence.
  - intros x. rewrite (diag_run L _ (mk_nd [] [x])) by reflexivity.
    reflexivity.
Qed.

End ConstructorProperties.


(** [eye_entries] on [eye(3)] and on [eye(9223372036854775808)]. *)
Lemma eye_entries_witness :
  (exists a,
     eye ExampleLib.lib 1%Z 3 [] = (Ok (M.mk 0), [] ++ [a]) /\
     Np.shape a = [Z.to_nat 3; Z.to_nat 3] /\ Np.wf a /\
     (forall i j, i < Z.to_nat 3 -> j < Z.to_nat 3 ->
        Np.elem2 a i j = Some (if i =? j then 1%Z else 0%Z)) /\
     (forall o, NpCtor.ones ExampleLib.lib 1%Z [3%Z] = Ok o ->
        NpCtor.diag ExampleLib.lib o = Ok a)) /\
  eye ExampleLib.lib 1%Z 9223372036854775808 [] = (Raise ValueError, []).
Proof.
  split.
  - apply (proj1 (eye_entries ExampleLib.lib 1%Z 3 [] ltac:(lia))).
    vm_compute. discriminate.
  - apply (proj2 (eye_entries ExampleLib.lib 1%Z 9223372036854775808 []
                    ltac:(lia))).
    reflexivity.
Defined.


(** [diag_of_matrix] on a matrix of one row, [[1, 2, 3]]: one element. *)
Lemma diag_of_matrix_witness :
  exists d,
    diag ExampleLib.lib (M.OpM ExampleLib.lib (M.mk 0))
      [Np.mk_nd [1; 3] [1; 2; 3]%Z]
    = (Ok (M.mk 1), [Np.mk_nd [1; 3] [1; 2; 3]%Z] ++ [d]) /\
    Np.shape d = [Nat.min 1 3] /\ Np.wf d /\
    forall i, i < Nat.min 1 3 ->
      Np.data d !! i = Np.elem2 (Np.mk_nd [1; 3] [1; 2; 3]%Z) i i.
Proof.
  apply (diag_of_matrix ExampleLib.lib (M.OpM ExampleLib.lib (M.mk 0))
           (Np.mk_nd [1; 3] [1; 2; 3]%Z) 1 3
           [Np.mk_nd [1; 3] [1; 2; 3]%Z] eq_refl eq_refl eq_refl).
Defined.


(** [constructor_errors] on [zeros(2, -1)], [eye(-1)] and [diag(5.0)]. *)
Lemma constructor_errors_witness :
  zeros ExampleLib.lib [2; -1]%Z [] = (Raise ValueError, []) /\
  eye ExampleLib.lib 1%Z (-1) [] = (Raise ValueError, []) /\
  diag ExampleLib.lib (M.OpFloat ExampleLib.lib 5%Z) [] = (Raise ValueError, []).
Proof.
  destruct (constructor_errors ExampleLib.lib 1%Z [])
    as (Hfull & Heye & _ & Hfloat).
  split; [|split].
  - apply (proj1 (Hfull [2; -1]%Z
                    (Exists_cons_tl 2%Z (Exists_cons_hd _ (-1)%Z [] eq_refl)))).
  - apply Heye. lia.
  - apply Hfloat.
Defined.

(** ** What assignment and concatenation refuse *)

Section Refusals.
Variable L : NumLib.
Import Np.

Lemma setitem_rejected (self : M.t) (a : ndarray (F L)) k v e
    (h : Store.store (F L)) :
  h !! M.A self = Some a ->
  resolve (shape a) (key_indices k) = Raise e ->
  M.__setitem__ L self k v h = (Raise e, h).
Proof.
  intros Hself Hk. rewrite (setitem_run L self a k v h Hself).
  rewrite (assign_item_rejected L a k v e Hk). cbn [fst snd].
  f_equal. apply list_insert_id. exact Hself.
Qed.

Lemma vstack_columns_differ {X} (a b : ndarray X) (r c r' c' : nat) :
  shape a = [r; c] -> shape b = [r'; c'] -> c <> c' ->
  vstack [a; b] = Raise ValueError.
Proof.
  intros Ha Hb Hc. unfold vstack, atleast_2d, concatenate0.
  cbn [map]. rewrite Ha, Hb. cbn [forallb]. rewrite Ha, Hb.
  rewrite (bool_decide_eq_false_2 ([c'] = [c])) by congruence.
  rewrite Bool.andb_false_r. reflexivity.
Qed.

Lemma hstack_rows_differ {X} (a b : ndarray X) (r c r' c' : nat) :
  shape a = [r; c] -> shape b = [r'; c'] -> r <> r' ->
  hstack [a; b] = Raise ValueError.
Proof.
  intros Ha Hb Hr. unfold hstack, atleast_1d, concatenate1, ndim.
  cbn [map]. rewrite Ha, Hb. cbn [forallb length Nat.eqb]. rewrite Ha, Hb.
  rewrite (bool_decide_eq_false_2 (r' = r /\ [] = []))
    by (intros [? _]; congruence).
  rewrite Bool.andb_false_r. reflexivity.
Qed.

(** X21.  An assignment [A[i, j] = x] with an integer outside the range
    of its axis, [-r <= i < r] and [-c <= j < c] for an [r x c] array,
    raises [IndexError] and leaves the array as it was, when [i] and [j]
    fit a signed 64-bit integer.  [A[r, c] = x], the last element in
    one-based counting, is such an assignment.  It raises [OverflowError],
    and leaves the array as it was, when one of the two is too large for a
    signed 64-bit integer but fits 64 bits unsigned, and the other is not
    below the signed range nor above the unsigned one (the axes being no
    longer than the largest signed 64-bit integer). *)
Theorem setitem_out_of_range (self : M.t) (a : ndarray (F L)) (r c : nat)
    (i j : Z) (x : F L) (h : Store.store (F L)) :
  h !! M.A self = Some a -> shape a = [r; c] ->
  (~ (- Z.of_nat r <= i < Z.of_nat r)%Z \/
   ~ (- Z.of_nat c <= j < Z.of_nat c)%Z ->
   (intp_min <= i <= intp_max)%Z -> (intp_min <= j <= intp_max)%Z ->
   M.__setitem__ L self (KTuple [IxInt i; IxInt j]) (InObj (PyFloat x)) h
   = (Raise IndexError, h)) /\
  ((Z.of_nat r <= intp_max)%Z -> (Z.of_nat c <= intp_max)%Z ->
   (intp_min <= i <= uintp_max)%Z -> (intp_min <= j <= uintp_max)%Z ->
   (intp_max < i)%Z \/ (intp_max < j)%Z ->
   M.__setitem__ L self (KTuple [IxInt i; IxInt j]) (InObj (PyFloat x)) h
   = (Raise OverflowError, h)).
Proof.
  intros Hself Hs. split.
  - intros Hout Hfi Hfj. apply (setitem_rejected self a _ _ _ h Hself).
    rewrite Hs. cbn [key_indices]. apply resolve_two_ints_outside.
    + apply index_conversion_fits, fits_intp_spec. exact Hfi.
    + apply index_conversion_fits, fits_intp_spec. exact Hfj.
    + destruct Hout as [Hi|Hj]; [left|right]; apply norm_int_outside;
        assumption.
  - intros Hr Hc Hi Hj Hbig. apply (setitem_rejected self a _ _ _ h Hself).
    rewrite Hs. cbn [key_indices]. apply resolve_two_ints_unconverted.
    destruct (decide (intp_max < i)%Z) as [Hi'|Hi'].
    + left. apply index_conversion_window; [lia|exact Hr].
    + right. split.
      * apply index_conversion_fits, fits_intp_spec. lia.
      * apply index_conversion_window; [|exact Hc].
        destruct Hbig; [contradiction|lia].
Qed.

(** X22.  [M.vcat] of two matrices whose numbers of columns differ and
    [M.hcat] of two matrices whose numbers of rows differ raise
    [ValueError], as do both without any argument; nothing is
    allocated. *)
Theorem concatenation_errors (x y : M.operand L) (a b : ndarray (F L))
    (r c r' c' : nat) (h : Store.store (F L)) :
  operand_array L h x = Some a -> operand_array L h y = Some b ->
  shape a = [r; c] -> shape b = [r'; c'] ->
  (c <> c' -> M.vcat L [x; y] h = (Raise ValueError, h)) /\
  (r <> r' -> M.hcat L [x; y] h = (Raise ValueError, h)) /\
  M.vcat L [] h = (Raise ValueError, h) /\
  M.hcat L [] h = (Raise ValueError, h).
Proof.
  intros Hx Hy Ha Hb.
  assert (Hargs : Forall2 (fun x a => operand_array L h x = Some a)
                    [x; y] [a; b]) by (repeat constructor; assumption).
  repeat match goal with |- _ /\ _ => split end.
  - intros Hc. rewrite (vcat_run L _ _ h Hargs).
    rewrite (vstack_columns_differ a b r c r' c' Ha Hb Hc). reflexivity.
  - intros Hr. rewrite (hcat_run L _ _ h Hargs).
    rewrite (hstack_rows_differ a b r c r' c' Ha Hb Hr). reflexivity.
  - reflexivity.
  - reflexivity.
Qed.

End Refusals.

(** [setitem_out_of_range] on [A = [[1, 2], [3, 4]]]: [A[2, 2] = 9.0] is
    out of range, and in [A[9223372036854775808, 0] = 9.0] the row index
    is too large to convert. *)
Lemma setitem_out_of_range_witness :
  M.__setitem__ ExampleLib.lib (M.mk 0) (Np.KTuple [Np.IxInt 2; Np.IxInt 2])
    (InObj (PyFloat 9%Z)) ExampleLib.store2
  = (Raise IndexError, ExampleLib.store2) /\
  M.__setitem__ ExampleLib.lib (M.mk 0)
    (Np.KTuple [Np.IxInt 9223372036854775808; Np.IxInt 0])
    (InObj (PyFloat 9%Z)) ExampleLib.store2
  = (Raise OverflowError, ExampleLib.store2).
Proof.
  split.
  - apply (proj1 (setitem_out_of_range ExampleLib.lib (M.mk 0) ExampleLib.a22
                    2 2 2 2 9%Z ExampleLib.store2 eq_refl eq_refl));
      unfold Np.intp_min, Np.intp_max; simpl; lia.
  - apply (proj2 (setitem_out_of_range ExampleLib.lib (M.mk 0) ExampleLib.a22
                    2 2 9223372036854775808 0 9%Z ExampleLib.store2
                    eq_refl eq_refl));
      unfold Np.intp_min, Np.intp_max, Np.uintp_max; simpl; lia.
Defined.

(** [concatenation_errors] on [A = [[1, 2], [3, 4]]] and the row
    [[1, 2, 3]]. *)
Lemma concatenation_errors_witness :
  M.vcat ExampleLib.lib
    [M.OpM ExampleLib.lib (M.mk 0);
     M.OpArr ExampleLib.lib (Np.mk_nd [1; 3] [1; 2; 3]%Z)] ExampleLib.store2
  = (Raise ValueError, ExampleLib.store2) /\
  M.hcat ExampleLib.lib
    [M.OpM ExampleLib.lib (M.mk 0);
     M.OpArr ExampleLib.lib (Np.mk_nd [1; 3] [1; 2; 3]%Z)] ExampleLib.store2
  = (Raise ValueError, ExampleLib.store2).
Proof.
  destruct (concatenation_errors ExampleLib.lib
              (M.OpM ExampleLib.lib (M.mk 0))
              (M.OpArr ExampleLib.lib (Np.mk_nd [1; 3] [1; 2; 3]%Z))
              ExampleLib.a22 (Np.mk_nd [1; 3] [1; 2; 3]%Z) 2 2 1 3
              ExampleLib.store2 eq_refl eq_refl eq_refl eq_refl)
    as (Hv & Hh & _).
  split; [apply Hv | apply Hh]; lia.
Defined.
